(** * Document intelligence pipeline: vector-index cache, RAG answers,
      structured analysis

    A shallow embedding of the Python backend
    ([app/services/qa_engine.py], [app/services/summarizer.py],
    [app/services/extractor.py], [app/models.py]) together with the
    properties stated for it.

    Conventions of the embedding.
    - A Python [str] is a [string]; one [ascii] stands for one character.
      Comparison is lexicographic on character codes, as Python's is.
    - A value produced by [json.loads] is a [json] tree; a Python [dict] is
      an association list read through its first binding of a key.
    - Calls into collaborators (file system, FAISS, the embedding model, the
      chat model, [json.loads], [print]) are nodes of a program tree
      ([prog]); a handler over a world state answers them.  A Python
      exception is a value [Raise e] threaded through the tree. *)

From Stdlib Require Import Ascii String.
From Stdlib Require Import ZArith QArith.
From stdpp Require Import base decidable list sorting strings pretty.


(** ** Python strings *)

(** [a <= b] on [str], Python's default ordering used by [sorted]. *)
Definition str_le (a b : string) : Prop := String.leb a b = true.

#[global] Instance str_le_dec (a b : string) : Decision (str_le a b).
Proof. unfold str_le. apply _. Defined.

(** [sorted(xs)] on a list of strings: a stable merge sort on [<=]. *)
Definition sorted (xs : list string) : list string := merge_sort str_le xs.

(** [sep.join(xs)]. *)
Definition join (sep : string) (xs : list string) : string :=
  String.concat sep xs.

(** [c in s] for a single character [c]. *)
Fixpoint contains_char (c : ascii) (s : string) : bool :=
  match s with
  | EmptyString => false
  | String d s' => if Ascii.eqb c d then true else contains_char c s'
  end.

(** ** IndexCache: the name of the persisted store
    ([get_or_create_vector_store], line 34) *)

Definition store_name_of (doc_ids : list string) : string :=
  join "_" (sorted doc_ids).

(** The spec's [IndexCache.keyFor]. *)
Definition keyFor (doc_ids : list string) : string := store_name_of doc_ids.

(** Two lists denote the same set of identifiers. *)
Definition same_set (xs ys : list string) : Prop :=
  forall x, x ∈ xs <-> x ∈ ys.

(** An identifier that is non-empty and has no ['_'] in it, as the
    identifiers minted by [process_document] ([str(uuid.uuid4())]) are. *)
Definition plain_id (s : string) : Prop :=
  s <> "" /\ contains_char "_"%char s = false.

(** What may follow an identifier inside a joined name: nothing, or the
    separator and the rest. *)
Definition sep_tail (r : string) : Prop :=
  r = "" \/ exists r', r = String "_"%char r'.

(** ** Exceptions and results *)

(** The exception classes the code raises or names in an [except] clause;
    any other [Exception] subclass a collaborator raises is [OtherException].
    [JSONDecodeError] and pydantic's [ValidationError] both derive from
    [ValueError]. *)
Inductive exn_class : Type :=
| ValueError
| TypeError
| AttributeError
| JSONDecodeError
| ValidationError
| OtherException (name : string).

(** An exception object: its class and [str(e)]. *)
Record exn : Type := Exn { exn_cls : exn_class; exn_msg : string }.

Inductive result (A : Type) : Type :=
| Ok (a : A)
| Raise (e : exn).
Arguments Ok {A} a.
Arguments Raise {A} e.

Definition is_Ok {A} (r : result A) : bool :=
  match r with Ok _ => true | Raise _ => false end.

Definition is_JSONDecodeError (e : exn) : bool :=
  match exn_cls e with JSONDecodeError => true | _ => false end.

Definition is_ValidationError (e : exn) : bool :=
  match exn_cls e with ValidationError => true | _ => false end.

(** ** JSON values, as [json.loads] returns them *)

#[warnings="-register-all"] Inductive json : Type :=
| JNull
| JBool (b : bool)
| JInt (n : Z)
| JFloat (repr : string)      (* a float, named by its [repr] *)
| JStr (s : string)
| JList (l : list json)
| JDict (d : list (string * json)).

(** A Python [dict] with string keys, in insertion order. *)
Definition dict : Type := list (string * json).

(** [d.get(k)] / [d[k]]. *)
Fixpoint dict_get (k : string) (d : dict) : option json :=
  match d with
  | [] => None
  | (k', v) :: d' => if String.eqb k k' then Some v else dict_get k d'
  end.

(** [k in d]. *)
Definition dict_has (k : string) (d : dict) : bool :=
  match dict_get k d with Some _ => true | None => false end.

(** [d[k] = v]: the binding is replaced in place, or added at the end. *)
Fixpoint dict_set (k : string) (v : json) (d : dict) : dict :=
  match d with
  | [] => [(k, v)]
  | (k', v') :: d' =>
      if String.eqb k k' then (k', v) :: d' else (k', v') :: dict_set k v d'
  end.

(** [if k not in d: d[k] = v]. *)
Definition backfill (k : string) (v : json) (d : dict) : dict :=
  if dict_has k d then d else dict_set k v d.

(** The bindings a [dict] iterates over: each key once, first binding. *)
Fixpoint dict_items_from (seen : list string) (d : dict) : dict :=
  match d with
  | [] => []
  | (k, v) :: d' =>
      if bool_decide (k ∈ seen) then dict_items_from seen d'
      else (k, v) :: dict_items_from (k :: seen) d'
  end.

Definition dict_items (d : dict) : dict := dict_items_from [] d.

(** [type(v).__name__]. *)
Definition type_name (v : json) : string :=
  match v with
  | JNull => "NoneType"
  | JBool _ => "bool"
  | JInt _ => "int"
  | JFloat _ => "float"
  | JStr _ => "str"
  | JList _ => "list"
  | JDict _ => "dict"
  end.

(** The characters of a string, each as a one-character string. *)
Fixpoint chars (s : string) : list string :=
  match s with
  | EmptyString => []
  | String c s' => String c EmptyString :: chars s'
  end.

(** [for x in v]: the elements a loop over [v] sees, or the [TypeError]
    of a value that cannot be iterated. *)
Definition iterate (v : json) : result (list json) :=
  match v with
  | JList l => Ok l
  | JDict d => Ok (map (fun kv => JStr (fst kv)) (dict_items d))
  | JStr s => Ok (map JStr (chars s))
  | _ => Raise (Exn TypeError
                  ("'" +:+ type_name v +:+ "' object is not iterable"))
  end.

(** [s in t] on strings. *)
Definition is_substring (s t : string) : bool :=
  match String.index 0 s t with Some _ => true | None => false end.

(** [k in v] for a string [k] and any JSON value [v]. *)
Definition json_contains (k : string) (v : json) : result bool :=
  match v with
  | JDict d => Ok (dict_has k d)
  | JList l =>
      Ok (existsb (fun x => match x with JStr s => String.eqb k s
                                       | _ => false end) l)
  | JStr s => Ok (is_substring k s)
  | _ => Raise (Exn TypeError
                  ("argument of type '" +:+ type_name v +:+
                   "' is not iterable"))
  end.

(** ** The report models ([app/models.py]) *)

Record RiskItem : Type := {
  title : string;
  why_it_matters : string;
  where_found : option string;
  mitigations : list string
}.

Record DecisionAssist : Type := {
  pros : list string;
  cons : list string;
  overall_take : string
}.

Record AnalysisReport : Type := {
  summary : list string;
  key_terms : list string;
  obligations : list (string * list string);
  costs_and_payments : list string;
  risks : list RiskItem;
  red_flags : list string;
  questions_to_ask : list string;
  negotiation_suggestions : list string;
  decision_assist : DecisionAssist
}.

(** *** Construction of a pydantic model from keyword arguments

    A model is built from a [dict] of keyword arguments.  Fields are
    visited in declaration order: a given value is validated against the
    field's type and its errors are collected; a field that is not given
    takes its default, and is an error ([missing]) when it has none.  An
    exception raised by a [default_factory] ends the construction at once.
    Keys that name no field are ignored. *)

Inductive loc_item : Type :=
| LKey (k : string)
| LIdx (i : nat).

(** One line of a [ValidationError]: where, and the error type. *)
Definition verror : Type := (list loc_item * string)%type.

Inductive validated (A : Type) : Type :=
| VOk (a : A)
| VErrs (es : list verror)
| VRaise (e : exn).
Arguments VOk {A} a.
Arguments VErrs {A} es.
Arguments VRaise {A} e.

(** Fields are combined left to right. *)
Definition v_ap {A B} (f : validated (A -> B)) (x : validated A)
  : validated B :=
  match f with
  | VRaise e => VRaise e
  | VOk g =>
      match x with
      | VOk a => VOk (g a)
      | VErrs es => VErrs es
      | VRaise e => VRaise e
      end
  | VErrs es =>
      match x with
      | VOk _ => VErrs es
      | VErrs es' => VErrs (es ++ es')
      | VRaise e => VRaise e
      end
  end.

Notation "f <*> x" := (v_ap f x) (at level 61, left associativity).

(** [str]. *)
Definition v_str (loc : list loc_item) (v : json) : validated string :=
  match v with
  | JStr s => VOk s
  | _ => VErrs [(loc, "string_type")]
  end.

(** The elements of a list, each validated at its index. *)
Fixpoint v_items {A} (f : list loc_item -> json -> validated A)
    (loc : list loc_item) (i : nat) (l : list json) : validated (list A) :=
  match l with
  | [] => VOk []
  | x :: l' =>
      VOk (fun a rest => a :: rest) <*> f (loc ++ [LIdx i]) x
        <*> v_items f loc (S i) l'
  end.

(** [List[T]]. *)
Definition v_list {A} (f : list loc_item -> json -> validated A)
    (loc : list loc_item) (v : json) : validated (list A) :=
  match v with
  | JList l => v_items f loc 0 l
  | _ => VErrs [(loc, "list_type")]
  end.

(** [Optional[str]]. *)
Definition v_optional_str (loc : list loc_item) (v : json)
  : validated (option string) :=
  match v with
  | JNull => VOk None
  | JStr s => VOk (Some s)
  | _ => VErrs [(loc, "string_type")]
  end.

Fixpoint v_entries {A} (f : list loc_item -> json -> validated A)
    (loc : list loc_item) (d : dict) : validated (list (string * A)) :=
  match d with
  | [] => VOk []
  | (k, x) :: d' =>
      VOk (fun a rest => (k, a) :: rest) <*> f (loc ++ [LKey k]) x
        <*> v_entries f loc d'
  end.

(** [Dict[str, T]]. *)
Definition v_dict {A} (f : list loc_item -> json -> validated A)
    (loc : list loc_item) (v : json) : validated (list (string * A)) :=
  match v with
  | JDict d => v_entries f loc (dict_items d)
  | _ => VErrs [(loc, "dict_type")]
  end.

(** A field of a model: the given value validated, or the default. *)
Definition v_field {A} (kwargs : dict) (loc : list loc_item) (name : string)
    (f : list loc_item -> json -> validated A)
    (default : option (validated A)) : validated A :=
  match dict_get name kwargs with
  | Some v => f (loc ++ [LKey name]) v
  | None =>
      match default with
      | Some a => a
      | None => VErrs [(loc ++ [LKey name], "missing")]
      end
  end.

(** The [ValidationError] pydantic raises for [n] collected errors; of its
    text only the heading line is kept. *)
Definition validation_error (model : string) (es : list verror) : exn :=
  Exn ValidationError
    (pretty (length es) +:+ " validation error" +:+
     (if Nat.eqb (length es) 1 then "" else "s") +:+ " for " +:+ model).

Definition construct {A} (model : string) (v : validated A) : result A :=
  match v with
  | VOk a => Ok a
  | VErrs es => Raise (validation_error model es)
  | VRaise e => Raise e
  end.

(** A [default_factory]: its value, or the exception it raises. *)
Definition from_factory {A} (r : result A) : validated A :=
  match r with
  | Ok a => VOk a
  | Raise e => VRaise e
  end.

(** [RiskItem]: [title] and [why_it_matters] are required. *)
Definition RiskItem_fields (loc : list loc_item) (kwargs : dict)
  : validated RiskItem :=
  VOk Build_RiskItem
    <*> v_field kwargs loc "title" v_str None
    <*> v_field kwargs loc "why_it_matters" v_str None
    <*> v_field kwargs loc "where_found" v_optional_str (Some (VOk None))
    <*> v_field kwargs loc "mitigations" (v_list v_str) (Some (VOk [])).

(** A [RiskItem]-typed field takes a [dict] of the model's fields. *)
Definition v_RiskItem (loc : list loc_item) (v : json) : validated RiskItem :=
  match v with
  | JDict d => RiskItem_fields loc d
  | _ => VErrs [(loc, "model_type")]
  end.

(** [DecisionAssist]: [overall_take: str] has no default. *)
Definition DecisionAssist_fields (loc : list loc_item) (kwargs : dict)
  : validated DecisionAssist :=
  VOk Build_DecisionAssist
    <*> v_field kwargs loc "pros" (v_list v_str) (Some (VOk []))
    <*> v_field kwargs loc "cons" (v_list v_str) (Some (VOk []))
    <*> v_field kwargs loc "overall_take" v_str None.

(** The call [DecisionAssist] with keyword arguments [kwargs]. *)
Definition DecisionAssist_new (kwargs : dict) : result DecisionAssist :=
  construct "DecisionAssist" (DecisionAssist_fields [] kwargs).

Definition v_DecisionAssist (loc : list loc_item) (v : json)
  : validated DecisionAssist :=
  match v with
  | JDict d => DecisionAssist_fields loc d
  | _ => VErrs [(loc, "model_type")]
  end.

(** The call [AnalysisReport] with keyword arguments [kwargs].  Every field has a default factory; that of
    [decision_assist] is the call [DecisionAssist()]. *)
Definition AnalysisReport_new (kwargs : dict) : result AnalysisReport :=
  construct "AnalysisReport"
    (VOk Build_AnalysisReport
      <*> v_field kwargs [] "summary" (v_list v_str) (Some (VOk []))
      <*> v_field kwargs [] "key_terms" (v_list v_str) (Some (VOk []))
      <*> v_field kwargs [] "obligations" (v_dict (v_list v_str))
            (Some (VOk []))
      <*> v_field kwargs [] "costs_and_payments" (v_list v_str)
            (Some (VOk []))
      <*> v_field kwargs [] "risks" (v_list v_RiskItem) (Some (VOk []))
      <*> v_field kwargs [] "red_flags" (v_list v_str) (Some (VOk []))
      <*> v_field kwargs [] "questions_to_ask" (v_list v_str) (Some (VOk []))
      <*> v_field kwargs [] "negotiation_suggestions" (v_list v_str)
            (Some (VOk []))
      <*> v_field kwargs [] "decision_assist" v_DecisionAssist
            (Some (from_factory (DecisionAssist_new [])))).

(** The report the spec calls all-defaults: every list empty, no
    obligations, an empty [DecisionAssist]. *)
Definition empty_report : AnalysisReport := {|
  summary := [];
  key_terms := [];
  obligations := [];
  costs_and_payments := [];
  risks := [];
  red_flags := [];
  questions_to_ask := [];
  negotiation_suggestions := [];
  decision_assist := {| pros := []; cons := []; overall_take := "" |}
|}.

(** ** Collaborators *)

(** The two directories of [app/config.py] the pipeline reads and writes. *)
Inductive dir : Type :=
| TEXT_CACHE_DIR
| VECTOR_STORE_DIR.

(** The path [d / name]. *)
Record path : Type := Path { path_dir : dir; path_name : string }.

(** The settings of [app/config.py] the pipeline imports.
    [GOOGLE_CLOUD_PROJECT] is imported by both services and not defined in
    the configuration module at hand, so it is a field here like the rest. *)
Record Config : Type := {
  EMBEDDINGS_MODEL_NAME : string;
  GEMINI_MODEL_NAME : string;
  VERTEX_AI_LOCATION : string;
  GOOGLE_CLOUD_PROJECT : string
}.

(** The handle [HuggingFaceEmbeddings(model_name=...)]. *)
Record Embeddings : Type := { emb_model_name : string }.

(** A FAISS vector store: the chunk texts it indexes, in insertion order. *)
Record FAISS : Type := { docstore : list string }.

(** A retrieved document. *)
Record Document : Type := { page_content : string }.

(** The arguments of [ChatVertexAI(...)], and the handle it returns. *)
Record ChatVertexAI : Type := {
  model_name : string;
  location : string;
  project : option string;
  temperature : Q;
  max_output_tokens : Z
}.

(** What [llm.invoke] returns: its [content] attribute when it has one, and
    its [str()]. *)
Record Response : Type := {
  content : option string;
  response_str : string
}.

(** The calls the pipeline makes to its collaborators, indexed by the type
    of what comes back.  A call that can raise comes back as a [result]. *)
Inductive event : Type -> Type :=
| path_exists (p : path) : event (result bool)
| read_text (p : path) : event (result string)
| FAISS_load_local (folder : dir) (emb : Embeddings) (index_name : string)
    : event (result FAISS)
| FAISS_from_texts (texts : list string) (emb : Embeddings)
    : event (result FAISS)
| FAISS_save_local (vs : FAISS) (folder : dir) (index_name : string)
    : event (result unit)
| FAISS_similarity_search (vs : FAISS) (query : string) (k : nat)
    : event (result (list Document))
| split_text (chunk_size chunk_overlap : nat) (text : string)
    : event (list string)
| ChatVertexAI_new (args : ChatVertexAI) : event (result ChatVertexAI)
| llm_invoke (llm : ChatVertexAI) (prompt : string) : event (result Response)
| json_loads (s : string) : event (result json)
| print (s : string) : event unit.

(** ** Programs *)

(** A program is the tree of its collaborator calls. *)
Inductive prog (A : Type) : Type :=
| Ret (a : A)
| Vis (X : Type) (e : event X) (k : X -> prog A).
Arguments Ret {A} a.
Arguments Vis {A X} e k.

Fixpoint bind {A B} (p : prog A) (f : A -> prog B) : prog B :=
  match p with
  | Ret a => f a
  | Vis e k => Vis e (fun x => bind (k x) f)
  end.

(** A Python computation: a program that returns or raises. *)
Definition py (A : Type) : Type := prog (result A).

Definition ret {A} (a : A) : py A := Ret (Ok a).

Definition raise {A} (e : exn) : py A := Ret (Raise e).

(** Sequencing; an exception skips the rest. *)
Definition py_bind {A B} (p : py A) (f : A -> py B) : py B :=
  bind p (fun r => match r with Ok a => f a | Raise e => raise e end).

Notation "x <- p ;; q" := (py_bind p (fun x => q))
  (at level 100, p at next level, right associativity).

(** A call that cannot raise. *)
Definition call {X} (e : event X) : py X := Vis e (fun x => Ret (Ok x)).

(** A call that returns or raises. *)
Definition callr {X} (e : event (result X)) : py X := Vis e (fun r => Ret r).

(** [try: body  except ...: ...]: [handlers] picks the first clause that
    matches the exception, if any.  An exception raised inside a clause is
    not tried against the others. *)
Definition try_except {A} (body : py A) (handlers : exn -> option (py A))
  : py A :=
  bind body (fun r =>
    match r with
    | Ok a => ret a
    | Raise e =>
        match handlers e with
        | Some h => h
        | None => raise e
        end
    end).

(** [except Exception as e: h e]. *)
Definition except_Exception {A} (h : exn -> py A) : exn -> option (py A) :=
  fun e => Some (h e).

(** ** Running a program against its collaborators *)

(** The collaborators: each call is answered from a world state. *)
Definition handler (W : Type) : Type := forall X, event X -> W -> X * W.

(** A recorded call. *)
Inductive called : Type :=
| Called {X : Type} (e : event X).

Record outcome (A W : Type) : Type := Outcome {
  value : A;
  world : W;
  trace : list called
}.
Arguments Outcome {A W} value world trace.
Arguments value {A W} o.
Arguments world {A W} o.
Arguments trace {A W} o.

Fixpoint run {W A} (h : handler W) (p : prog A) (w : W) : outcome A W :=
  match p with
  | Ret a => Outcome a w []
  | Vis e k =>
      let r := h _ e w in
      let o := run h (k (fst r)) (snd r) in
      Outcome (value o) (world o) (Called e :: trace o)
  end.

(** ** Text store ([app/services/extractor.py]) *)

(** The line break. *)
Definition nl : string := String (ascii_of_nat 10) EmptyString.

(** [load_extracted_text]: the cached text, or [None] when there is no
    file or reading it fails. *)
Definition load_extracted_text (doc_id : string) : py (option string) :=
  try_except
    (let text_file :=
       Path TEXT_CACHE_DIR ("extract_" +:+ doc_id +:+ ".txt") in
     found <- callr (path_exists text_file) ;;
     if negb found then ret None
     else
       text <- callr (read_text text_file) ;;
       ret (Some text))
    (except_Exception (fun e =>
       _ <- call (print ("Error loading extracted text: " +:+ exn_msg e)) ;;
       ret None)).

(** [if text:] on an optional string. *)
Definition has_text (text : option string) : bool :=
  match text with
  | Some s => negb (String.eqb s "")
  | None => false
  end.

(** ** RAG engine ([app/services/qa_engine.py]) *)

Section QAEngine.

(** The process settings and the module-level [embeddings] handle, which is
    [None] when the embeddings model could not be loaded at import. *)
Variable cfg : Config.
Variable embeddings : option Embeddings.

(** Lines 50-54: the texts of the documents that have one. *)
Fixpoint load_all_texts (doc_ids : list string) (all_texts : list string)
  : py (list string) :=
  match doc_ids with
  | [] => ret all_texts
  | doc_id :: rest =>
      text <- load_extracted_text doc_id ;;
      load_all_texts rest
        (match text with
         | Some s => if has_text text then all_texts ++ [s] else all_texts
         | None => all_texts
         end)
  end.

Definition DOCUMENT_SEPARATOR : string :=
  nl +:+ nl +:+ "---DOCUMENT SEPARATOR---" +:+ nl +:+ nl.

(** Lines 49-86: build the store from the documents' texts and save it. *)
Definition create_vector_store (emb : Embeddings) (doc_ids : list string)
    (store_name : string) : py (option FAISS) :=
  all_texts <- load_all_texts doc_ids [] ;;
  match all_texts with
  | [] => ret None
  | _ :: _ =>
      let combined_text := join DOCUMENT_SEPARATOR all_texts in
      chunks <- call (split_text 1000 200 combined_text) ;;
      match chunks with
      | [] => ret None
      | _ :: _ =>
          try_except
            (vector_store <- callr (FAISS_from_texts chunks emb) ;;
             _ <- callr (FAISS_save_local vector_store VECTOR_STORE_DIR
                           store_name) ;;
             ret (Some vector_store))
            (except_Exception (fun e =>
               _ <- call (print ("Error creating vector store: " +:+
                                 exn_msg e)) ;;
               ret None))
      end
  end.

(** Lines 38-47: the attempt to load a persisted store; [None] when the
    code falls through to the build.  The two [exists()] checks stand
    outside the [try]: an exception of theirs leaves the function. *)
Definition load_vector_store (emb : Embeddings) (store_name : string)
  : py (option FAISS) :=
  faiss_found <-
    callr (path_exists (Path VECTOR_STORE_DIR (store_name +:+ ".faiss"))) ;;
  pkl_found <-
    (if faiss_found
     then callr (path_exists (Path VECTOR_STORE_DIR (store_name +:+ ".pkl")))
     else ret false) ;;
  if pkl_found then
    try_except
      (vector_store <-
         callr (FAISS_load_local VECTOR_STORE_DIR emb store_name) ;;
       ret (Some vector_store))
      (except_Exception (fun e =>
         _ <- call (print ("Error loading vector store: " +:+ exn_msg e)) ;;
         ret None))
  else ret None.

Definition get_or_create_vector_store (doc_ids : list string)
  : py (option FAISS) :=
  match embeddings with
  | None => ret None
  | Some emb =>
      let store_name := join "_" (sorted doc_ids) in
      loaded <- load_vector_store emb store_name ;;
      match loaded with
      | Some vector_store => ret (Some vector_store)
      | None => create_vector_store emb doc_ids store_name
      end
  end.

Definition get_qa_prompt (query context : string) : string :=
  join nl [
    "You are a helpful legal document assistant. Answer the user's question based on the following document context.";
    "";
    "Document Context:";
    context;
    "";
    "User Question: " +:+ query;
    "";
    "Provide a clear, concise, and accurate answer based solely on the document context provided. If the context doesn't contain enough information to answer the question, say so. Do not make up information.";
    "";
    "Answer:"
  ].

(** [response.content if hasattr(response, 'content') else str(response)]. *)
Definition response_text (response : Response) : string :=
  match content response with
  | Some c => c
  | None => response_str response
  end.

(** [GOOGLE_CLOUD_PROJECT if GOOGLE_CLOUD_PROJECT else None]. *)
Definition project_of (c : Config) : option string :=
  if String.eqb (GOOGLE_CLOUD_PROJECT c) "" then None
  else Some (GOOGLE_CLOUD_PROJECT c).

Definition NO_DOCUMENTS : string :=
  "No documents available to answer your question.".

Definition INDEXING_FAILED : string :=
  "Error: Could not create vector store from documents. Please ensure documents are properly processed.".

Definition SORRY : string :=
  "Sorry, I encountered an error while processing your question: ".

(** Lines 123-142: search, prompt and completion over a store. *)
Definition answer_from (vector_store : FAISS) (query : string) : py string :=
  docs <- callr (FAISS_similarity_search vector_store query 3) ;;
  let context := join (nl +:+ nl) (map page_content docs) in
  llm <- callr (ChatVertexAI_new {|
           model_name := GEMINI_MODEL_NAME cfg;
           location := VERTEX_AI_LOCATION cfg;
           project := project_of cfg;
           temperature := 3 # 10;
           max_output_tokens := 2048 |}) ;;
  let prompt := get_qa_prompt query context in
  response <- callr (llm_invoke llm prompt) ;;
  ret (response_text response).

Definition _chat_with_documents_sync (doc_ids : list string) (query : string)
  : py string :=
  match doc_ids with
  | [] => ret NO_DOCUMENTS
  | _ :: _ =>
      try_except
        (vector_store <- get_or_create_vector_store doc_ids ;;
         match vector_store with
         | None => ret INDEXING_FAILED
         | Some vs => answer_from vs query
         end)
        (except_Exception (fun e =>
           _ <- call (print ("Error in chat_with_documents: " +:+
                             exn_msg e)) ;;
           ret (SORRY +:+ exn_msg e)))
  end.

End QAEngine.

(** ** Analysis ([app/services/summarizer.py]) *)

(** The double quote. *)
Definition dq : string := String (ascii_of_nat 34) EmptyString.

(** [s] between double quotes. *)
Definition q (s : string) : string := dq +:+ s +:+ dq.

Definition get_summarization_prompt (text : string) : string :=
  join nl [
    "You are a legal clarity assistant specializing in analyzing legal documents and contracts. ";
    "Analyze the following document and provide a comprehensive structured analysis.";
    "";
    "Document Text:";
    String.substring 0 (10 * 1000) text +:+ "  # Limit to first 10k chars to avoid token limits";
    "";
    "Please analyze this document and return a JSON object with the following structure:";
    "{";
    "    " +:+ q "summary" +:+ ": [" +:+ q "point 1" +:+ ", " +:+ q "point 2" +:+ ", ...],  // A list of summary points (strings)";
    "    " +:+ q "key_terms" +:+ ": [" +:+ q "term1" +:+ ", " +:+ q "term2" +:+ ", ...],  // Important legal terms found in the document";
    "    " +:+ q "obligations" +:+ ": {  // Key obligations organized by party or topic";
    "        " +:+ q "Party A" +:+ ": [" +:+ q "obligation 1" +:+ ", " +:+ q "obligation 2" +:+ "],";
    "        " +:+ q "Party B" +:+ ": [" +:+ q "obligation 1" +:+ ", " +:+ q "obligation 2" +:+ "]";
    "    },";
    "    " +:+ q "costs_and_payments" +:+ ": [" +:+ q "cost/payment point 1" +:+ ", ...],  // Financial obligations and costs";
    "    " +:+ q "risks" +:+ ": [  // Risk assessment";
    "        {";
    "            " +:+ q "title" +:+ ": " +:+ q "Risk title" +:+ ",";
    "            " +:+ q "why_it_matters" +:+ ": " +:+ q "Explanation of why this risk matters" +:+ ",";
    "            " +:+ q "where_found" +:+ ": " +:+ q "Section or clause reference (optional)" +:+ ",";
    "            " +:+ q "mitigations" +:+ ": [" +:+ q "mitigation 1" +:+ ", " +:+ q "mitigation 2" +:+ "]";
    "        }";
    "    ],";
    "    " +:+ q "red_flags" +:+ ": [" +:+ q "flag 1" +:+ ", " +:+ q "flag 2" +:+ ", ...],  // Critical issues or warning signs";
    "    " +:+ q "questions_to_ask" +:+ ": [" +:+ q "question 1" +:+ ", " +:+ q "question 2" +:+ ", ...],  // Questions to clarify with the other party";
    "    " +:+ q "negotiation_suggestions" +:+ ": [" +:+ q "suggestion 1" +:+ ", ...],  // Recommendations for negotiation";
    "    " +:+ q "decision_assist" +:+ ": {";
    "        " +:+ q "pros" +:+ ": [" +:+ q "pro 1" +:+ ", " +:+ q "pro 2" +:+ ", ...],";
    "        " +:+ q "cons" +:+ ": [" +:+ q "con 1" +:+ ", " +:+ q "con 2" +:+ ", ...],";
    "        " +:+ q "overall_take" +:+ ": " +:+ q "Overall assessment and recommendation";
    "    }";
    "}";
    "";
    "IMPORTANT: Return ONLY valid JSON. Do not include any markdown formatting, code blocks, or additional text.";
    "The JSON must be valid and parseable."
  ].

(** [str.isspace] on one character: what [\s] matches and [strip] strips. *)
Definition is_space (c : ascii) : bool :=
  let n := nat_of_ascii c in
  (Nat.leb 9 n && Nat.leb n 13) || (Nat.leb 28 n && Nat.leb n 32)
  || Nat.eqb n 133 || Nat.eqb n 160.

(** [re.sub(marker + r'\s*', '', s)] for a non-empty literal [marker]:
    every occurrence of the marker goes, with the white space after it.
    [skip] counts the characters of a found marker still to drop;
    [spaces] tells that the white space after a marker is being dropped. *)
Fixpoint re_sub_marker (marker : string) (skip : nat) (spaces : bool)
    (s : string) : string :=
  match s with
  | EmptyString => EmptyString
  | String c s' =>
      match skip with
      | S n => re_sub_marker marker n true s'
      | O =>
          if spaces && is_space c then re_sub_marker marker 0 true s'
          else if String.prefix marker s
          then re_sub_marker marker (String.length marker - 1) true s'
          else String c (re_sub_marker marker 0 false s')
      end
  end.

Fixpoint lstrip (s : string) : string :=
  match s with
  | EmptyString => EmptyString
  | String c s' => if is_space c then lstrip s' else s
  end.

Fixpoint rstrip (s : string) : string :=
  match s with
  | EmptyString => EmptyString
  | String c s' =>
      match rstrip s' with
      | EmptyString => if is_space c then EmptyString else String c EmptyString
      | r => String c r
      end
  end.

(** [s.strip()]. *)
Definition strip (s : string) : string := rstrip (lstrip s).

(** The suffix of [s] that starts at its first ['{'], without that brace. *)
Fixpoint after_first_open (s : string) : option string :=
  match s with
  | EmptyString => None
  | String c s' => if Ascii.eqb c "{" then Some s' else after_first_open s'
  end.

(** The prefix of [s] that ends at its last ['}'], brace included. *)
Fixpoint upto_last_close (s : string) : option string :=
  match s with
  | EmptyString => None
  | String c s' =>
      match upto_last_close s' with
      | Some r => Some (String c r)
      | None => if Ascii.eqb c "}" then Some (String c EmptyString) else None
      end
  end.

(** [re.search(r'\{.*\}', s, re.DOTALL)]: the match runs from the first
    ['{'] to the last ['}'] after it. *)
Definition search_braces (s : string) : option string :=
  match after_first_open s with
  | None => None
  | Some rest =>
      match upto_last_close rest with
      | Some body => Some (String "{" body)
      | None => None
      end
  end.

Definition clean_json_response (response_text : string) : string :=
  let response_text := re_sub_marker "```json" 0 false response_text in
  let response_text := re_sub_marker "```" 0 false response_text in
  let response_text := strip response_text in
  match search_braces response_text with
  | Some json_match => json_match
  | None => response_text
  end.

(** Sequencing of plain results. *)
Definition rbind {A B} (r : result A) (f : A -> result B) : result B :=
  match r with
  | Ok a => f a
  | Raise e => Raise e
  end.

Notation "x <~ r ;; q" := (rbind r (fun x => q))
  (at level 100, r at next level, right associativity).

(** A computed result as a program. *)
Definition lift {A} (r : result A) : py A := Ret r.

(** [data[k] = v]. *)
Definition setitem (k : string) (v : json) (data : json) : result json :=
  match data with
  | JDict d => Ok (JDict (dict_set k v d))
  | JList _ =>
      Raise (Exn TypeError "list indices must be integers or slices, not str")
  | _ =>
      Raise (Exn TypeError ("'" +:+ type_name data +:+
                            "' object does not support item assignment"))
  end.

(** [if k not in data: data[k] = v]. *)
Definition ensure (k : string) (v : json) (data : json) : result json :=
  present <~ json_contains k data ;;
  if present then Ok data else setitem k v data.

(** [data.get(k, default)]. *)
Definition get_or (k : string) (default : json) (data : json) : result json :=
  match data with
  | JDict d =>
      Ok (match dict_get k d with Some v => v | None => default end)
  | _ =>
      Raise (Exn AttributeError ("'" +:+ type_name data +:+
                                 "' object has no attribute 'get'"))
  end.

(** [data[k]] read. *)
Definition getitem (k : string) (data : json) : result json :=
  match data with
  | JDict d =>
      match dict_get k d with
      | Some v => Ok v
      | None => Raise (Exn (OtherException "KeyError") ("'" +:+ k +:+ "'"))
      end
  | _ =>
      Raise (Exn TypeError ("'" +:+ type_name data +:+
                            "' object is not subscriptable"))
  end.

Definition EMPTY_DECISION_ASSIST : json :=
  JDict [("pros", JList []); ("cons", JList []); ("overall_take", JStr "")].

(** Lines 71-88: every field of the report gets its default when absent. *)
Definition ensure_fields (data : json) : result json :=
  data <~ ensure "summary" (JList []) data ;;
  data <~ ensure "key_terms" (JList []) data ;;
  data <~ ensure "obligations" (JDict []) data ;;
  data <~ ensure "costs_and_payments" (JList []) data ;;
  data <~ ensure "risks" (JList []) data ;;
  data <~ ensure "red_flags" (JList []) data ;;
  data <~ ensure "questions_to_ask" (JList []) data ;;
  data <~ ensure "negotiation_suggestions" (JList []) data ;;
  ensure "decision_assist" EMPTY_DECISION_ASSIST data.

(** Lines 94-99: the three defaults of a risk entry. *)
Definition coerce_risk (risk : dict) : dict :=
  let risk := backfill "title" (JStr "Untitled Risk") risk in
  let risk := backfill "why_it_matters" (JStr "") risk in
  backfill "mitigations" (JList []) risk.

(** Lines 91-100: the entries that are objects, each with its defaults. *)
Definition validated_risks_of (entries : list json) : list json :=
  omap (fun risk =>
          match risk with
          | JDict d => Some (JDict (coerce_risk d))
          | _ => None
          end) entries.

(** Lines 105-110: the three defaults of [decision_assist]. *)
Definition coerce_decision_assist (da : dict) : dict :=
  let da := backfill "pros" (JList []) da in
  let da := backfill "cons" (JList []) da in
  backfill "overall_take" (JStr "") da.

(** Lines 70-110: the coercion of the parsed value, up to the structure the
    model is built from. *)
Definition coerce_analysis_data (data : json) : result json :=
  data <~ ensure_fields data ;;
  risks_value <~ get_or "risks" (JList []) data ;;
  entries <~ iterate risks_value ;;
  data <~ setitem "risks" (JList (validated_risks_of entries)) data ;;
  da <~ getitem "decision_assist" data ;;
  match da with
  | JDict d => setitem "decision_assist" (JDict (coerce_decision_assist d)) data
  | _ => Ok data
  end.

(** The keyword arguments a value unpacks to. *)
Definition kwargs_of (data : json) : result dict :=
  match data with
  | JDict d => Ok d
  | _ =>
      Raise (Exn TypeError "argument after ** must be a mapping")
  end.

Definition validate_and_coerce_analysis (data : json) : py AnalysisReport :=
  try_except
    (data <- lift (coerce_analysis_data data) ;;
     kwargs <- lift (kwargs_of data) ;;
     lift (AnalysisReport_new kwargs))
    (fun e =>
       if is_ValidationError e then
         Some (_ <- call (print ("Validation error: " +:+ exn_msg e)) ;;
               lift (AnalysisReport_new []))
       else None).

Section Summarizer.

Variable cfg : Config.

(** The two [except] clauses of [_summarize_document_sync], with the value
    [response_text] has when the exception arrives. *)
Definition summarize_except (response_text : string)
  : exn -> option (py AnalysisReport) :=
  fun e =>
    if is_JSONDecodeError e then
      Some (_ <- call (print ("JSON decode error: " +:+ exn_msg e)) ;;
            _ <- (if negb (String.eqb response_text "")
                  then call (print ("Response text: " +:+
                                    String.substring 0 500 response_text))
                  else ret tt) ;;
            lift (AnalysisReport_new []))
    else
      Some (_ <- call (print ("Error summarizing document: " +:+
                              exn_msg e)) ;;
            lift (AnalysisReport_new [])).

(** Lines 136-150: the completion call; [response_text] is set at its end. *)
Definition ask_model (text : string) : py string :=
  llm <- callr (ChatVertexAI_new {|
           model_name := GEMINI_MODEL_NAME cfg;
           location := VERTEX_AI_LOCATION cfg;
           project := project_of cfg;
           temperature := 2 # 10;
           max_output_tokens := 4096 |}) ;;
  let prompt := get_summarization_prompt text in
  response <- callr (llm_invoke llm prompt) ;;
  ret (response_text response).

(** Lines 152-159: clean, parse, coerce. *)
Definition parse_report (response_text : string) : py AnalysisReport :=
  let json_text := clean_json_response response_text in
  analysis_data <- callr (json_loads json_text) ;;
  report <- validate_and_coerce_analysis analysis_data ;;
  ret report.

Definition _summarize_document_sync (doc_id : string) : py AnalysisReport :=
  text <- load_extracted_text doc_id ;;
  match text with
  | Some t =>
      if has_text text then
        bind (ask_model t) (fun r =>
          match r with
          | Raise e =>
              match summarize_except "" e with
              | Some h => h
              | None => raise e
              end
          | Ok response_text =>
              try_except (parse_report response_text)
                (summarize_except response_text)
          end)
      else raise (Exn ValueError
                    ("No extracted text found for document " +:+ doc_id))
  | None =>
      raise (Exn ValueError
               ("No extracted text found for document " +:+ doc_id))
  end.

End Summarizer.

(** ** ChunkSplitter *)

Section ChunkSplitter.

Context {A : Type}.

(** Modelled from the spec: the window sequence of ChunkSplitter.split,
    which the source delegates to RecursiveCharacterTextSplitter, a class of
    the langchain package whose code is not part of the repository.  The
    spec asks for windows of at most [maxLen] units in document order,
    consecutive windows sharing [overlap] units, and a last window that
    keeps the trailing content.  A window is paired with its offset in the
    text; [step] is the distance between the starts of two windows; [fuel]
    bounds the number of windows. *)
Fixpoint windows (fuel maxLen step off : nat) (rest : list A)
  : list (nat * list A) :=
  match fuel with
  | O => []
  | S fuel' =>
      match rest with
      | [] => []
      | _ :: _ =>
          if Nat.leb (length rest) maxLen then [(off, rest)]
          else (off, take maxLen rest)
                 :: windows fuel' maxLen step (off + step) (drop step rest)
      end
  end.

(** Modelled from the spec: ChunkSplitter.split with the offsets of its
    windows.  An overlap that is not below the window length, which the
    spec leaves to the implementer, is clamped to a step of one unit. *)
Definition split_windows (text : list A) (maxLen overlap : nat)
  : list (nat * list A) :=
  windows (length text) maxLen (Nat.max 1 (maxLen - overlap)) 0 text.

(** Modelled from the spec: ChunkSplitter.split, the ordered sequence of
    chunks. *)
Definition split (text : list A) (maxLen overlap : nat) : list (list A) :=
  map snd (split_windows text maxLen overlap).

End ChunkSplitter.

(** ** A scripted environment

    Collaborators that answer from a script, and record what [print]
    writes: the environment the concrete runs below are made in. *)

Module Stub.

Record script : Type := {
  s_exists : path -> bool;
  s_read : path -> result string;
  s_load_local : result FAISS;
  s_from_texts : list string -> result FAISS;
  s_save_local : result unit;
  s_search : result (list Document);
  s_chat_model : result unit;
  s_invoke : string -> result Response;
  s_json_loads : string -> result json
}.

(** The world is the standard output so far. *)
Definition stdout : Type := list string.

Definition chunks_of (text : string) (chunk_size chunk_overlap : nat)
  : list string :=
  map string_of_list_ascii
    (split (list_ascii_of_string text) chunk_size chunk_overlap).

(** [Path.exists] on a file system whose names hold at most 255 bytes:
    the check of a longer name raises [OSError] (errno 36,
    [ENAMETOOLONG]), which [exists] does not ignore. *)
Definition NAME_MAX : nat := 255.

Definition name_too_long : exn :=
  Exn (OtherException "OSError") "[Errno 36] File name too long".

Definition too_long (p : path) : bool :=
  Nat.ltb NAME_MAX (String.length (path_name p)).

Definition exists_on_disk (found : path -> bool) (p : path) : result bool :=
  if too_long p then Raise name_too_long else Ok (found p).

Definition handle (s : script) : handler stdout :=
  fun X e w =>
    match e in event X return X * stdout with
    | path_exists p => (exists_on_disk (s_exists s) p, w)
    | read_text p => (s_read s p, w)
    | FAISS_load_local _ _ _ => (s_load_local s, w)
    | FAISS_from_texts texts _ => (s_from_texts s texts, w)
    | FAISS_save_local _ _ _ => (s_save_local s, w)
    | FAISS_similarity_search _ _ _ => (s_search s, w)
    | split_text size overlap text => (chunks_of text size overlap, w)
    | ChatVertexAI_new args =>
        (match s_chat_model s with
         | Ok _ => Ok args
         | Raise e => Raise e
         end, w)
    | llm_invoke _ prompt => (s_invoke s prompt, w)
    | json_loads text => (s_json_loads s text, w)
    | print line => (tt, w ++ [line])
    end.

Definition cfg : Config := {|
  EMBEDDINGS_MODEL_NAME := "sentence-transformers/all-MiniLM-L6-v2";
  GEMINI_MODEL_NAME := "gemini-2.0-flash-exp";
  VERTEX_AI_LOCATION := "us-central1";
  GOOGLE_CLOUD_PROJECT := ""
|}.

Definition emb : Embeddings :=
  {| emb_model_name := EMBEDDINGS_MODEL_NAME cfg |}.

Definition text_file (doc_id : string) : path :=
  Path TEXT_CACHE_DIR ("extract_" +:+ doc_id +:+ ".txt").

Definition path_eqb (p p' : path) : bool :=
  match path_dir p, path_dir p' with
  | TEXT_CACHE_DIR, TEXT_CACHE_DIR | VECTOR_STORE_DIR, VECTOR_STORE_DIR =>
      String.eqb (path_name p) (path_name p')
  | _, _ => false
  end.

Definition no_such_file : exn :=
  Exn (OtherException "FileNotFoundError") "No such file or directory".

(** One document, [doc-1], with an extracted text; no persisted index; a
    model that answers [reply]; a parser that knows the empty object and
    rejects everything else. *)
Definition one_document (reply : result Response) : script := {|
  s_exists := fun p => path_eqb p (text_file "doc-1");
  s_read := fun p =>
    if path_eqb p (text_file "doc-1")
    then Ok "This agreement is made between Party A and Party B."
    else Raise no_such_file;
  s_load_local := Raise no_such_file;
  s_from_texts := fun texts => Ok {| docstore := texts |};
  s_save_local := Ok tt;
  s_search :=
    Ok [{| page_content :=
             "This agreement is made between Party A and Party B." |}];
  s_chat_model := Ok tt;
  s_invoke := fun _ => reply;
  s_json_loads := fun text =>
    if String.eqb text "{}" then Ok (JDict [])
    else Raise (Exn JSONDecodeError
                  "Expecting value: line 1 column 1 (char 0)")
|}.

Definition says (text : string) : result Response :=
  Ok {| content := Some text; response_str := text |}.

(** As [one_document], with both files of the persisted index of [doc-1]
    on disk and a load that fails on them. *)
Definition corrupt_index (reply : result Response) : script := {|
  s_exists := fun p =>
    path_eqb p (text_file "doc-1")
    || path_eqb p (Path VECTOR_STORE_DIR "doc-1.faiss")
    || path_eqb p (Path VECTOR_STORE_DIR "doc-1.pkl");
  s_read := s_read (one_document reply);
  s_load_local :=
    Raise (Exn (OtherException "UnpicklingError") "pickle data was truncated");
  s_from_texts := s_from_texts (one_document reply);
  s_save_local := Ok tt;
  s_search := s_search (one_document reply);
  s_chat_model := Ok tt;
  s_invoke := fun _ => reply;
  s_json_loads := s_json_loads (one_document reply)
|}.

End Stub.

(** What the collaborators answer to a call made in world [w], and the
    world after it. *)
Definition answer {W X} (h : handler W) (e : event X) (w : W) : X :=
  fst (h X e w).

Definition after {W X} (h : handler W) (e : event X) (w : W) : W :=
  snd (h X e w).

(** The program returns: no exception leaves it. *)
Definition returns {W A} (h : handler W) (p : py A) (w : W) : Prop :=
  exists a, value (run h p w) = Ok a.


(** One of the capability calls [answer_from] makes fails with [e]: the
    similarity search, the construction of the chat model, or the
    completion. *)
Definition capability_failure {W} (h : handler W) (cfg : Config)
    (vs : FAISS) (query : string) (w : W) (e : exn) : Prop :=
  let search := FAISS_similarity_search vs query 3 in
  let new_llm := ChatVertexAI_new {|
    model_name := GEMINI_MODEL_NAME cfg;
    location := VERTEX_AI_LOCATION cfg;
    project := project_of cfg;
    temperature := 3 # 10;
    max_output_tokens := 2048 |} in
  answer h search w = Raise e \/
  (exists docs,
     answer h search w = Ok docs /\
     let w1 := after h search w in
     (answer h new_llm w1 = Raise e \/
      exists llm,
        answer h new_llm w1 = Ok llm /\
        answer h
          (llm_invoke llm
             (get_qa_prompt query (join (nl +:+ nl) (map page_content docs))))
          (after h new_llm w1) = Raise e)).

(** ** Vocabulary of the analysis properties *)

(** The error [DecisionAssist()] raises: [overall_take] is missing. *)
Definition missing_overall_take : exn :=
  validation_error "DecisionAssist" [([LKey "overall_take"], "missing")].

(** The error of [_summarize_document_sync] for a document without text. *)
Definition not_found (doc_id : string) : exn :=
  Exn ValueError ("No extracted text found for document " +:+ doc_id).

(** [json.loads] did not produce a JSON object: it raised, or it produced
    a value of another kind. *)
Definition no_json_object (r : result json) : Prop :=
  match r with
  | Ok (JDict _) => False
  | _ => True
  end.

(** The default the coercion gives to a field of the report. *)
Definition report_default (k : string) : option json :=
  if String.eqb k "summary" then Some (JList [])
  else if String.eqb k "key_terms" then Some (JList [])
  else if String.eqb k "obligations" then Some (JDict [])
  else if String.eqb k "costs_and_payments" then Some (JList [])
  else if String.eqb k "risks" then Some (JList [])
  else if String.eqb k "red_flags" then Some (JList [])
  else if String.eqb k "questions_to_ask" then Some (JList [])
  else if String.eqb k "negotiation_suggestions" then Some (JList [])
  else if String.eqb k "decision_assist" then Some EMPTY_DECISION_ASSIST
  else None.

(** The default the coercion gives to a key of a risk entry. *)
Definition risk_default (k : string) : option json :=
  if String.eqb k "title" then Some (JStr "Untitled Risk")
  else if String.eqb k "why_it_matters" then Some (JStr "")
  else if String.eqb k "mitigations" then Some (JList [])
  else None.

(** The default the coercion gives to a key of [decision_assist]. *)
Definition decision_assist_default (k : string) : option json :=
  if String.eqb k "pros" then Some (JList [])
  else if String.eqb k "cons" then Some (JList [])
  else if String.eqb k "overall_take" then Some (JStr "")
  else None.

(** A binding when there is one, the default otherwise. *)
Definition or_default (given default : option json) : option json :=
  match given with
  | Some v => Some v
  | None => default
  end.

(** The elements that are objects, in order. *)
Definition objects_of (entries : list json) : list dict :=
  omap (fun x => match x with JDict d => Some d | _ => None end) entries.

(** The value of [risks], when given, can be looped over: it is an array,
    an object or a string. *)
Definition risks_iterable (d : dict) : Prop :=
  match dict_get "risks" d with
  | Some v => is_Ok (iterate v) = true
  | None => True
  end.

(** What the loop over [risks] sees. *)
Definition risk_entries (d : dict) : list json :=
  match dict_get "risks" d with
  | Some v => match iterate v with Ok l => l | Raise _ => [] end
  | None => []
  end.

(** Lines 71-88 on an object. *)
Definition with_defaults (d : dict) : dict :=
  let d := backfill "summary" (JList []) d in
  let d := backfill "key_terms" (JList []) d in
  let d := backfill "obligations" (JDict []) d in
  let d := backfill "costs_and_payments" (JList []) d in
  let d := backfill "risks" (JList []) d in
  let d := backfill "red_flags" (JList []) d in
  let d := backfill "questions_to_ask" (JList []) d in
  let d := backfill "negotiation_suggestions" (JList []) d in
  backfill "decision_assist" EMPTY_DECISION_ASSIST d.

(** Lines 70-110 on an object whose [risks] can be looped over: the
    structure handed to the model. *)
Definition coerced_object (d : dict) : dict :=
  let d1 :=
    dict_set "risks" (JList (validated_risks_of (risk_entries d)))
      (with_defaults d) in
  match dict_get "decision_assist" d with
  | Some (JDict da) =>
      dict_set "decision_assist" (JDict (coerce_decision_assist da)) d1
  | Some _ => d1
  | None => dict_set "decision_assist" EMPTY_DECISION_ASSIST d1
  end.

(** A small response: one given field, one risk entry that is an object
    and one that is not. *)
Definition sample_object : dict :=
  [("summary", JList [JStr "Lease of a flat for twelve months."]);
   ("risks", JList [JDict [("title", JStr "Late fees")]; JStr "n/a"])].

(** A response whose [risks] is [null]. *)
Definition null_risks_object : dict :=
  [("risks", JNull); ("decision_assist", JDict [])].

(** A JSON value other than an object. *)
Definition not_object (v : json) : Prop :=
  match v with
  | JDict _ => False
  | _ => True
  end.

(** ** Reports as JSON ([model_dump], used in [app/main.py])

    [report.model_dump()] is the [dict] of the fields of the report, in
    declaration order, nested models dumped in the same way. *)

Definition dump_strs (l : list string) : json := JList (map JStr l).

Definition dump_RiskItem (r : RiskItem) : json :=
  JDict [("title", JStr (title r));
         ("why_it_matters", JStr (why_it_matters r));
         ("where_found",
          match where_found r with Some s => JStr s | None => JNull end);
         ("mitigations", dump_strs (mitigations r))].

Definition dump_DecisionAssist (a : DecisionAssist) : json :=
  JDict [("pros", dump_strs (pros a));
         ("cons", dump_strs (cons a));
         ("overall_take", JStr (overall_take a))].

Definition model_dump (r : AnalysisReport) : dict :=
  [("summary", dump_strs (summary r));
   ("key_terms", dump_strs (key_terms r));
   ("obligations",
    JDict (map (fun kv => (fst kv, dump_strs (snd kv))) (obligations r)));
   ("costs_and_payments", dump_strs (costs_and_payments r));
   ("risks", JList (map dump_RiskItem (risks r)));
   ("red_flags", dump_strs (red_flags r));
   ("questions_to_ask", dump_strs (questions_to_ask r));
   ("negotiation_suggestions", dump_strs (negotiation_suggestions r));
   ("decision_assist", dump_DecisionAssist (decision_assist r))].

(** The names of the fields of [AnalysisReport]. *)
Definition REPORT_FIELDS : list string :=
  ["summary"; "key_terms"; "obligations"; "costs_and_payments"; "risks";
   "red_flags"; "questions_to_ask"; "negotiation_suggestions";
   "decision_assist"].

(** The keys of the obligations of a report are distinct, as the keys of
    a Python [dict] are. *)
Definition distinct_parties (r : AnalysisReport) : Prop :=
  NoDup (map fst (obligations r)).

(** A sample report. *)
Definition sample_report : AnalysisReport := {|
  summary := ["Lease of a flat for twelve months."];
  key_terms := ["deposit"; "notice period"];
  obligations := [("Tenant", ["Pay the rent monthly."]);
                  ("Landlord", ["Keep the flat in repair."])];
  costs_and_payments := ["Rent of 900 per month."];
  risks := [{| title := "Late fees";
               why_it_matters := "Fees accrue daily.";
               where_found := Some "Clause 7";
               mitigations := ["Set up a standing order."] |};
            {| title := "Untitled Risk";
               why_it_matters := "";
               where_found := None;
               mitigations := [] |}];
  red_flags := [];
  questions_to_ask := ["Who pays for repairs?"];
  negotiation_suggestions := [];
  decision_assist := {| pros := ["Fair rent."]; cons := [];
                        overall_take := "Acceptable." |}
|}.

(** A risk of the report, read against the entry of the response it was
    made from: each key as given, or its default. *)
Definition risk_described (entry : dict) (item : RiskItem) : Prop :=
  or_default (dict_get "title" entry) (Some (JStr "Untitled Risk")) =
    Some (JStr (title item)) /\
  or_default (dict_get "why_it_matters" entry) (Some (JStr "")) =
    Some (JStr (why_it_matters item)) /\
  or_default (dict_get "where_found" entry) (Some JNull) =
    Some (match where_found item with Some s => JStr s | None => JNull end) /\
  or_default (dict_get "mitigations" entry) (Some (JList [])) =
    Some (dump_strs (mitigations item)).

(** A text made of white space only. *)
Fixpoint all_space (s : string) : bool :=
  match s with
  | EmptyString => true
  | String c s' => is_space c && all_space s'
  end.

(** The text of a JSON object with [body] between its braces. *)
Definition braced (body : string) : string :=
  String "{" (body +:+ "}").

(** A call to the text store or to [print]: no splitting, no embedding, no
    index, no completion. *)
Definition text_store_call (c : called) : Prop :=
  match c with
  | Called e =>
      match e with
      | path_exists p | read_text p => path_dir p = TEXT_CACHE_DIR
      | print _ => True
      | _ => False
      end
  end.

(** The text store has no text for any of the documents, at any time: the
    file is missing or unreadable, or it is empty. *)
Definition no_text_for {W} (h : handler W) (doc_ids : list string) : Prop :=
  forall doc_id w,
    doc_id ∈ doc_ids ->
    value (run h (load_extracted_text doc_id) w) = Ok None \/
    value (run h (load_extracted_text doc_id) w) = Ok (Some "").

(** ** More scripted environments *)

Module Scenario.

Import Stub.

Definition contract_text : string :=
  "This agreement is made between Party A and Party B.".

(** As [one_document], with a disk that refuses the index. *)
Definition disk_full (reply : result Response) : script := {|
  s_exists := s_exists (one_document reply);
  s_read := s_read (one_document reply);
  s_load_local := s_load_local (one_document reply);
  s_from_texts := s_from_texts (one_document reply);
  s_save_local :=
    Raise (Exn (OtherException "OSError") "No space left on device");
  s_search := s_search (one_document reply);
  s_chat_model := Ok tt;
  s_invoke := fun _ => reply;
  s_json_loads := s_json_loads (one_document reply)
|}.

(** As [one_document], with the index of [doc-1] on disk and loadable. *)
Definition warm_index (reply : result Response) : script := {|
  s_exists := s_exists (corrupt_index reply);
  s_read := s_read (one_document reply);
  s_load_local := Ok {| docstore := [contract_text] |};
  s_from_texts := s_from_texts (one_document reply);
  s_save_local := Ok tt;
  s_search := s_search (one_document reply);
  s_chat_model := Ok tt;
  s_invoke := fun _ => reply;
  s_json_loads := s_json_loads (one_document reply)
|}.

(** A short report and the response that spells it out. *)
Definition short_report : AnalysisReport := {|
  summary := ["A lease."];
  key_terms := [];
  obligations := [];
  costs_and_payments := [];
  risks := [];
  red_flags := [];
  questions_to_ask := [];
  negotiation_suggestions := [];
  decision_assist := {| pros := []; cons := [];
                        overall_take := "Acceptable." |}
|}.

Definition short_report_text : string :=
  "{" +:+ q "summary" +:+ ": [" +:+ q "A lease." +:+ "], " +:+
  q "key_terms" +:+ ": [], " +:+ q "obligations" +:+ ": {}, " +:+
  q "costs_and_payments" +:+ ": [], " +:+ q "risks" +:+ ": [], " +:+
  q "red_flags" +:+ ": [], " +:+ q "questions_to_ask" +:+ ": [], " +:+
  q "negotiation_suggestions" +:+ ": [], " +:+
  q "decision_assist" +:+ ": {" +:+ q "pros" +:+ ": [], " +:+
  q "cons" +:+ ": [], " +:+ q "overall_take" +:+ ": " +:+
  q "Acceptable." +:+ "}}".

(** As [one_document], with a model that answers the short report inside
    a code fence, and a parser that knows that text. *)
Definition helpful_model : script := {|
  s_exists := s_exists (one_document (says ""));
  s_read := s_read (one_document (says ""));
  s_load_local := Raise no_such_file;
  s_from_texts := fun texts => Ok {| docstore := texts |};
  s_save_local := Ok tt;
  s_search := Ok [{| page_content := contract_text |}];
  s_chat_model := Ok tt;
  s_invoke := fun _ =>
    says ("```json" +:+ nl +:+ short_report_text +:+ nl +:+ "```");
  s_json_loads := fun text =>
    if String.eqb text short_report_text
    then Ok (JDict (model_dump short_report))
    else Raise (Exn JSONDecodeError
                  "Expecting value: line 1 column 1 (char 0)")
|}.

(** Eleven documents, named as the database names them: the name of
    their store is 274 characters long. *)
Definition eleven_documents : list string :=
  ["65f000000000000000000001"; "65f000000000000000000002";
   "65f000000000000000000003"; "65f000000000000000000004";
   "65f000000000000000000005"; "65f000000000000000000006";
   "65f000000000000000000007"; "65f000000000000000000008";
   "65f000000000000000000009"; "65f00000000000000000000a";
   "65f00000000000000000000b"].

End Scenario.

(** ** The boundary: text cache writes, uploads, the document database
    ([app/services/extractor.py], [app/services/document_processor.py],
    [app/services/firestore_manager.py], [app/main.py]) *)

(** An uploaded file: its name, and a handle on its content. *)
Record UploadFile : Type := { filename : string; upload_handle : nat }.

(** A document of a MongoDB collection: its [_id], written as [str]
    writes it, and its other fields. *)
Record MongoDoc : Type := { oid : string; doc_fields : dict }.

(** The two shapes of query the code uses: [{"_id": ...}] and
    [{name: value}]. *)
Inductive mongo_filter : Type :=
| by_id (id : string)
| by_field (name value : string).

(** The calls of the boundary: those of the pipeline ([core]), and the
    file, PDF, identifier, clock and database calls. *)
Inductive io : Type -> Type :=
| core {X : Type} (e : event X) : io X
| write_text (p : path) (text : string) : io (result unit)
| open_wb (p : path) : io (result unit)
| file_read (f : UploadFile) : io (result string)
| write_bytes (p : path) (content : string) : io (result unit)
| unlink (p : path) : io (result unit)
| uuid4 : io string
| Path_suffix (name : string) : io string
| PdfReader (p : path) : io (result (list nat))
| page_extract_text (p : path) (page : nat) : io (result string)
| ObjectId_is_valid (s : string) : io bool
| ObjectId (s : option string) : io string
| datetime_utcnow : io string
| find_one (collection : string) (f : mongo_filter)
    : io (result (option MongoDoc))
| find (collection : string) (f : mongo_filter)
    : io (result (list MongoDoc))
| replace_one (collection : string) (f : mongo_filter) (doc : MongoDoc)
    : io (result unit).

(** Programs over the calls of the boundary. *)
Inductive aprog (A : Type) : Type :=
| ARet (a : A)
| AVis (X : Type) (e : io X) (k : X -> aprog A).
Arguments ARet {A} a.
Arguments AVis {A X} e k.

Fixpoint abind {A B} (p : aprog A) (f : A -> aprog B) : aprog B :=
  match p with
  | ARet a => f a
  | AVis e k => AVis e (fun x => abind (k x) f)
  end.

Notation "x <-- p ;; q" := (abind p (fun x => q))
  (at level 100, p at next level, right associativity).

(** One call. *)
Definition ask {X} (e : io X) : aprog X := AVis e ARet.

(** A program of the pipeline, run at the boundary. *)
Fixpoint of_prog {A} (p : prog A) : aprog A :=
  match p with
  | Ret a => ARet a
  | Vis e k => AVis (core e) (fun x => of_prog (k x))
  end.

Definition io_handler (W : Type) : Type := forall X, io X -> W -> X * W.

(** The pipeline's share of the collaborators. *)
Definition core_handler {W} (h : io_handler W) : handler W :=
  fun X e w => h X (core e) w.

Inductive io_called : Type :=
| IoCalled {X : Type} (e : io X).

Record io_outcome (A W : Type) : Type := IoOutcome {
  io_value : A;
  io_world : W;
  io_trace : list io_called
}.
Arguments IoOutcome {A W} io_value io_world io_trace.
Arguments io_value {A W} i.
Arguments io_world {A W} i.
Arguments io_trace {A W} i.

Fixpoint arun {W A} (h : io_handler W) (p : aprog A) (w : W)
  : io_outcome A W :=
  match p with
  | ARet a => IoOutcome a w []
  | AVis e k =>
      let r := h _ e w in
      let o := arun h (k (fst r)) (snd r) in
      IoOutcome (io_value o) (io_world o) (IoCalled e :: io_trace o)
  end.

Definition io_answer {W X} (h : io_handler W) (e : io X) (w : W) : X :=
  fst (h X e w).

Definition io_after {W X} (h : io_handler W) (e : io X) (w : W) : W :=
  snd (h X e w).

(** A call of the pipeline, as opposed to one of the boundary's own. *)
Definition is_core (c : io_called) : bool :=
  match c with
  | IoCalled e => match e with core _ => true | _ => false end
  end.

(** *** [app/services/extractor.py] *)

Definition text_file_of (doc_id : string) : path :=
  Path TEXT_CACHE_DIR ("extract_" +:+ doc_id +:+ ".txt").

(** [save_extracted_text]: [True] when the text is written, [False]
    when writing raises. *)
Definition save_extracted_text (doc_id text : string) : aprog bool :=
  r <-- ask (write_text (text_file_of doc_id) text) ;;
  match r with
  | Ok _ => ARet true
  | Raise e =>
      _ <-- ask (core (print ("Error saving extracted text: " +:+
                              exn_msg e))) ;;
      ARet false
  end.

(** Lines 15-18: the texts of the pages that have one, or the exception
    of the first page that raises. *)
Fixpoint page_texts (pdf_path : path) (pages : list nat)
    (text_parts : list string) : aprog (result (list string)) :=
  match pages with
  | [] => ARet (Ok text_parts)
  | page :: rest =>
      r <-- ask (page_extract_text pdf_path page) ;;
      match r with
      | Ok text =>
          page_texts pdf_path rest
            (if String.eqb text "" then text_parts else text_parts ++ [text])
      | Raise e => ARet (Raise e)
      end
  end.

(** [extract_text_from_pdf]: the page texts joined by blank lines, or
    [None] when the reader or a page raises. *)
Definition extract_text_from_pdf (pdf_path : path) : aprog (option string) :=
  let failed (e : exn) : aprog (option string) :=
    _ <-- ask (core (print ("Error extracting text from PDF: " +:+
                            exn_msg e))) ;;
    ARet None in
  r <-- ask (PdfReader pdf_path) ;;
  match r with
  | Raise e => failed e
  | Ok pages =>
      parts <-- page_texts pdf_path pages [] ;;
      match parts with
      | Ok text_parts => ARet (Some (join (nl +:+ nl) text_parts))
      | Raise e => failed e
      end
  end.

(** *** [app/services/document_processor.py] *)

(** Lines 25-38: the body of the [try]. *)
Definition store_upload (file : UploadFile) (doc_id : string)
    (cached_file_path : path)
  : aprog (result (string * string * option string)) :=
  opened <-- ask (open_wb cached_file_path) ;;
  match opened with
  | Raise e => ARet (Raise e)
  | Ok _ =>
      content <-- ask (file_read file) ;;
      match content with
      | Raise e => ARet (Raise e)
      | Ok content =>
          written <-- ask (write_bytes cached_file_path content) ;;
          match written with
          | Raise e => ARet (Raise e)
          | Ok _ =>
              extracted_text <-- extract_text_from_pdf cached_file_path ;;
              _ <-- (match extracted_text with
                     | Some text =>
                         if has_text extracted_text
                         then save_extracted_text doc_id text
                         else ARet true
                     | None => ARet true
                     end) ;;
              ARet (Ok (doc_id, filename file, extracted_text))
          end
      end
  end.

(** [process_document]: the identifier, the file name and the extracted
    text; on a failure the cached file is removed and the exception
    raised again.  [CACHE_DIR] is the directory [TEXT_CACHE_DIR] is
    ([app/config.py], lines 9-10). *)
Definition process_document (file : UploadFile)
  : aprog (result (string * string * option string)) :=
  doc_id <-- ask uuid4 ;;
  file_extension <-- ask (Path_suffix (filename file)) ;;
  let cached_file_path := Path TEXT_CACHE_DIR (doc_id +:+ file_extension) in
  r <-- store_upload file doc_id cached_file_path ;;
  match r with
  | Ok triple => ARet (Ok triple)
  | Raise e =>
      _ <-- ask (core (print ("Error processing document: " +:+
                              exn_msg e))) ;;
      found <-- ask (core (path_exists cached_file_path)) ;;
      match found with
      | Ok true =>
          removed <-- ask (unlink cached_file_path) ;;
          match removed with
          | Ok _ => ARet (Raise e)
          | Raise e' => ARet (Raise e')
          end
      | Ok false => ARet (Raise e)
      | Raise e' => ARet (Raise e')
      end
  end.

(** *** [app/services/firestore_manager.py] *)

(** [if v:] on a JSON value. *)
Definition truthy (v : json) : bool :=
  match v with
  | JNull => false
  | JBool b => b
  | JInt n => negb (Z.eqb n 0)
  | JFloat r => negb (String.eqb r "0.0" || String.eqb r "-0.0")
  | JStr s => negb (String.eqb s "")
  | JList l => match l with [] => false | _ :: _ => true end
  | JDict d => match d with [] => false | _ :: _ => true end
  end.

(** [doc["doc_id"] = str(doc["_id"]); doc.pop("_id", None)]: the [dict]
    handed to the caller. *)
Definition listed (doc : MongoDoc) : dict :=
  dict_set "doc_id" (JStr (oid doc)) (doc_fields doc).

Section Database.

(** The module-level [db]: [false] when the connection failed at import
    and the module runs in mock mode. *)
Variable db_connected : bool.

Definition get_documents_by_user_id (user_id : string) : aprog (list dict) :=
  if negb db_connected then ARet []
  else
    r <-- ask (find "documents" (by_field "user_id" user_id)) ;;
    match r with
    | Ok cursor => ARet (map listed cursor)
    | Raise e =>
        _ <-- ask (core (print ("Error getting documents by user_id: " +:+
                                exn_msg e))) ;;
        ARet []
    end.

Definition save_document_summary (user_id doc_id doc_name : string)
    (summary : dict) : aprog bool :=
  if negb db_connected then ARet true
  else
    valid <-- ask (ObjectId_is_valid doc_id) ;;
    id <-- ask (ObjectId (if valid then Some doc_id else None)) ;;
    now <-- ask datetime_utcnow ;;
    let doc_data := {|
      oid := id;
      doc_fields := [("user_id", JStr user_id); ("doc_id", JStr doc_id);
                     ("doc_name", JStr doc_name); ("summary", JDict summary);
                     ("upload_date", JStr now)] |} in
    r <-- ask (replace_one "documents" (by_id id) doc_data) ;;
    match r with
    | Ok _ => ARet true
    | Raise e =>
        _ <-- ask (core (print ("Error saving document summary: " +:+
                                exn_msg e))) ;;
        ARet false
    end.

Definition get_document_by_id (doc_id : string) : aprog (option dict) :=
  let failed (e : exn) : aprog (option dict) :=
    _ <-- ask (core (print ("Error getting document by ID: " +:+
                            exn_msg e))) ;;
    ARet None in
  let by_doc_id : aprog (option dict) :=
    r <-- ask (find_one "documents" (by_field "doc_id" doc_id)) ;;
    match r with
    | Ok (Some doc) => ARet (Some (listed doc))
    | Ok None => ARet None
    | Raise e => failed e
    end in
  if negb db_connected then ARet None
  else
    valid <-- ask (ObjectId_is_valid doc_id) ;;
    if valid then
      id <-- ask (ObjectId (Some doc_id)) ;;
      r <-- ask (find_one "documents" (by_id id)) ;;
      match r with
      | Ok (Some doc) => ARet (Some (listed doc))
      | Ok None => by_doc_id
      | Raise e => failed e
      end
    else by_doc_id.

(** *** The handlers of [app/main.py] *)

(** What a handler does: it returns a body, or raises [HTTPException]. *)
Inductive http : Type :=
| Reply (body : json)
| HTTPException (status_code : nat) (detail : string).

(** [isinstance(e, ValueError)]: [JSONDecodeError] and pydantic's
    [ValidationError] derive from it; an exception of a class the code
    does not name is taken not to. *)
Definition is_ValueError (e : exn) : bool :=
  match exn_cls e with
  | ValueError | JSONDecodeError | ValidationError => true
  | _ => false
  end.

Variable cfg : Config.
Variable embeddings : option Embeddings.

(** [summarize_document] and [chat_with_documents] run the synchronous
    functions on a worker thread and await them. *)
Definition summarize_document (doc_id : string) : aprog (result AnalysisReport) :=
  of_prog (_summarize_document_sync cfg doc_id).

Definition chat_with_documents (doc_ids : list string) (query : string)
  : aprog (result string) :=
  of_prog (_chat_with_documents_sync cfg embeddings doc_ids query).

(** [GET /analysis/{documentId}]. *)
Definition get_analysis (documentId : string) : aprog http :=
  let failed (e : exn) : aprog http :=
    if is_ValueError e then ARet (HTTPException 404 (exn_msg e))
    else ARet (HTTPException 500
                 ("Error generating analysis: " +:+ exn_msg e)) in
  let analyse : aprog http :=
    r <-- summarize_document documentId ;;
    match r with
    | Ok summary_report => ARet (Reply (JDict (model_dump summary_report)))
    | Raise e => failed e
    end in
  doc <-- get_document_by_id documentId ;;
  match doc with
  | Some d =>
      match d, dict_get "summary" d with
      | _ :: _, Some summary =>
          if truthy summary then ARet (Reply summary) else analyse
      | _, _ => analyse
      end
  | None => analyse
  end.

Definition NO_DOCUMENTS_YET : string :=
  "You don't have any documents yet. Please upload a document first.".

Definition NO_VALID_DOCUMENTS : string :=
  "No valid documents found. Please upload a document first.".

(** [[doc.get("doc_id") for doc in documents if doc.get("doc_id")]].
    [get_documents_by_user_id] sets every [doc_id] to a string; a value
    of another kind, which it never returns, is left out. *)
Definition doc_ids_of (documents : list dict) : list string :=
  omap (fun doc =>
          match dict_get "doc_id" doc with
          | Some (JStr s) => if truthy (JStr s) then Some s else None
          | _ => None
          end) documents.

(** [POST /chat/user]. *)
Definition chat_user (user_id query : string) : aprog http :=
  documents <-- get_documents_by_user_id user_id ;;
  match documents with
  | [] => ARet (Reply (JDict [("response", JStr NO_DOCUMENTS_YET)]))
  | _ :: _ =>
      match doc_ids_of documents with
      | [] => ARet (Reply (JDict [("response", JStr NO_VALID_DOCUMENTS)]))
      | doc_ids =>
          r <-- chat_with_documents doc_ids query ;;
          match r with
          | Ok response_text =>
              ARet (Reply (JDict [("response", JStr response_text)]))
          | Raise e =>
              ARet (HTTPException 500
                      ("Error processing chat: " +:+ exn_msg e))
          end
      end
  end.

(** [s.endswith(suffix)]. *)
Definition endswith (s suffix : string) : bool :=
  let n := String.length s in
  let m := String.length suffix in
  Nat.leb m n && String.eqb (String.substring (n - m) m s) suffix.

(** The summary [upload_document] falls back on (lines 129-143). *)
Definition PENDING_SUMMARY : dict :=
  [("summary",
    JList [JStr "Document uploaded successfully. Analysis may be incomplete."]);
   ("key_terms", JList []);
   ("obligations", JDict []);
   ("costs_and_payments", JList []);
   ("risks", JList []);
   ("red_flags", JList []);
   ("questions_to_ask", JList []);
   ("negotiation_suggestions", JList []);
   ("decision_assist",
    JDict [("pros", JList []); ("cons", JList []);
           ("overall_take", JStr "Analysis pending")])].

(** [POST /documents/upload]. *)
Definition upload_document (file : UploadFile) (user_id : string)
  : aprog http :=
  if negb (endswith (filename file) ".pdf")
  then ARet (HTTPException 400 "Only PDF files are allowed")
  else
    r <-- process_document file ;;
    match r with
    | Raise e =>
        ARet (HTTPException 500 ("Error processing document: " +:+ exn_msg e))
    | Ok (doc_id, name, extracted_text) =>
        if negb (has_text extracted_text)
        then ARet (HTTPException 400 "Failed to extract text from PDF")
        else
          analysed <-- summarize_document doc_id ;;
          summary_dict <--
            (match analysed with
             | Ok summary_report => ARet (model_dump summary_report)
             | Raise e =>
                 _ <-- ask (core (print ("Error generating summary: " +:+
                                         exn_msg e))) ;;
                 ARet PENDING_SUMMARY
             end) ;;
          _ <-- save_document_summary user_id doc_id name summary_dict ;;
          ARet (Reply (JDict [("doc_id", JStr doc_id);
                              ("meta", JDict [("filename", JStr name)]);
                              ("summary", JDict summary_dict)]))
    end.

End Database.

(** The carriage return, which text mode does not keep: [open(..., "r")]
    reads [\r\n] and [\r] back as a line feed. *)
Definition cr : ascii := ascii_of_nat 13.

(** ** An environment with files and a database

    Collaborators that keep the files that are written and the documents
    that are stored; the capabilities answer from a script as in [Stub]. *)

Module Desk.

Record world : Type := {
  files : list (path * string);
  documents : list MongoDoc;
  stdout : list string
}.

Definition empty : world := {| files := []; documents := []; stdout := [] |}.

(** Text mode on reading: [\r\n] and [\r] come back as a line feed. *)
Fixpoint universal_newlines (s : string) : string :=
  match s with
  | EmptyString => EmptyString
  | String c s' =>
      if Ascii.eqb c cr then
        match s' with
        | String c' s'' =>
            if Ascii.eqb c' (ascii_of_nat 10)
            then String (ascii_of_nat 10) (universal_newlines s'')
            else String (ascii_of_nat 10) (universal_newlines s')
        | EmptyString => String (ascii_of_nat 10) EmptyString
        end
      else String c (universal_newlines s')
  end.

Fixpoint file_lookup (p : path) (fs : list (path * string)) : option string :=
  match fs with
  | [] => None
  | (p', text) :: fs' =>
      if Stub.path_eqb p p' then Some text else file_lookup p fs'
  end.

Definition file_remove (p : path) (fs : list (path * string))
  : list (path * string) :=
  filter (fun f => negb (Stub.path_eqb p (fst f))) fs.

Definition with_files (w : world) (fs : list (path * string)) : world :=
  {| files := fs; documents := documents w; stdout := stdout w |}.

Definition with_documents (w : world) (ds : list MongoDoc) : world :=
  {| files := files w; documents := ds; stdout := stdout w |}.

Definition matches (f : mongo_filter) (doc : MongoDoc) : bool :=
  match f with
  | by_id id => String.eqb id (oid doc)
  | by_field name value =>
      match dict_get name (doc_fields doc) with
      | Some (JStr s) => String.eqb s value
      | _ => false
      end
  end.

(** The identifier the database mints for the [n]-th stored document. *)
Definition minted_id (n : nat) : string :=
  "65f00000000000000000000" +:+ pretty n.

(** The one identifier the process mints for an upload. *)
Definition UPLOAD_ID : string := "3f2b8c1e-5d4a-4f6b-9c7d-2e1f0a9b8c7d".

Definition is_hex (c : ascii) : bool :=
  let n := nat_of_ascii c in
  (Nat.leb 48 n && Nat.leb n 57) || (Nat.leb 97 n && Nat.leb n 102)
  || (Nat.leb 65 n && Nat.leb n 70).

Fixpoint all_hex (s : string) : bool :=
  match s with
  | EmptyString => true
  | String c s' => is_hex c && all_hex s'
  end.

(** The pages of every PDF are [pages]; the capabilities answer from
    [s]. *)
Definition handle (s : Stub.script) (pages : list string) : io_handler world :=
  fun X e w =>
    match e in io X return X * world with
    | core c =>
        match c in event X return X * world with
        | path_exists p =>
            (Stub.exists_on_disk
               (fun p => match file_lookup p (files w) with
                         | Some _ => true
                         | None => false
                         end) p, w)
        | read_text p =>
            (match file_lookup p (files w) with
             | Some text => Ok (universal_newlines text)
             | None => Raise Stub.no_such_file
             end, w)
        | FAISS_load_local _ _ _ => (Stub.s_load_local s, w)
        | FAISS_from_texts texts _ => (Stub.s_from_texts s texts, w)
        | FAISS_save_local _ _ _ => (Stub.s_save_local s, w)
        | FAISS_similarity_search _ _ _ => (Stub.s_search s, w)
        | split_text size overlap text =>
            (Stub.chunks_of text size overlap, w)
        | ChatVertexAI_new args =>
            (match Stub.s_chat_model s with
             | Ok _ => Ok args
             | Raise e => Raise e
             end, w)
        | llm_invoke _ prompt => (Stub.s_invoke s prompt, w)
        | json_loads text => (Stub.s_json_loads s text, w)
        | print line =>
            (tt, {| files := files w; documents := documents w;
                    stdout := stdout w ++ [line] |})
        end
    | write_text p text =>
        if Stub.too_long p then (Raise Stub.name_too_long, w)
        else (Ok tt, with_files w ((p, text) :: files w))
    | open_wb p =>
        if Stub.too_long p then (Raise Stub.name_too_long, w)
        else (Ok tt, with_files w ((p, "") :: files w))
    | file_read _ => (Ok "%PDF-1.4", w)
    | write_bytes p content => (Ok tt, with_files w ((p, content) :: files w))
    | unlink p => (Ok tt, with_files w (file_remove p (files w)))
    | uuid4 => (UPLOAD_ID, w)
    | Path_suffix _ => (".pdf", w)
    | PdfReader p =>
        (match file_lookup p (files w) with
         | Some _ => Ok (seq 0 (length pages))
         | None => Raise Stub.no_such_file
         end, w)
    | page_extract_text _ page =>
        (match pages !! page with
         | Some text => Ok text
         | None => Raise (Exn (OtherException "IndexError")
                            "sequence index out of range")
         end, w)
    | ObjectId_is_valid id =>
        (Nat.eqb (String.length id) 24 && all_hex id, w)
    | ObjectId (Some id) => (id, w)
    | ObjectId None => (minted_id (length (documents w)), w)
    | datetime_utcnow => ("2024-01-01 00:00:00", w)
    | find_one _ f =>
        (Ok (List.find (matches f) (documents w)), w)
    | find _ f => (Ok (filter (fun d => matches f d) (documents w)), w)
    | replace_one _ f doc =>
        (Ok tt,
         with_documents w
           (doc :: filter (fun d => negb (matches f d)) (documents w)))
    end.

(** The upload of the scenarios: a PDF of two pages. *)
Definition lease_pdf : UploadFile :=
  {| filename := "lease.pdf"; upload_handle := 0 |}.

Definition lease_pages : list string :=
  ["This agreement is made between Party A and Party B."; "";
   "The rent is 900 per month."].

End Desk.

(** ** What the theorems on the boundary speak of *)

(** What text mode does keep.  A text without carriage return that was
    written with [open(..., "w", encoding="utf-8")] is found, and
    [open(..., "r", encoding="utf-8")] reads it back as it was written.
    Nothing is said of a text that holds a carriage return. *)
Definition reads_back_plain_text {W} (h : io_handler W) : Prop :=
  forall p text w,
    contains_char cr text = false ->
    io_answer h (write_text p text) w = Ok tt ->
    let w1 := io_after h (write_text p text) w in
    io_answer h (core (path_exists p)) w1 = Ok true /\
    io_answer h (core (read_text p)) (io_after h (core (path_exists p)) w1) =
      Ok text.

(** A call that writes to the database. *)
Definition stores (c : io_called) : bool :=
  match c with
  | IoCalled e => match e with replace_one _ _ _ => true | _ => false end
  end.

(** The body [upload_document] returns. *)
Definition uploaded (doc_id name : string) (summary : dict) : json :=
  JDict [("doc_id", JStr doc_id);
         ("meta", JDict [("filename", JStr name)]);
         ("summary", JDict summary)].

(** The texts [extract_text_from_pdf] keeps: those that are not empty. *)
Definition kept_texts (texts : list string) : list string :=
  filter (fun t => negb (String.eqb t "")) texts.

(** The scenarios of the boundary: the upload of a lease by [user-1]. *)
Module Office.

Import Desk.

Definition lease_text : string :=
  "This agreement is made between Party A and Party B." +:+ nl +:+ nl +:+
  "The rent is 900 per month.".

(** The record [save_document_summary] leaves for the lease. *)
Definition lease_record : MongoDoc := {|
  oid := "65f000000000000000000000";
  doc_fields := [("user_id", JStr "user-1"); ("doc_id", JStr UPLOAD_ID);
                 ("doc_name", JStr "lease.pdf");
                 ("summary", JDict PENDING_SUMMARY);
                 ("upload_date", JStr "2024-01-01 00:00:00")] |}.

(** The world after the upload. *)
Definition filed : world := {|
  files := [(text_file_of UPLOAD_ID, lease_text);
            (Path TEXT_CACHE_DIR (UPLOAD_ID +:+ ".pdf"), "%PDF-1.4")];
  documents := [lease_record];
  stdout := []
|}.

(** An upload that is not a PDF. *)
Definition notes_txt : UploadFile :=
  {| filename := "notes.txt"; upload_handle := 1 |}.

(** The text of the page [page] of the lease. *)
Definition lease_page (page : nat) : string :=
  default "" (lease_pages !! page).

End Office.

(** A call that removes a file. *)
Definition removes (c : io_called) : bool :=
  match c with
  | IoCalled e => match e with unlink _ => true | _ => false end
  end.

(* ================================================================== *)
(** * Properties *)
(* ================================================================== *)

Section StringOrder.

Lemma ascii_compare_refl c : Ascii.compare c c = Eq.
Proof. unfold Ascii.compare. apply N.compare_refl. Qed.

Lemma ascii_compare_trans c1 c2 c3 o :
  Ascii.compare c1 c2 = o -> Ascii.compare c2 c3 = o ->
  Ascii.compare c1 c3 = o.
Proof.
  unfold Ascii.compare. intros H1 H2. destruct o.
  - apply N.compare_eq_iff in H1, H2. rewrite H1, H2. apply N.compare_refl.
  - rewrite N.compare_lt_iff in *. lia.
  - rewrite N.compare_gt_iff in *. lia.
Qed.

Lemma str_le_alt a b : str_le a b <-> String.compare a b <> Gt.
Proof.
  unfold str_le, String.leb. destruct (String.compare a b); split; congruence.
Qed.

Lemma str_compare_le_trans a : forall b c,
  String.compare a b <> Gt -> String.compare b c <> Gt ->
  String.compare a c <> Gt.
Proof.
  induction a as [|x a IH]; intros [|y b] [|z c]; simpl; try congruence.
  destruct (Ascii.compare x y) eqn:Hxy; try congruence;
    destruct (Ascii.compare y z) eqn:Hyz; try congruence; intros H1 H2.
  - apply Ascii.compare_eq_iff in Hxy, Hyz. subst.
    rewrite ascii_compare_refl. eauto.
  - apply Ascii.compare_eq_iff in Hxy. subst. rewrite Hyz. congruence.
  - apply Ascii.compare_eq_iff in Hyz. subst. rewrite Hxy. congruence.
  - rewrite (ascii_compare_trans _ _ _ _ Hxy Hyz). congruence.
Qed.

#[global] Instance str_le_trans : Transitive str_le.
Proof.
  intros a b c. rewrite !str_le_alt. apply str_compare_le_trans.
Qed.

#[global] Instance str_le_total : Total str_le.
Proof. intros a b. apply String.leb_total. Qed.

#[global] Instance str_le_antisym : AntiSymm (=) str_le.
Proof. intros a b Hab Hba. apply String.leb_antisym; assumption. Qed.

End StringOrder.

Section Sorted.

Lemma sorted_Permutation xs : sorted xs ≡ₚ xs.
Proof. apply merge_sort_Permutation. Qed.

Lemma sorted_Sorted xs : Sorted str_le (sorted xs).
Proof. apply (Sorted_merge_sort str_le). Qed.

(** [sorted] depends on the multiset of its input only. *)
Lemma sorted_perm_eq xs ys : xs ≡ₚ ys -> sorted xs = sorted ys.
Proof.
  intros H. apply (Sorted_unique str_le); auto using sorted_Sorted.
  rewrite !sorted_Permutation. exact H.
Qed.

Lemma sorted_eq_perm xs ys : sorted xs = sorted ys -> xs ≡ₚ ys.
Proof.
  intros H. rewrite <- (sorted_Permutation xs), H. apply sorted_Permutation.
Qed.

End Sorted.

Section Join.

Lemma append_String c x r : String c x +:+ r = String c (x +:+ r).
Proof. reflexivity. Qed.

Lemma append_empty_l r : "" +:+ r = r.
Proof. reflexivity. Qed.

Lemma join_cons x xs :
  join "_" (x :: xs) =
  x +:+ match xs with [] => "" | _ :: _ => "_" +:+ join "_" xs end.
Proof.
  destruct xs as [|y ys]; simpl.
  - clear. induction x as [|c x IH]; [reflexivity|].
    rewrite append_String. now f_equal.
  - reflexivity.
Qed.

Lemma contains_char_head c s : contains_char c (String c s) = true.
Proof. simpl. now rewrite Ascii.eqb_refl. Qed.

Lemma contains_char_tail c d s :
  contains_char c (String d s) = false -> contains_char c s = false.
Proof. simpl. destruct (Ascii.eqb c d); congruence. Qed.

(** An underscore-free prefix of a joined name is determined by the name. *)
Lemma head_split x : forall y r1 r2,
  contains_char "_"%char x = false -> contains_char "_"%char y = false ->
  sep_tail r1 -> sep_tail r2 ->
  x +:+ r1 = y +:+ r2 -> x = y /\ r1 = r2.
Proof.
  induction x as [|c x IH]; intros [|d y] r1 r2 Hx Hy H1 H2 E;
    rewrite ?append_String, ?append_empty_l in E.
  - auto.
  - exfalso. destruct H1 as [-> | [r' ->]]; [discriminate|].
    injection E as <- _. now rewrite contains_char_head in Hy.
  - exfalso. destruct H2 as [-> | [r' ->]]; [discriminate|].
    injection E as -> _. now rewrite contains_char_head in Hx.
  - injection E as -> E.
    apply contains_char_tail in Hx, Hy.
    destruct (IH y r1 r2 Hx Hy H1 H2 E) as [-> ->]. auto.
Qed.

Lemma join_inj xs : forall ys,
  Forall plain_id xs -> Forall plain_id ys ->
  join "_" xs = join "_" ys -> xs = ys.
Proof.
  induction xs as [|x xs IH]; intros [|y ys] Hxs Hys E.
  - reflexivity.
  - exfalso. apply Forall_cons in Hys as [[Hne _] _].
    rewrite join_cons in E. destruct y; [congruence | discriminate E].
  - exfalso. apply Forall_cons in Hxs as [[Hne _] _].
    rewrite join_cons in E. destruct x; [congruence | discriminate E].
  - apply Forall_cons in Hxs as [[_ Hx] Hxs].
    apply Forall_cons in Hys as [[_ Hy] Hys].
    rewrite !join_cons in E.
    apply head_split in E as [-> E]; trivial.
    + f_equal. destruct xs as [|x' xs], ys as [|y' ys];
        try reflexivity; try discriminate.
      apply IH; trivial. rewrite !append_String, !append_empty_l in E.
      now injection E.
    + destruct xs; [left | right]; eauto.
    + destruct ys; [left | right]; eauto.
Qed.

End Join.

Section IndexCacheKey.

(** The key does not depend on the order of the identifiers. *)
Lemma keyFor_permutation S1 S2 : S1 ≡ₚ S2 -> keyFor S1 = keyFor S2.
Proof.
  intros H. unfold keyFor, store_name_of. now rewrite (sorted_perm_eq _ _ H).
Qed.

Lemma plain_sorted xs : Forall plain_id xs -> Forall plain_id (sorted xs).
Proof. intros H. now rewrite sorted_Permutation. Qed.

(** C1, as the code has it: the key is the sorted list joined with ['_'],
    with no deduplication.  For non-empty underscore-free identifiers two
    lists get the same key exactly when one is a permutation of the other;
    on duplicate-free lists that is equality as sets. *)
Theorem keyFor_eq_iff_permutation (S1 S2 : list string)
    (H1 : Forall plain_id S1) (H2 : Forall plain_id S2) :
  (keyFor S1 = keyFor S2 <-> S1 ≡ₚ S2) /\
  (NoDup S1 -> NoDup S2 -> (keyFor S1 = keyFor S2 <-> same_set S1 S2)).
Proof.
  assert (Hiff : keyFor S1 = keyFor S2 <-> S1 ≡ₚ S2).
  { split; [|apply keyFor_permutation].
    unfold keyFor, store_name_of. intros E.
    apply sorted_eq_perm, join_inj; auto using plain_sorted. }
  split; [exact Hiff|].
  intros N1 N2. rewrite Hiff. unfold same_set. split.
  - intros P x. now rewrite P.
  - intros E. now apply NoDup_Permutation.
Qed.

Lemma plain_id_intro s :
  s <> "" -> contains_char "_"%char s = false -> plain_id s.
Proof. split; assumption. Qed.

Lemma keyFor_eq_iff_permutation_witness :
  (keyFor ["doc-b"; "doc-a"] = keyFor ["doc-a"; "doc-b"] <->
     ["doc-b"; "doc-a"] ≡ₚ ["doc-a"; "doc-b"]) /\
  (NoDup ["doc-b"; "doc-a"] -> NoDup ["doc-a"; "doc-b"] ->
     (keyFor ["doc-b"; "doc-a"] = keyFor ["doc-a"; "doc-b"] <->
      same_set ["doc-b"; "doc-a"] ["doc-a"; "doc-b"])).
Proof.
  apply (keyFor_eq_iff_permutation ["doc-b"; "doc-a"] ["doc-a"; "doc-b"]);
    repeat constructor; discriminate.
Defined.

(** C1 as stated fails both ways: a duplicated identifier changes the key,
    and an identifier with ['_'] in it, or an empty one, collides with a
    different set. *)
Lemma keyFor_set_counterexample :
  (same_set ["a"] ["a"; "a"] /\ keyFor ["a"] <> keyFor ["a"; "a"]) /\
  (~ same_set ["a_b"] ["a"; "b"] /\ keyFor ["a_b"] = keyFor ["a"; "b"]) /\
  (~ same_set [""] [] /\ keyFor [""] = keyFor []).
Proof.
  repeat split.
  - intros Hx. apply list_elem_of_singleton in Hx as ->. left.
  - intros Hx. apply elem_of_cons in Hx as [-> | Hx]; [left | exact Hx].
  - vm_compute. discriminate.
  - intros H. destruct (H "a") as [_ H'].
    assert (Ha : "a" ∈ ["a"; "b"]) by left.
    apply H', list_elem_of_singleton in Ha. discriminate.
  - intros H. destruct (H "") as [H' _].
    assert (Ha : "" ∈ [""]) by left.
    apply H' in Ha. now apply elem_of_nil in Ha.
Qed.

End IndexCacheKey.

(** ** Running programs *)

Section Run.

Context {W : Type} (h : handler W).

Lemma run_bind {A B} (p : prog A) (f : A -> prog B) (w : W) :
  run h (bind p f) w =
  Outcome (value (run h (f (value (run h p w))) (world (run h p w))))
          (world (run h (f (value (run h p w))) (world (run h p w))))
          (trace (run h p w) ++
           trace (run h (f (value (run h p w))) (world (run h p w)))).
Proof.
  revert w. induction p as [a | X e k IH]; intros w; simpl.
  - now destruct (run h (f a) w).
  - now rewrite IH.
Qed.

Lemma value_bind {A B} (p : prog A) (f : A -> prog B) (w : W) :
  value (run h (bind p f) w) =
  value (run h (f (value (run h p w))) (world (run h p w))).
Proof. now rewrite run_bind. Qed.

Lemma world_bind {A B} (p : prog A) (f : A -> prog B) (w : W) :
  world (run h (bind p f) w) =
  world (run h (f (value (run h p w))) (world (run h p w))).
Proof. now rewrite run_bind. Qed.

Lemma trace_bind {A B} (p : prog A) (f : A -> prog B) (w : W) :
  trace (run h (bind p f) w) =
  trace (run h p w) ++
  trace (run h (f (value (run h p w))) (world (run h p w))).
Proof. now rewrite run_bind. Qed.

Lemma value_py_bind {A B} (p : py A) (f : A -> py B) (w : W) :
  value (run h (py_bind p f) w) =
  match value (run h p w) with
  | Ok a => value (run h (f a) (world (run h p w)))
  | Raise e => Raise e
  end.
Proof.
  unfold py_bind. rewrite value_bind. now destruct (value (run h p w)).
Qed.

Lemma world_py_bind {A B} (p : py A) (f : A -> py B) (w : W) :
  world (run h (py_bind p f) w) =
  match value (run h p w) with
  | Ok a => world (run h (f a) (world (run h p w)))
  | Raise e => world (run h p w)
  end.
Proof.
  unfold py_bind. rewrite world_bind. now destruct (value (run h p w)).
Qed.

Lemma value_try_except {A} (body : py A) (hs : exn -> option (py A)) (w : W) :
  value (run h (try_except body hs) w) =
  match value (run h body w) with
  | Ok a => Ok a
  | Raise e =>
      match hs e with
      | Some hd => value (run h hd (world (run h body w)))
      | None => Raise e
      end
  end.
Proof.
  unfold try_except. rewrite value_bind.
  destruct (value (run h body w)) as [a | e]; [reflexivity|].
  now destruct (hs e).
Qed.

Lemma world_try_except {A} (body : py A) (hs : exn -> option (py A)) (w : W) :
  world (run h (try_except body hs) w) =
  match value (run h body w) with
  | Ok a => world (run h body w)
  | Raise e =>
      match hs e with
      | Some hd => world (run h hd (world (run h body w)))
      | None => world (run h body w)
      end
  end.
Proof.
  unfold try_except. rewrite world_bind.
  destruct (value (run h body w)) as [a | e]; [reflexivity|].
  now destruct (hs e).
Qed.

Lemma value_call {X} (e : event X) (w : W) :
  value (run h (call e) w) = Ok (answer h e w).
Proof. reflexivity. Qed.

Lemma world_call {X} (e : event X) (w : W) :
  world (run h (call e) w) = after h e w.
Proof. reflexivity. Qed.

Lemma value_callr {X} (e : event (result X)) (w : W) :
  value (run h (callr e) w) = answer h e w.
Proof. reflexivity. Qed.

Lemma world_callr {X} (e : event (result X)) (w : W) :
  world (run h (callr e) w) = after h e w.
Proof. reflexivity. Qed.

Lemma value_ret {A} (a : A) (w : W) : value (run h (ret a) w) = Ok a.
Proof. reflexivity. Qed.

Lemma world_ret {A} (a : A) (w : W) : world (run h (ret a) w) = w.
Proof. reflexivity. Qed.

Lemma value_raise {A} (e : exn) (w : W) :
  value (run h (@raise A e) w) = Raise e.
Proof. reflexivity. Qed.

Lemma value_lift {A} (r : result A) (w : W) : value (run h (lift r) w) = r.
Proof. reflexivity. Qed.

Lemma world_lift {A} (r : result A) (w : W) : world (run h (lift r) w) = w.
Proof. reflexivity. Qed.

(** A [try] whose clauses catch everything and return lets nothing out. *)
Lemma try_except_returns {A} (body : py A) (hd : exn -> py A) (w : W) :
  (forall e w', returns h (hd e) w') ->
  returns h (try_except body (except_Exception hd)) w.
Proof.
  intros Hhd. unfold returns. rewrite value_try_except.
  destruct (value (run h body w)) as [a | e]; [now exists a|].
  apply Hhd.
Qed.

Lemma returns_py_bind {A B} (p : py A) (f : A -> py B) (w : W) :
  returns h p w -> (forall a w', returns h (f a) w') ->
  returns h (py_bind p f) w.
Proof.
  intros [a Ha] Hf. unfold returns. rewrite value_py_bind, Ha. apply Hf.
Qed.

Lemma returns_call {X} (e : event X) (w : W) : returns h (call e) w.
Proof. now eexists. Qed.

Lemma returns_ret {A} (a : A) (w : W) : returns h (ret a) w.
Proof. now eexists. Qed.

End Run.

Create HintDb returns.
Create Rewrite HintDb run.

#[global] Hint Rewrite @value_py_bind @world_py_bind @value_try_except
  @world_try_except @value_call @world_call @value_callr @world_callr
  @value_ret @world_ret @value_raise @value_lift @world_lift : run.

#[global] Hint Resolve returns_call returns_ret : returns.

(** ** The text store and the index builder never raise *)

Section Totality.

Context {W : Type} (h : handler W).

Lemma load_extracted_text_returns doc_id w :
  returns h (load_extracted_text doc_id) w.
Proof.
  apply try_except_returns. intros e w'.
  apply returns_py_bind; auto with returns.
Qed.

Lemma load_all_texts_returns doc_ids : forall all_texts w,
  returns h (load_all_texts doc_ids all_texts) w.
Proof.
  induction doc_ids as [|d ds IH]; intros all_texts w; simpl.
  - apply returns_ret.
  - apply returns_py_bind; [apply load_extracted_text_returns|].
    intros a w'. apply IH.
Qed.

Lemma create_vector_store_returns emb doc_ids store_name w :
  returns h (create_vector_store emb doc_ids store_name) w.
Proof.
  unfold create_vector_store.
  apply returns_py_bind; [apply load_all_texts_returns|].
  intros [|t ts] w1; [apply returns_ret|].
  apply returns_py_bind; [apply returns_call|].
  intros [|c cs] w2; [apply returns_ret|].
  apply try_except_returns. intros e w3.
  apply returns_py_bind; auto with returns.
Qed.

(** What the attempt to load comes to, by the answers of its three
    calls: the exception of a check, nothing, or the loaded store. *)
Lemma load_vector_store_value emb store_name w :
  let faiss := path_exists (Path VECTOR_STORE_DIR (store_name +:+ ".faiss")) in
  let pkl := path_exists (Path VECTOR_STORE_DIR (store_name +:+ ".pkl")) in
  let w1 := after h faiss w in
  let w2 := after h pkl w1 in
  value (run h (load_vector_store emb store_name) w) =
  match answer h faiss w with
  | Raise e => Raise e
  | Ok false => Ok None
  | Ok true =>
      match answer h pkl w1 with
      | Raise e => Raise e
      | Ok false => Ok None
      | Ok true =>
          match answer h (FAISS_load_local VECTOR_STORE_DIR emb store_name)
                  w2 with
          | Ok vs => Ok (Some vs)
          | Raise _ => Ok None
          end
      end
  end.
Proof.
  cbv zeta. unfold load_vector_store. autorewrite with run.
  destruct (answer h (path_exists (Path VECTOR_STORE_DIR
                                     (store_name +:+ ".faiss"))) w)
    as [[|]|e]; autorewrite with run; [|reflexivity|reflexivity].
  destruct (answer h (path_exists (Path VECTOR_STORE_DIR
                                     (store_name +:+ ".pkl"))) _)
    as [[|]|e]; autorewrite with run; [|reflexivity|reflexivity].
  now destruct (answer h (FAISS_load_local VECTOR_STORE_DIR emb store_name) _).
Qed.

(** [get_or_create_vector_store] hands back what the attempt to load
    gave; when that is nothing, what the build gives. *)
Lemma get_or_create_vector_store_value emb doc_ids w :
  let name := store_name_of doc_ids in
  let attempt := run h (load_vector_store emb name) w in
  run h (get_or_create_vector_store (Some emb) doc_ids) w =
  match value attempt with
  | Ok None =>
      let build := run h (create_vector_store emb doc_ids name)
                     (world attempt) in
      Outcome (value build) (world build) (trace attempt ++ trace build)
  | Ok (Some vs) => Outcome (Ok (Some vs)) (world attempt) (trace attempt)
  | Raise e => Outcome (Raise e) (world attempt) (trace attempt)
  end.
Proof.
  cbv zeta. unfold get_or_create_vector_store. fold (store_name_of doc_ids).
  unfold py_bind. rewrite run_bind.
  destruct (value (run h (load_vector_store emb (store_name_of doc_ids)) w))
    as [[vs|]|e]; cbn [run value world trace]; rewrite ?app_nil_r;
    reflexivity.
Qed.

End Totality.

(** ** AnswerComposer and VectorIndexBuilder *)

Section Answer.

Context {W : Type} (h : handler W).

Lemma capability_failure_raises cfg vs query w e :
  capability_failure h cfg vs query w e ->
  value (run h (answer_from cfg vs query) w) = Raise e.
Proof.
  unfold capability_failure, answer_from. intros H.
  autorewrite with run.
  destruct H as [-> | [docs [-> H]]]; [reflexivity|].
  autorewrite with run.
  destruct H as [-> | [llm [-> H]]]; [reflexivity|].
  autorewrite with run. now rewrite H.
Qed.

Lemma chat_value cfg embeddings d ds query w :
  value (run h (_chat_with_documents_sync cfg embeddings (d :: ds) query) w) =
  match value (run h (get_or_create_vector_store embeddings (d :: ds)) w) with
  | Ok None => Ok INDEXING_FAILED
  | Ok (Some vs) =>
      match value (run h (answer_from cfg vs query)
                     (world (run h (get_or_create_vector_store embeddings
                                      (d :: ds)) w))) with
      | Ok s => Ok s
      | Raise e => Ok (SORRY +:+ exn_msg e)
      end
  | Raise e => Ok (SORRY +:+ exn_msg e)
  end.
Proof.
  unfold _chat_with_documents_sync. rewrite value_try_except, value_py_bind.
  destruct (value (run h (get_or_create_vector_store embeddings (d :: ds)) w))
    as [[vs|] | e]; reflexivity.
Qed.

(** C7: with no document identifiers the answer is the fixed guidance
    string, and the program makes no call at all: no embedding, no
    completion, no index build, load or search. *)
Theorem chat_without_documents (cfg : Config) (embeddings : option Embeddings)
    (query : string) (w : W) :
  _chat_with_documents_sync cfg embeddings [] query = ret NO_DOCUMENTS /\
  run h (_chat_with_documents_sync cfg embeddings [] query) w =
    Outcome (Ok NO_DOCUMENTS) w [].
Proof. split; reflexivity. Qed.

(** C8: on a non-empty list of identifiers the answer is always a string,
    never an exception.  When no index comes back it is the fixed
    indexing-failure string; when one of the capability calls made on the
    index fails, it is the fixed apology followed by the failure's
    message. *)
Theorem chat_never_raises (cfg : Config) (embeddings : option Embeddings)
    (d : string) (ds : list string) (query : string) (w : W) :
  let doc_ids := d :: ds in
  let o := run h (_chat_with_documents_sync cfg embeddings doc_ids query) w in
  let index := run h (get_or_create_vector_store embeddings doc_ids) w in
  (exists s, value o = Ok s) /\
  (value index = Ok None -> value o = Ok INDEXING_FAILED) /\
  (forall vs e,
     value index = Ok (Some vs) ->
     capability_failure h cfg vs query (world index) e ->
     value o = Ok (SORRY +:+ exn_msg e)).
Proof.
  cbv zeta. rewrite chat_value. repeat split.
  - destruct (value (run h (get_or_create_vector_store _ _) w))
      as [[vs|] | e]; eauto.
    destruct (value (run h (answer_from cfg vs query) _)); eauto.
  - now intros ->.
  - intros vs e -> H. now rewrite (capability_failure_raises _ _ _ _ _ H).
Qed.

(** C10: without an embeddings handle [get_or_create_vector_store] returns
    [None] before any call, whatever is on disk, and the answer on a
    non-empty list of identifiers is the fixed indexing-failure string. *)
Theorem no_embeddings_no_index (cfg : Config) (doc_ids : list string)
    (d : string) (ds : list string) (query : string) (w : W) :
  run h (get_or_create_vector_store None doc_ids) w = Outcome (Ok None) w [] /\
  run h (_chat_with_documents_sync cfg None (d :: ds) query) w =
    Outcome (Ok INDEXING_FAILED) w [].
Proof. split; reflexivity. Qed.

(** The build, when every step of it succeeds: the store that
    [FAISS.from_texts] made of the chunks. *)
Lemma create_vector_store_built emb doc_ids store_name w texts chunks vs :
  let loaded := run h (load_all_texts doc_ids []) w in
  let split := split_text 1000 200 (join DOCUMENT_SEPARATOR texts) in
  let w1 := after h split (world loaded) in
  let build := FAISS_from_texts chunks emb in
  value loaded = Ok texts -> texts <> [] ->
  answer h split (world loaded) = chunks -> chunks <> [] ->
  answer h build w1 = Ok vs ->
  answer h (FAISS_save_local vs VECTOR_STORE_DIR store_name)
    (after h build w1) = Ok tt ->
  value (run h (create_vector_store emb doc_ids store_name) w) = Ok (Some vs).
Proof.
  cbv zeta. intros Hl Ht Hs Hc Hb Hsave.
  unfold create_vector_store. rewrite value_py_bind, Hl.
  destruct texts as [|t ts]; [congruence|].
  rewrite value_py_bind, value_call, world_call, Hs.
  destruct chunks as [|c cs]; [congruence|].
  rewrite value_try_except, value_py_bind, value_callr, world_callr, Hb.
  now rewrite value_py_bind, value_callr, Hsave.
Qed.


End Answer.

Section AnswerRuns.

Import Stub Scenario.


(** The caller turns that exception into the apology string. *)
Example long_name_is_reported :
  value (run (handle (one_document (says "")))
           (_chat_with_documents_sync cfg (Some emb) eleven_documents
              "Who are the parties?") []) =
  Ok (SORRY +:+ "[Errno 36] File name too long").
Proof. vm_compute. reflexivity. Qed.

End AnswerRuns.

(** ** The report models *)

Section Models.

(** C2, on the code: the call [AnalysisReport()] with no argument raises.
    The default of [decision_assist] is the call [DecisionAssist()], and
    [overall_take] has no default there. *)
Theorem all_defaults_report_raises :
  DecisionAssist_new [] = Raise missing_overall_take /\
  AnalysisReport_new [] = Raise missing_overall_take /\
  AnalysisReport_new [] <> Ok empty_report.
Proof. repeat split; discriminate. Qed.

(** With [overall_take] given, the rest defaults to empty. *)
Lemma report_with_overall_take :
  AnalysisReport_new
    [("decision_assist", JDict [("overall_take", JStr "")])] = Ok empty_report.
Proof. reflexivity. Qed.

End Models.

(** ** Dictionaries *)

Section Dict.

Lemma dict_get_set_eq k v d : dict_get k (dict_set k v d) = Some v.
Proof.
  induction d as [|[k' v'] d IH]; simpl.
  - now rewrite String.eqb_refl.
  - destruct (String.eqb k k') eqn:E; simpl; rewrite E; auto.
Qed.

Lemma dict_get_set_ne k k' v d :
  k <> k' -> dict_get k' (dict_set k v d) = dict_get k' d.
Proof.
  intros Hne. induction d as [|[k0 v0] d IH]; simpl.
  - apply String.eqb_neq in Hne. rewrite String.eqb_sym. now rewrite Hne.
  - destruct (String.eqb k k0) eqn:E; simpl; [|now rewrite IH].
    apply String.eqb_eq in E as <-.
    assert (E : String.eqb k' k = false) by (apply String.eqb_neq; congruence).
    now rewrite E.
Qed.

Lemma dict_get_set k k' v d :
  dict_get k' (dict_set k v d) =
  if String.eqb k' k then Some v else dict_get k' d.
Proof.
  destruct (String.eqb k' k) eqn:E.
  - apply String.eqb_eq in E as ->. apply dict_get_set_eq.
  - apply String.eqb_neq in E. now apply dict_get_set_ne.
Qed.

(** [backfill] adds the default to a missing key and changes nothing
    else. *)
Lemma dict_get_backfill k k' v d :
  dict_get k' (backfill k v d) =
  or_default (dict_get k' d) (if String.eqb k' k then Some v else None).
Proof.
  unfold backfill, dict_has.
  destruct (dict_get k d) eqn:Hk.
  - destruct (dict_get k' d) eqn:Hk'; simpl; [reflexivity|].
    destruct (String.eqb k' k) eqn:E; [|reflexivity].
    apply String.eqb_eq in E as ->. congruence.
  - rewrite dict_get_set.
    destruct (String.eqb k' k) eqn:E.
    + apply String.eqb_eq in E as ->. now rewrite Hk.
    + now destruct (dict_get k' d).
Qed.

Lemma or_default_assoc a b c :
  or_default (or_default a b) c = or_default a (or_default b c).
Proof. now destruct a. Qed.

End Dict.

(** ** Coercion of the parsed response *)

Section Coercion.

Lemma ensure_dict k v d : ensure k v (JDict d) = Ok (JDict (backfill k v d)).
Proof.
  unfold ensure, backfill. simpl. now destruct (dict_has k d).
Qed.

Lemma ensure_fields_dict d :
  ensure_fields (JDict d) = Ok (JDict (with_defaults d)).
Proof.
  unfold ensure_fields, with_defaults.
  repeat (rewrite ensure_dict; simpl rbind). reflexivity.
Qed.

Lemma dict_get_with_defaults k d :
  dict_get k (with_defaults d) = or_default (dict_get k d) (report_default k).
Proof.
  unfold with_defaults. cbv zeta.
  rewrite !dict_get_backfill, !or_default_assoc. f_equal.
  unfold report_default.
  repeat (destruct (String.eqb k _); [reflexivity|]). reflexivity.
Qed.

Lemma dict_get_coerce_risk r k :
  dict_get k (coerce_risk r) = or_default (dict_get k r) (risk_default k).
Proof.
  unfold coerce_risk. cbv zeta.
  rewrite !dict_get_backfill, !or_default_assoc. f_equal.
  unfold risk_default.
  repeat (destruct (String.eqb k _); [reflexivity|]). reflexivity.
Qed.

Lemma dict_get_coerce_decision_assist da k :
  dict_get k (coerce_decision_assist da) =
  or_default (dict_get k da) (decision_assist_default k).
Proof.
  unfold coerce_decision_assist. cbv zeta.
  rewrite !dict_get_backfill, !or_default_assoc. f_equal.
  unfold decision_assist_default.
  repeat (destruct (String.eqb k _); [reflexivity|]). reflexivity.
Qed.

(** The loop keeps the object entries, in order, and drops the others. *)
Lemma validated_risks_of_objects entries :
  validated_risks_of entries =
  map (fun r => JDict (coerce_risk r)) (objects_of entries).
Proof.
  induction entries as [|x entries IH]; [reflexivity|].
  destruct x as [| | | | | |r]; try exact IH.
  change (validated_risks_of (JDict r :: entries))
    with (JDict (coerce_risk r) :: validated_risks_of entries).
  now rewrite IH.
Qed.

(** The coercion of an object whose [risks] can be looped over. *)
Lemma coerce_analysis_data_dict d :
  risks_iterable d ->
  coerce_analysis_data (JDict d) = Ok (JDict (coerced_object d)).
Proof.
  intros Hit. unfold coerce_analysis_data, coerced_object.
  rewrite ensure_fields_dict. simpl rbind. unfold get_or.
  rewrite dict_get_with_defaults. unfold risks_iterable, risk_entries in *.
  assert (Hda : forall R,
    dict_get "decision_assist" (dict_set "risks" R (with_defaults d)) =
    or_default (dict_get "decision_assist" d) (Some EMPTY_DECISION_ASSIST)).
  { intros R. rewrite dict_get_set_ne by discriminate.
    now rewrite dict_get_with_defaults. }
  destruct (dict_get "risks" d) as [v|] eqn:Hr; simpl or_default.
  - destruct (iterate v) as [entries|e] eqn:Hv; [|discriminate Hit].
    simpl. rewrite Hda.
    destruct (dict_get "decision_assist" d) as [[]|]; reflexivity.
  - simpl. rewrite Hda.
    destruct (dict_get "decision_assist" d) as [[]|]; reflexivity.
Qed.

Lemma coerced_object_other d k :
  k <> "risks" -> k <> "decision_assist" ->
  dict_get k (coerced_object d) =
  or_default (dict_get k d) (report_default k).
Proof.
  intros Hr Hd. unfold coerced_object. cbv zeta.
  destruct (dict_get "decision_assist" d) as [[]|];
    rewrite ?(dict_get_set_ne "decision_assist") by congruence;
    rewrite (dict_get_set_ne "risks") by congruence;
    apply dict_get_with_defaults.
Qed.

Lemma coerced_object_risks d :
  dict_get "risks" (coerced_object d) =
  Some (JList (map (fun r => JDict (coerce_risk r))
                 (objects_of (risk_entries d)))).
Proof.
  rewrite <- validated_risks_of_objects. unfold coerced_object. cbv zeta.
  destruct (dict_get "decision_assist" d) as [[]|];
    rewrite ?(dict_get_set_ne "decision_assist") by discriminate;
    apply dict_get_set_eq.
Qed.

Lemma coerced_object_decision_assist d :
  dict_get "decision_assist" (coerced_object d) =
  Some (match dict_get "decision_assist" d with
        | Some (JDict da) => JDict (coerce_decision_assist da)
        | Some v => v
        | None => EMPTY_DECISION_ASSIST
        end).
Proof.
  unfold coerced_object. cbv zeta.
  destruct (dict_get "decision_assist" d) as [[]|] eqn:Hd;
    rewrite ?dict_get_set_eq; try reflexivity;
    rewrite (dict_get_set_ne "risks") by discriminate;
    rewrite dict_get_with_defaults, Hd; reflexivity.
Qed.

(** C5, as the code has it: for a parsed JSON object whose [risks], when
    given, can be looped over, the coercion yields an object in which
    every field of the report that was missing has its empty default and
    every given field is kept; [risks] is the list of its object entries,
    in order, each with [title], [why_it_matters] and [mitigations]
    backfilled, the other entries dropped; and the missing keys of an
    object [decision_assist] are backfilled. *)
Theorem coerce_backfills (d : dict) (H : risks_iterable d) :
  exists d',
    coerce_analysis_data (JDict d) = Ok (JDict d') /\
    (forall k, k <> "risks" -> k <> "decision_assist" ->
       dict_get k d' = or_default (dict_get k d) (report_default k)) /\
    dict_get "risks" d' =
      Some (JList (map (fun r => JDict (coerce_risk r))
                     (objects_of (risk_entries d)))) /\
    (dict_get "risks" d = None -> dict_get "risks" d' = Some (JList [])) /\
    (forall r k,
       dict_get k (coerce_risk r) =
       or_default (dict_get k r) (risk_default k)) /\
    dict_get "decision_assist" d' =
      Some (match dict_get "decision_assist" d with
            | Some (JDict da) => JDict (coerce_decision_assist da)
            | Some v => v
            | None => EMPTY_DECISION_ASSIST
            end) /\
    (forall da k,
       dict_get k (coerce_decision_assist da) =
       or_default (dict_get k da) (decision_assist_default k)).
Proof.
  exists (coerced_object d). repeat apply conj.
  - now apply coerce_analysis_data_dict.
  - apply coerced_object_other.
  - apply coerced_object_risks.
  - intros Hnone. rewrite coerced_object_risks. unfold risk_entries.
    now rewrite Hnone.
  - apply dict_get_coerce_risk.
  - apply coerced_object_decision_assist.
  - apply dict_get_coerce_decision_assist.
Qed.

End Coercion.

Section CoercionCases.

Lemma coerce_backfills_witness :
  exists d',
    coerce_analysis_data (JDict sample_object) = Ok (JDict d') /\
    dict_get "summary" d' =
      Some (JList [JStr "Lease of a flat for twelve months."]) /\
    dict_get "key_terms" d' = Some (JList []) /\
    dict_get "risks" d' =
      Some (JList [JDict [("title", JStr "Late fees");
                          ("why_it_matters", JStr "");
                          ("mitigations", JList [])]]).
Proof.
  assert (Hit : risks_iterable sample_object) by reflexivity.
  destruct (coerce_backfills sample_object Hit)
    as (d' & Hd' & Hother & Hrisks & _).
  exists d'. repeat apply conj.
  - exact Hd'.
  - rewrite Hother by discriminate. reflexivity.
  - rewrite Hother by discriminate. reflexivity.
  - rewrite Hrisks. reflexivity.
Defined.

(** C5 as stated fails on an object whose [risks] is [null]: the loop
    over it raises, no coerced structure comes out, and the keys of
    [decision_assist] are not backfilled. *)
Lemma coerce_null_risks_counterexample :
  coerce_analysis_data (JDict null_risks_object) =
    Raise (Exn TypeError "'NoneType' object is not iterable") /\
  ~ exists d', coerce_analysis_data (JDict null_risks_object) = Ok d'.
Proof.
  split; [reflexivity|]. intros [d' H]. discriminate H.
Qed.

Lemma ensure_not_object k v data :
  not_object data ->
  ensure k v data = Ok data \/
  exists m, ensure k v data = Raise (Exn TypeError m).
Proof.
  unfold ensure. destruct data; simpl; intros H; try (right; eauto; fail).
  - destruct (is_substring k s); simpl; eauto.
  - destruct (existsb _ l); simpl; eauto.
  - destruct H.
Qed.

Lemma ensure_fields_not_object data :
  not_object data ->
  ensure_fields data = Ok data \/
  exists m, ensure_fields data = Raise (Exn TypeError m).
Proof.
  intros H. unfold ensure_fields.
  repeat match goal with
  | |- context [ensure ?k ?v data] =>
      destruct (ensure_not_object k v data H) as [-> | [? ->]];
      simpl rbind; [|right; eauto]
  end.
  now left.
Qed.

(** A parsed value that is not an object makes the coercion raise, and
    not a [ValidationError]. *)
Lemma coerce_not_object data :
  not_object data ->
  exists e, coerce_analysis_data data = Raise e /\
            is_ValidationError e = false.
Proof.
  intros H. unfold coerce_analysis_data.
  destruct (ensure_fields_not_object data H) as [-> | [m ->]]; simpl rbind.
  - destruct data; try (eexists; split; reflexivity). destruct H.
  - eexists; split; reflexivity.
Qed.

End CoercionCases.

(** ** AnalysisExtractor *)

Section Analysis.

Context {W : Type} (h : handler W).

(** Both [except] clauses of [_summarize_document_sync] end in
    [AnalysisReport()], which raises. *)
Lemma summarize_except_raises response_text e :
  exists hd, summarize_except response_text e = Some hd /\
             forall w, value (run h hd w) = Raise missing_overall_take.
Proof.
  unfold summarize_except.
  destruct (is_JSONDecodeError e); eexists; (split; [reflexivity|]);
    intros w; autorewrite with run;
    destruct (negb (String.eqb response_text "")); reflexivity.
Qed.

(** The same holds for the [except ValidationError] clause of
    [validate_and_coerce_analysis]; any other exception passes through. *)
Lemma validate_and_coerce_value data w :
  value (run h (validate_and_coerce_analysis data) w) =
  match (data' <~ coerce_analysis_data data ;;
         kwargs <~ kwargs_of data' ;;
         AnalysisReport_new kwargs) with
  | Ok report => Ok report
  | Raise e =>
      if is_ValidationError e then Raise missing_overall_take else Raise e
  end.
Proof.
  unfold validate_and_coerce_analysis.
  rewrite value_try_except, !value_py_bind, value_lift.
  destruct (coerce_analysis_data data) as [data'|e]; simpl rbind.
  - rewrite value_py_bind, value_lift, world_lift.
    destruct (kwargs_of data') as [kw|e]; simpl rbind.
    + rewrite value_lift. destruct (AnalysisReport_new kw) as [r|e];
        [reflexivity|].
      destruct (is_ValidationError e); [|reflexivity].
      rewrite value_py_bind, value_call, value_lift. reflexivity.
    + cbv beta iota. destruct (is_ValidationError e); [|reflexivity].
      rewrite value_py_bind, value_call, value_lift. reflexivity.
  - cbv beta iota. destruct (is_ValidationError e); [|reflexivity].
    rewrite value_py_bind, value_call, value_lift. reflexivity.
Qed.

Lemma validate_and_coerce_not_object data w :
  not_object data ->
  exists e, value (run h (validate_and_coerce_analysis data) w) = Raise e.
Proof.
  intros H. rewrite validate_and_coerce_value.
  destruct (coerce_not_object data H) as (e & -> & He). simpl rbind.
  cbv beta iota. rewrite He. eauto.
Qed.

Lemma parse_report_value response_text w :
  value (run h (parse_report response_text) w) =
  match answer h (json_loads (clean_json_response response_text)) w with
  | Ok data =>
      value (run h (validate_and_coerce_analysis data)
               (after h (json_loads (clean_json_response response_text)) w))
  | Raise e => Raise e
  end.
Proof.
  unfold parse_report. rewrite value_py_bind, value_callr, world_callr.
  destruct (answer h (json_loads _) w) as [data|e]; [|reflexivity].
  rewrite value_py_bind.
  now destruct (value (run h (validate_and_coerce_analysis data) _)).
Qed.

(** With no text for the document, the only outcome is the not-found
    error. *)
Lemma summarize_without_text cfg doc_id w :
  value (run h (load_extracted_text doc_id) w) = Ok None \/
  value (run h (load_extracted_text doc_id) w) = Ok (Some "") ->
  value (run h (_summarize_document_sync cfg doc_id) w) =
  Raise (not_found doc_id).
Proof.
  unfold _summarize_document_sync. rewrite value_py_bind.
  intros [-> | ->]; reflexivity.
Qed.

(** With a text, the outcome is the report of the main path, or the
    error of [AnalysisReport()]: every failure on the way ends there. *)
Lemma summarize_with_text cfg doc_id t w :
  value (run h (load_extracted_text doc_id) w) = Ok (Some t) -> t <> "" ->
  value (run h (_summarize_document_sync cfg doc_id) w) =
  match value (run h (ask_model cfg t)
                 (world (run h (load_extracted_text doc_id) w))) with
  | Raise _ => Raise missing_overall_take
  | Ok response_text =>
      match value (run h (parse_report response_text)
                     (world (run h (ask_model cfg t)
                               (world (run h (load_extracted_text doc_id)
                                         w))))) with
      | Ok report => Ok report
      | Raise _ => Raise missing_overall_take
      end
  end.
Proof.
  intros Ht Hne. unfold _summarize_document_sync.
  rewrite value_py_bind, Ht.
  assert (E : has_text (Some t) = true).
  { simpl. apply String.eqb_neq in Hne. now rewrite Hne. }
  rewrite E, value_bind.
  destruct (value (run h (ask_model cfg t) _)) as [response_text|e].
  - rewrite value_try_except.
    destruct (value (run h (parse_report response_text) _)) as [r|e];
      [reflexivity|].
    destruct (summarize_except_raises response_text e) as (hd & -> & Hhd).
    apply Hhd.
  - destruct (summarize_except_raises "" e) as (hd & -> & Hhd).
    apply Hhd.
Qed.

(** X14: The not-found error leaves the function exactly when the text store
    has no text, or an empty one, for the document. *)
Lemma summarize_not_found_iff cfg doc_id w :
  value (run h (_summarize_document_sync cfg doc_id) w) =
    Raise (not_found doc_id) <->
  (value (run h (load_extracted_text doc_id) w) = Ok None \/
   value (run h (load_extracted_text doc_id) w) = Ok (Some "")).
Proof.
  split; [|apply summarize_without_text].
  destruct (load_extracted_text_returns h doc_id w) as [[t|] Ht]; auto.
  destruct (decide (t = "")) as [-> | Hne]; auto.
  rewrite (summarize_with_text cfg doc_id t w Ht Hne).
  destruct (value (run h (ask_model cfg t) _)); [|discriminate].
  destruct (value (run h (parse_report _) _)); discriminate.
Qed.

(** C3, on the code: the document has a text and the completion is text
    from which no JSON object is parsed; the report that comes back is
    not the all-defaults one: the call raises the error of
    [AnalysisReport()]. *)
Theorem garbage_response_raises (cfg : Config) (doc_id t : string)
    (response_text : string) (w : W) :
  let stored := run h (load_extracted_text doc_id) w in
  let asked := run h (ask_model cfg t) (world stored) in
  value stored = Ok (Some t) -> t <> "" ->
  value asked = Ok response_text ->
  no_json_object
    (answer h (json_loads (clean_json_response response_text))
       (world asked)) ->
  value (run h (_summarize_document_sync cfg doc_id) w) =
  Raise missing_overall_take.
Proof.
  cbv zeta. intros Ht Hne Hrt Hno.
  rewrite (summarize_with_text cfg doc_id t w Ht Hne), Hrt.
  rewrite parse_report_value.
  destruct (answer h (json_loads _) _) as [data|e]; [|reflexivity].
  destruct (validate_and_coerce_not_object data
              (after h (json_loads (clean_json_response response_text))
                 (world (run h (ask_model cfg t)
                           (world (run h (load_extracted_text doc_id) w))))))
    as [e ->]; [|reflexivity].
  now destruct data.
Qed.

(** C4, on the code: the document has a text and a call to the completion
    capability fails; an error leaves the function, and it is not the
    not-found error. *)
Theorem capability_failure_escapes (cfg : Config) (doc_id t : string)
    (e : exn) (w : W) :
  let stored := run h (load_extracted_text doc_id) w in
  value stored = Ok (Some t) -> t <> "" ->
  value (run h (ask_model cfg t) (world stored)) = Raise e ->
  value (run h (_summarize_document_sync cfg doc_id) w) =
    Raise missing_overall_take /\
  missing_overall_take <> not_found doc_id.
Proof.
  cbv zeta. intros Ht Hne He. split; [|discriminate].
  now rewrite (summarize_with_text cfg doc_id t w Ht Hne), He.
Qed.

End Analysis.

Section AnalysisRuns.

Import Stub.

Lemma garbage_response_raises_witness :
  value (run (handle (one_document (says "I cannot help with that.")))
           (_summarize_document_sync cfg "doc-1") []) =
  Raise missing_overall_take.
Proof.
  apply (garbage_response_raises
           (handle (one_document (says "I cannot help with that.")))
           cfg "doc-1"
           "This agreement is made between Party A and Party B."
           "I cannot help with that." []).
  - reflexivity.
  - discriminate.
  - reflexivity.
  - exact I.
Defined.

Lemma capability_failure_escapes_witness :
  value (run (handle (one_document
                        (Raise (Exn (OtherException "ServiceUnavailable")
                                  "503 The service is unavailable."))))
           (_summarize_document_sync cfg "doc-1") []) =
    Raise missing_overall_take /\
  missing_overall_take <> not_found "doc-1".
Proof.
  apply (capability_failure_escapes
           (handle (one_document
                      (Raise (Exn (OtherException "ServiceUnavailable")
                                "503 The service is unavailable."))))
           cfg "doc-1"
           "This agreement is made between Party A and Party B."
           (Exn (OtherException "ServiceUnavailable")
              "503 The service is unavailable.") []).
  - reflexivity.
  - discriminate.
  - reflexivity.
Defined.

End AnalysisRuns.

(** ** ChunkSplitter *)

Section Windows.

Context {A : Type}.
Implicit Types (text rest w : list A) (fuel maxLen step off i : nat).

Lemma windows_step fuel maxLen step off rest :
  rest <> [] ->
  windows (S fuel) maxLen step off rest =
  if Nat.leb (length rest) maxLen then [(off, rest)]
  else (off, take maxLen rest)
         :: windows fuel maxLen step (off + step) (drop step rest).
Proof. destruct rest; [congruence | reflexivity]. Qed.

(** Every unit of the text lies in some window, at its place. *)
Lemma windows_cover fuel maxLen step :
  1 <= step -> step <= maxLen ->
  forall off rest i c,
    length rest <= fuel -> rest !! i = Some c ->
    exists off' w,
      (off', w) ∈ windows fuel maxLen step off rest /\
      off' <= off + i /\ w !! (off + i - off') = Some c.
Proof.
  intros Hstep Hmax.
  induction fuel as [|fuel IH]; intros off rest i c Hlen Hi.
  - destruct rest; [discriminate Hi | simpl in Hlen; lia].
  - assert (Hne : rest <> []) by (intros ->; discriminate Hi).
    rewrite (windows_step _ _ _ _ _ Hne).
    destruct (Nat.leb (length rest) maxLen) eqn:Hfit.
    + exists off, rest. split; [left|]. split; [lia|].
      now replace (off + i - off) with i by lia.
    + apply Nat.leb_gt in Hfit.
      destruct (decide (i < maxLen)) as [Hin | Hout].
      * exists off, (take maxLen rest). split; [left|]. split; [lia|].
        replace (off + i - off) with i by lia.
        now rewrite lookup_take_lt.
      * destruct (IH (off + step) (drop step rest) (i - step) c)
          as (off' & w & Hw & Hle & Hc).
        { rewrite length_drop. lia. }
        { rewrite lookup_drop. now replace (step + (i - step)) with i by lia. }
        exists off', w. split; [now right|]. split; [lia|].
        now replace (off + i - off') with (off + step + (i - step) - off')
          by lia.
Qed.

(** Every window is a piece of the text, at most [maxLen] long. *)
Lemma windows_substring text fuel maxLen step :
  1 <= maxLen ->
  forall off off' w,
    (off', w) ∈ windows fuel maxLen step off (drop off text) ->
    w = take (length w) (drop off' text) /\ 0 < length w <= maxLen.
Proof.
  intros Hmax. induction fuel as [|fuel IH]; intros off off' w Hin.
  - now apply elem_of_nil in Hin.
  - destruct (decide (drop off text = [])) as [E | Hne].
    { rewrite E in Hin. now apply elem_of_nil in Hin. }
    rewrite (windows_step _ _ _ _ _ Hne) in Hin.
    destruct (Nat.leb (length (drop off text)) maxLen) eqn:Hfit.
    + apply list_elem_of_singleton in Hin. injection Hin as -> ->.
      apply Nat.leb_le in Hfit. split; [now rewrite take_ge|].
      split; [|exact Hfit]. destruct (drop off text); [congruence|simpl; lia].
    + apply Nat.leb_gt in Hfit. apply elem_of_cons in Hin as [Hin | Hin].
      * injection Hin as -> ->. rewrite length_take.
        replace (maxLen `min` length (drop off text)) with maxLen by lia.
        split; [reflexivity | lia].
      * rewrite drop_drop in Hin. now apply (IH (off + step)).
Qed.

(** Two consecutive windows start [step] apart and share the units in
    between. *)
Lemma windows_overlap fuel maxLen step :
  step <= maxLen ->
  forall off rest k o1 w1 o2 w2,
    windows fuel maxLen step off rest !! k = Some (o1, w1) ->
    windows fuel maxLen step off rest !! S k = Some (o2, w2) ->
    o2 = o1 + step /\ drop step w1 = take (maxLen - step) w2.
Proof.
  intros Hmax. induction fuel as [|fuel IH]; intros off rest k o1 w1 o2 w2.
  - discriminate.
  - destruct rest as [|x rest']; [discriminate|].
    set (rest := x :: rest').
    rewrite (windows_step fuel maxLen step off rest) by discriminate.
    destruct (Nat.leb (length rest) maxLen); [now destruct k|].
    destruct k as [|k]; [|apply IH].
    simpl. intros [= <- <-] H2.
    assert (Hw2 : o2 = off + step /\
                  take (maxLen - step) w2 =
                  take (maxLen - step) (drop step rest)).
    { destruct fuel as [|fuel']; [discriminate H2|].
      destruct (drop step rest) as [|y rest2] eqn:E; [discriminate H2|].
      rewrite (windows_step fuel' maxLen step (off + step) (y :: rest2))
        in H2 by discriminate.
      destruct (Nat.leb (length (y :: rest2)) maxLen);
        simpl in H2; injection H2 as <- <-; split; trivial.
      rewrite take_take. f_equal. lia. }
    destruct Hw2 as [-> ->]. split; [reflexivity|].
    rewrite take_drop_commute. do 2 f_equal. lia.
Qed.

(** The splitter covers the text whenever the overlap is below the
    window length. *)
Lemma split_windows_cover text maxLen overlap :
  overlap < maxLen ->
  forall i c,
    text !! i = Some c ->
    exists off w,
      (off, w) ∈ split_windows text maxLen overlap /\
      off <= i /\ w !! (i - off) = Some c.
Proof.
  intros Hov i c Hi. unfold split_windows.
  destruct (windows_cover (length text) maxLen (Nat.max 1 (maxLen - overlap))
              ltac:(lia) ltac:(lia) 0 text i c ltac:(lia) Hi)
    as (off & w & Hw & Hle & Hc).
  exists off, w. simpl in Hle, Hc. auto.
Qed.

Lemma split_empty maxLen overlap : split (@nil A) maxLen overlap = [].
Proof. reflexivity. Qed.

(** The three windows of a text of 2500 units. *)
Lemma split_windows_2500 text :
  length text = 2500 ->
  split_windows text 1000 200 =
  [(0, take 1000 text); (800, take 1000 (drop 800 text));
   (1600, drop 1600 text)].
Proof.
  intros H. unfold split_windows. rewrite H.
  change (Nat.max 1 (1000 - 200)) with 800.
  change 2500 with (S (S (S 2497))).
  assert (H0 : text <> []) by (intros ->; discriminate H).
  rewrite windows_step by exact H0.
  replace (Nat.leb (length text) 1000) with false
    by (rewrite H; reflexivity).
  assert (H1 : length (drop 800 text) = 1700) by (rewrite length_drop; lia).
  rewrite windows_step by (intros E; rewrite E in H1; discriminate H1).
  replace (Nat.leb (length (drop 800 text)) 1000) with false
    by (rewrite H1; reflexivity).
  rewrite drop_drop.
  assert (H2 : length (drop (800 + 800) text) = 900)
    by (rewrite length_drop; lia).
  rewrite windows_step by (intros E; rewrite E in H2; discriminate H2).
  replace (Nat.leb (length (drop (800 + 800) text)) 1000) with true
    by (rewrite H2; reflexivity).
  reflexivity.
Qed.

(** C9, on the splitter as the spec describes it: a text of 2500 units is
    split, with windows of 1000 and an overlap of 200, into three windows
    in document order, starting 800 apart; each is a piece of the text of
    at most 1000 units, consecutive windows share 200 units, every unit
    of the text lies in a window, and the last window holds the 900 units
    that remain.  The empty text gives no window. *)
Theorem split_covers_2500 (text : list A) (H : length text = 2500) :
  let ws := split_windows text 1000 200 in
  split text 1000 200 =
    [take 1000 text; take 1000 (drop 800 text); drop 1600 text] /\
  (forall i c,
     text !! i = Some c ->
     exists off w, (off, w) ∈ ws /\ off <= i /\ w !! (i - off) = Some c) /\
  (forall off w,
     (off, w) ∈ ws ->
     w = take (length w) (drop off text) /\ 0 < length w <= 1000) /\
  (forall k o1 w1 o2 w2,
     ws !! k = Some (o1, w1) -> ws !! S k = Some (o2, w2) ->
     o2 = o1 + 800 /\ drop 800 w1 = take 200 w2 /\ length (drop 800 w1) = 200) /\
  split (@nil A) 1000 200 = [].
Proof.
  cbv zeta. repeat apply conj.
  - unfold split. now rewrite split_windows_2500.
  - apply split_windows_cover. lia.
  - intros off w Hin. unfold split_windows in Hin.
    apply (windows_substring text (length text) 1000
             (Nat.max 1 (1000 - 200)) ltac:(lia) 0 off w Hin).
  - intros k o1 w1 o2 w2 Hk HSk.
    destruct (windows_overlap (length text) 1000 800 ltac:(lia)
                0 text k o1 w1 o2 w2 Hk HSk) as [Ho Hw].
    change (1000 - 800) with 200 in Hw. repeat split; trivial.
    rewrite split_windows_2500 in Hk, HSk by exact H.
    destruct k as [|[|[|k]]]; try discriminate HSk;
      injection Hk as <- <-; rewrite length_drop, length_take;
      rewrite ?length_drop; lia.
  - reflexivity.
Qed.

End Windows.

Lemma split_covers_2500_witness :
  split (replicate 2500 "a"%char) 1000 200 =
  [take 1000 (replicate 2500 "a"%char);
   take 1000 (drop 800 (replicate 2500 "a"%char));
   drop 1600 (replicate 2500 "a"%char)].
Proof.
  apply (split_covers_2500 (replicate 2500 "a"%char)).
  reflexivity.
Defined.

(** ** Concrete runs *)

Section Runs.

Import Stub.

(** A persisted index whose load fails is rebuilt from the text; the
    failure is printed and nothing is raised. *)
Example corrupt_index_is_rebuilt :
  let o := run (handle (corrupt_index (says "Party A and Party B.")))
             (get_or_create_vector_store (Some emb) ["doc-1"]) [] in
  value o =
    Ok (Some {| docstore :=
                  ["This agreement is made between Party A and Party B."] |})
  /\ world o = ["Error loading vector store: pickle data was truncated"].
Proof. split; reflexivity. Qed.

(** The same index is not looked at when the embeddings are missing. *)
Example corrupt_index_without_embeddings :
  run (handle (corrupt_index (says "Party A and Party B.")))
    (_chat_with_documents_sync cfg None ["doc-1"] "Who are the parties?") [] =
  Outcome (Ok INDEXING_FAILED) [] [].
Proof. reflexivity. Qed.

(** A completion that fails becomes the apology string. *)
Example failed_completion_is_reported :
  value (run (handle (one_document
                        (Raise (Exn (OtherException "ServiceUnavailable")
                                  "503 The service is unavailable."))))
           (_chat_with_documents_sync cfg (Some emb) ["doc-1"]
              "Who are the parties?") []) =
  Ok (SORRY +:+ "503 The service is unavailable.").
Proof. reflexivity. Qed.

(** A completion that is the empty JSON object gives the empty report. *)
Example empty_object_gives_empty_report :
  value (run (handle (one_document (says "{}")))
           (_summarize_document_sync cfg "doc-1") []) = Ok empty_report.
Proof. reflexivity. Qed.

(** A document that has no text is not found. *)
Example unknown_document_not_found :
  value (run (handle (one_document (says "{}")))
           (_summarize_document_sync cfg "doc-2") []) =
  Raise (not_found "doc-2").
Proof. reflexivity. Qed.

(** Fences and prose around the object are removed before parsing. *)
Example clean_fenced_response :
  clean_json_response
    ("Here you go:" +:+ nl +:+ "```json" +:+ nl +:+ "{}" +:+ nl +:+ "```")
  = "{}".
Proof. reflexivity. Qed.

End Runs.

(** ** Reports and their JSON form *)

Section Dump.

Lemma v_ap_ok {A B} (f : validated (A -> B)) (x : validated A) (b : B) :
  f <*> x = VOk b -> exists g a, f = VOk g /\ x = VOk a /\ b = g a.
Proof.
  destruct f as [g| |], x as [a| |]; try discriminate.
  intros [= <-]. eauto.
Qed.

Lemma v_items_cons {A} (f : list loc_item -> json -> validated A) loc i x l :
  v_items f loc i (x :: l) =
  VOk (fun a rest => a :: rest) <*> f (loc ++ [LIdx i]) x
    <*> v_items f loc (S i) l.
Proof. reflexivity. Qed.

Lemma v_entries_cons {A} (f : list loc_item -> json -> validated A) loc k x d :
  v_entries f loc ((k, x) :: d) =
  VOk (fun a rest => (k, a) :: rest) <*> f (loc ++ [LKey k]) x
    <*> v_entries f loc d.
Proof. reflexivity. Qed.

Lemma v_items_strs loc i (l : list string) :
  v_items v_str loc i (map JStr l) = VOk l.
Proof.
  revert i. induction l as [|s l IH]; intros i; [reflexivity|].
  simpl. now rewrite IH.
Qed.

Lemma v_list_strs loc (l : list string) :
  v_list v_str loc (dump_strs l) = VOk l.
Proof. apply v_items_strs. Qed.

Lemma v_RiskItem_dump loc (r : RiskItem) :
  v_RiskItem loc (dump_RiskItem r) = VOk r.
Proof.
  destruct r as [t y wf m]. unfold v_RiskItem, dump_RiskItem, RiskItem_fields.
  unfold v_field. simpl dict_get. cbv beta iota. rewrite v_list_strs.
  now destruct wf.
Qed.

Lemma v_items_risks loc i (l : list RiskItem) :
  v_items v_RiskItem loc i (map dump_RiskItem l) = VOk l.
Proof.
  revert i. induction l as [|r l IH]; intros i; [reflexivity|].
  simpl map. now rewrite v_items_cons, v_RiskItem_dump, IH.
Qed.

Lemma v_DecisionAssist_dump loc (a : DecisionAssist) :
  v_DecisionAssist loc (dump_DecisionAssist a) = VOk a.
Proof.
  destruct a as [p c o].
  unfold v_DecisionAssist, dump_DecisionAssist, DecisionAssist_fields.
  unfold v_field. simpl dict_get. cbv beta iota. now rewrite !v_list_strs.
Qed.

Lemma v_entries_strs loc (o : list (string * list string)) :
  v_entries (v_list v_str) loc
    (map (fun kv => (fst kv, dump_strs (snd kv))) o) = VOk o.
Proof.
  induction o as [|[k l] o IH]; [reflexivity|].
  simpl map. now rewrite v_entries_cons, v_list_strs, IH.
Qed.

(** A [dict] with distinct keys iterates over all its bindings. *)
Lemma dict_items_from_distinct (d : dict) : forall seen,
  NoDup (map fst d) -> (forall k, k ∈ map fst d -> k ∉ seen) ->
  dict_items_from seen d = d.
Proof.
  induction d as [|[k v] d IH]; intros seen Hnd Hseen; [reflexivity|].
  simpl in *. apply NoDup_cons in Hnd as [Hk Hnd].
  rewrite bool_decide_eq_false_2 by (apply Hseen; left).
  f_equal. apply IH; [exact Hnd|].
  intros k' Hk' Hin. apply elem_of_cons in Hin as [-> | Hin]; [contradiction|].
  apply (Hseen k'); [now right | exact Hin].
Qed.

Lemma dict_items_distinct (d : dict) : NoDup (map fst d) -> dict_items d = d.
Proof.
  intros H. apply dict_items_from_distinct; [exact H|].
  intros k _ Hin. now apply elem_of_nil in Hin.
Qed.

Lemma dump_obligations_keys (o : list (string * list string)) :
  map fst (map (fun kv => (fst kv, dump_strs (snd kv))) o) = map fst o.
Proof. induction o as [|kv o IH]; simpl; [reflexivity | now f_equal]. Qed.

(** The nine fields of a dump pass the validation, each with the value
    it was dumped from. *)
Lemma AnalysisReport_new_dump s kt ob cp rk rf qa ns da :
  NoDup (map fst ob) ->
  let r := {| summary := s; key_terms := kt; obligations := ob;
              costs_and_payments := cp; risks := rk; red_flags := rf;
              questions_to_ask := qa; negotiation_suggestions := ns;
              decision_assist := da |} in
  AnalysisReport_new (model_dump r) = Ok r.
Proof.
  intros H. cbv zeta. unfold AnalysisReport_new, model_dump, v_field.
  simpl dict_get. cbn [summary key_terms obligations costs_and_payments risks
    red_flags questions_to_ask negotiation_suggestions decision_assist].
  cbv beta iota. rewrite !v_list_strs, v_DecisionAssist_dump.
  unfold v_list, v_dict. rewrite v_items_risks.
  rewrite dict_items_distinct by (now rewrite dump_obligations_keys).
  now rewrite v_entries_strs.
Qed.

(** X1: A report dumped with [model_dump] and passed back as keyword
    arguments is rebuilt as it was: every value a report can hold passes
    the validation of its field. *)
Theorem report_round_trip (r : AnalysisReport) (H : distinct_parties r) :
  AnalysisReport_new (model_dump r) = Ok r.
Proof.
  destruct r as [s kt ob cp rk rf qa ns da]. unfold distinct_parties in H.
  simpl in H. now apply AnalysisReport_new_dump.
Qed.

Lemma report_round_trip_witness :
  AnalysisReport_new (model_dump sample_report) = Ok sample_report.
Proof.
  apply (report_round_trip sample_report).
  apply (bool_decide_unpack _). vm_compute. exact I.
Defined.

End Dump.

(** ** The coercion on complete and on over-complete responses *)

Section CoercionInvariance.

Context {W : Type} (h : handler W).

Ltac field_name := apply (bool_decide_unpack _); vm_compute; exact I.

(** The model reads its keyword arguments through its nine field names
    only. *)
Lemma AnalysisReport_new_ext (d1 d2 : dict) :
  (forall k, k ∈ REPORT_FIELDS -> dict_get k d1 = dict_get k d2) ->
  AnalysisReport_new d1 = AnalysisReport_new d2.
Proof.
  intros H. unfold AnalysisReport_new, v_field.
  rewrite (H "summary") by field_name.
  rewrite (H "key_terms") by field_name.
  rewrite (H "obligations") by field_name.
  rewrite (H "costs_and_payments") by field_name.
  rewrite (H "risks") by field_name.
  rewrite (H "red_flags") by field_name.
  rewrite (H "questions_to_ask") by field_name.
  rewrite (H "negotiation_suggestions") by field_name.
  rewrite (H "decision_assist") by field_name.
  reflexivity.
Qed.

(** When [risks] cannot be looped over, the coercion raises the error of
    the loop. *)
Lemma coerce_analysis_data_not_iterable d v e :
  dict_get "risks" d = Some v -> iterate v = Raise e ->
  coerce_analysis_data (JDict d) = Raise e.
Proof.
  intros Hv He. unfold coerce_analysis_data.
  rewrite ensure_fields_dict. simpl rbind. unfold get_or.
  rewrite dict_get_with_defaults, Hv. simpl or_default. simpl rbind.
  now rewrite He.
Qed.

(** The coerced structure depends on the parsed object through the nine
    fields only. *)
Lemma coerced_object_ext (d1 d2 : dict) k :
  (forall f, f ∈ REPORT_FIELDS -> dict_get f d1 = dict_get f d2) ->
  k ∈ REPORT_FIELDS ->
  dict_get k (coerced_object d1) = dict_get k (coerced_object d2).
Proof.
  intros H Hk.
  destruct (decide (k = "risks")) as [-> | Hr].
  { rewrite !coerced_object_risks. unfold risk_entries.
    now rewrite (H "risks") by field_name. }
  destruct (decide (k = "decision_assist")) as [-> | Hd].
  { rewrite !coerced_object_decision_assist.
    now rewrite (H "decision_assist") by field_name. }
  rewrite !coerced_object_other by assumption. now rewrite (H k Hk).
Qed.

Lemma validate_and_coerce_ext (d1 d2 : dict) (w1 w2 : W) :
  (forall f, f ∈ REPORT_FIELDS -> dict_get f d1 = dict_get f d2) ->
  value (run h (validate_and_coerce_analysis (JDict d1)) w1) =
  value (run h (validate_and_coerce_analysis (JDict d2)) w2).
Proof.
  intros H. rewrite !validate_and_coerce_value.
  assert (Hr : dict_get "risks" d1 = dict_get "risks" d2)
    by (apply H; field_name).
  destruct (dict_get "risks" d2) as [v|] eqn:Hv.
  - destruct (iterate v) as [entries|e] eqn:Hit.
    + rewrite !coerce_analysis_data_dict
        by (unfold risks_iterable; rewrite ?Hr, ?Hv, Hit; reflexivity).
      simpl rbind.
      rewrite (AnalysisReport_new_ext (coerced_object d1) (coerced_object d2));
        [reflexivity|].
      intros k Hk. now apply coerced_object_ext.
    + rewrite (coerce_analysis_data_not_iterable d1 v e Hr Hit).
      now rewrite (coerce_analysis_data_not_iterable d2 v e Hv Hit).
  - rewrite !coerce_analysis_data_dict
      by (unfold risks_iterable; rewrite ?Hr, ?Hv; reflexivity).
    simpl rbind.
    rewrite (AnalysisReport_new_ext (coerced_object d1) (coerced_object d2));
      [reflexivity|].
    intros k Hk. now apply coerced_object_ext.
Qed.

(** X2: A key of the response that names no field of the report changes
    nothing: with or without it, [validate_and_coerce_analysis] returns
    the same report or raises the same error. *)
Theorem unknown_key_is_ignored (d : dict) (k : string) (v : json) (w : W)
    (Hk : k ∉ REPORT_FIELDS) :
  value (run h (validate_and_coerce_analysis (JDict (dict_set k v d))) w) =
  value (run h (validate_and_coerce_analysis (JDict d)) w).
Proof.
  apply validate_and_coerce_ext. intros f Hf.
  apply dict_get_set_ne. intros ->. contradiction.
Qed.

Lemma objects_of_dumped (l : list RiskItem) :
  map (fun r => JDict (coerce_risk r)) (objects_of (map dump_RiskItem l)) =
  map dump_RiskItem l.
Proof.
  induction l as [|r l IH]; [reflexivity|].
  simpl map. unfold objects_of in *. simpl omap. simpl map.
  now rewrite IH.
Qed.

(** The coercion changes no field of a dump that the validation reads. *)
Lemma coerced_dump_fields (r : AnalysisReport) :
  AnalysisReport_new (coerced_object (model_dump r)) =
  AnalysisReport_new (model_dump r).
Proof.
  apply AnalysisReport_new_ext. intros k Hk.
  destruct (decide (k = "risks")) as [-> | Hr].
  { rewrite coerced_object_risks.
    change (risk_entries (model_dump r))
      with (map dump_RiskItem (risks r)).
    now rewrite objects_of_dumped. }
  destruct (decide (k = "decision_assist")) as [-> | Hd].
  { rewrite coerced_object_decision_assist. reflexivity. }
  rewrite coerced_object_other by assumption.
  unfold REPORT_FIELDS in Hk.
  repeat (apply elem_of_cons in Hk as [-> | Hk]; [reflexivity|]).
  now apply elem_of_nil in Hk.
Qed.

Lemma coerced_dump_is_validated (r : AnalysisReport) :
  distinct_parties r ->
  AnalysisReport_new (coerced_object (model_dump r)) = Ok r.
Proof.
  intros H. rewrite coerced_dump_fields.
  destruct r as [s kt ob cp rk rf qa ns da]. unfold distinct_parties in H.
  simpl in H. now apply AnalysisReport_new_dump.
Qed.

Lemma coerce_dump (r : AnalysisReport) :
  coerce_analysis_data (JDict (model_dump r)) =
  Ok (JDict (coerced_object (model_dump r))).
Proof. now apply coerce_analysis_data_dict. Qed.

(** X3: The coercion leaves the dump of a report as it is, and the report
    comes back: a response that spells out every field is parsed into
    the report it describes, with nothing printed. *)
Theorem complete_response_is_kept (r : AnalysisReport) (w : W)
    (H : distinct_parties r) :
  run h (validate_and_coerce_analysis (JDict (model_dump r))) w =
  Outcome (Ok r) w [].
Proof.
  unfold validate_and_coerce_analysis, try_except, py_bind, lift.
  rewrite coerce_dump. cbn [bind kwargs_of].
  rewrite (coerced_dump_is_validated r H). reflexivity.
Qed.

End CoercionInvariance.

Lemma unknown_key_is_ignored_witness :
  value (run (Stub.handle (Stub.one_document (Stub.says "{}")))
           (validate_and_coerce_analysis
              (JDict (dict_set "confidence" (JFloat "0.9") sample_object)))
           []) =
  value (run (Stub.handle (Stub.one_document (Stub.says "{}")))
           (validate_and_coerce_analysis (JDict sample_object)) []).
Proof.
  apply (unknown_key_is_ignored
           (Stub.handle (Stub.one_document (Stub.says "{}")))
           sample_object "confidence" (JFloat "0.9") []).
  apply (bool_decide_unpack _). vm_compute. exact I.
Defined.

Lemma complete_response_is_kept_witness :
  run (Stub.handle (Stub.one_document (Stub.says "{}")))
    (validate_and_coerce_analysis (JDict (model_dump sample_report))) [] =
  Outcome (Ok sample_report) [] [].
Proof.
  apply (complete_response_is_kept
           (Stub.handle (Stub.one_document (Stub.says "{}")))
           sample_report []).
  apply (bool_decide_unpack _). vm_compute. exact I.
Defined.

(** ** The risks of a returned report *)

Section ReturnedRisks.

Context {W : Type} (h : handler W).

Lemma v_str_ok loc v s : v_str loc v = VOk s -> v = JStr s.
Proof. destruct v; try discriminate. now intros [= ->]. Qed.

Lemma v_items_strs_ok loc (l : list json) : forall i (ss : list string),
  v_items v_str loc i l = VOk ss -> l = map JStr ss.
Proof.
  induction l as [|x l IH]; intros i ss H.
  - injection H as <-. reflexivity.
  - rewrite v_items_cons in H.
    apply v_ap_ok in H as (g & rest & Hg & Hrest & ->).
    apply v_ap_ok in Hg as (g0 & s & Hg0 & Hs & ->).
    injection Hg0 as <-. apply v_str_ok in Hs as ->.
    simpl. f_equal. now apply (IH (S i)).
Qed.

Lemma v_list_strs_ok loc v (ss : list string) :
  v_list v_str loc v = VOk ss -> v = dump_strs ss.
Proof.
  destruct v; try discriminate. intros H.
  unfold dump_strs. f_equal. now apply (v_items_strs_ok loc l 0).
Qed.

Lemma v_optional_str_ok loc v o :
  v_optional_str loc v = VOk o ->
  v = match o with Some s => JStr s | None => JNull end.
Proof. destruct v; try discriminate; now intros [= <-]. Qed.

(** A field that validates holds the given value, or its default. *)
Lemma v_field_ok {A} kwargs loc name
    (f : list loc_item -> json -> validated A) default a :
  v_field kwargs loc name f default = VOk a ->
  (exists v, dict_get name kwargs = Some v /\
             f (loc ++ [LKey name]) v = VOk a) \/
  (dict_get name kwargs = None /\ default = Some (VOk a)).
Proof.
  unfold v_field. destruct (dict_get name kwargs) as [v|]; [eauto|].
  destruct default as [d|]; [|discriminate]. intros ->. auto.
Qed.

Lemma RiskItem_fields_described loc entry item :
  RiskItem_fields loc (coerce_risk entry) = VOk item ->
  risk_described entry item.
Proof.
  unfold RiskItem_fields. intros H.
  apply v_ap_ok in H as (g3 & m & H & Hm & ->).
  apply v_ap_ok in H as (g2 & wf & H & Hwf & ->).
  apply v_ap_ok in H as (g1 & y & H & Hy & ->).
  apply v_ap_ok in H as (g0 & t & H & Ht & ->).
  injection H as <-.
  apply v_field_ok in Ht as [(v & Hv & Ht) | [_ Ht]]; [|discriminate Ht].
  apply v_field_ok in Hy as [(vy & Hvy & Hy) | [_ Hy]]; [|discriminate Hy].
  rewrite dict_get_coerce_risk in Hv, Hvy.
  apply v_str_ok in Ht as ->. apply v_str_ok in Hy as ->.
  repeat split; cbn [title why_it_matters where_found mitigations].
  - exact Hv.
  - exact Hvy.
  - apply v_field_ok in Hwf as [(v & Hv' & Hwf) | [Hnone Hwf]].
    + rewrite dict_get_coerce_risk in Hv'.
      apply v_optional_str_ok in Hwf as ->.
      destruct (dict_get "where_found" entry); [exact Hv' | discriminate Hv'].
    + rewrite dict_get_coerce_risk in Hnone. injection Hwf as <-.
      destruct (dict_get "where_found" entry); [discriminate Hnone|].
      reflexivity.
  - apply v_field_ok in Hm as [(v & Hv' & Hm) | [Hnone Hm]].
    + rewrite dict_get_coerce_risk in Hv'.
      apply v_list_strs_ok in Hm as ->. exact Hv'.
    + rewrite dict_get_coerce_risk in Hnone.
      destruct (dict_get "mitigations" entry); discriminate Hnone.
Qed.

Lemma v_items_risks_described loc (entries : list dict) :
  forall i (items : list RiskItem),
    v_items v_RiskItem loc i (map (fun r => JDict (coerce_risk r)) entries) =
      VOk items ->
    Forall2 risk_described entries items.
Proof.
  induction entries as [|entry entries IH]; intros i items H.
  - injection H as <-. constructor.
  - simpl map in H. rewrite v_items_cons in H.
    apply v_ap_ok in H as (g & rest & Hg & Hrest & ->).
    apply v_ap_ok in Hg as (g0 & item & Hg0 & Hitem & ->).
    injection Hg0 as <-. constructor.
    + now apply (RiskItem_fields_described (loc ++ [LIdx i])).
    + now apply (IH (S i)).
Qed.

(** X4: When [validate_and_coerce_analysis] returns a report for a parsed
    object, the risks of the report are, one for one and in order, the
    entries of [risks] that are objects: an entry that is not an object
    leaves no trace, and each key of a risk is the entry's, or
    ['Untitled Risk'], [''], no [where_found], no mitigation. *)
Theorem returned_risks_are_the_object_entries (d : dict)
    (report : AnalysisReport) (w : W)
    (H : value (run h (validate_and_coerce_analysis (JDict d)) w) = Ok report) :
  Forall2 risk_described (objects_of (risk_entries d)) (risks report).
Proof.
  rewrite validate_and_coerce_value in H.
  assert (Hnew : AnalysisReport_new (coerced_object d) = Ok report).
  { destruct (dict_get "risks" d) as [v|] eqn:Hv.
    - destruct (iterate v) as [entries|e] eqn:Hit.
      + rewrite coerce_analysis_data_dict in H
          by (unfold risks_iterable; now rewrite Hv, Hit).
        simpl rbind in H; cbv beta iota in H.
        destruct (AnalysisReport_new (coerced_object d)) as [r|e];
          [congruence|].
        destruct (is_ValidationError e); discriminate H.
      + rewrite (coerce_analysis_data_not_iterable d v e Hv Hit) in H.
        simpl rbind in H; cbv beta iota in H. destruct (is_ValidationError e); discriminate H.
    - rewrite coerce_analysis_data_dict in H
        by (unfold risks_iterable; now rewrite Hv).
      simpl rbind in H; cbv beta iota in H.
      destruct (AnalysisReport_new (coerced_object d)) as [r|e];
        [congruence|].
      destruct (is_ValidationError e); discriminate H. }
  clear H. unfold AnalysisReport_new in Hnew.
  match type of Hnew with construct _ ?v = _ =>
    destruct v as [r| |] eqn:Hv; try discriminate Hnew end.
  injection Hnew as ->.
  apply v_ap_ok in Hv as (g8 & a9 & Hv & _ & ->).
  apply v_ap_ok in Hv as (g7 & a8 & Hv & _ & ->).
  apply v_ap_ok in Hv as (g6 & a7 & Hv & _ & ->).
  apply v_ap_ok in Hv as (g5 & a6 & Hv & _ & ->).
  apply v_ap_ok in Hv as (g4 & a5 & Hv & Hrisks & ->).
  apply v_ap_ok in Hv as (g3 & a4 & Hv & _ & ->).
  apply v_ap_ok in Hv as (g2 & a3 & Hv & _ & ->).
  apply v_ap_ok in Hv as (g1 & a2 & Hv & _ & ->).
  apply v_ap_ok in Hv as (g0 & a1 & Hv & _ & ->).
  injection Hv as <-. cbn [risks].
  apply v_field_ok in Hrisks as [(v & Hv & Hrisks) | [Hnone _]].
  - rewrite coerced_object_risks in Hv. injection Hv as <-.
    exact (v_items_risks_described _ _ 0 a5 Hrisks).
  - rewrite coerced_object_risks in Hnone. discriminate Hnone.
Qed.

End ReturnedRisks.

Lemma returned_risks_are_the_object_entries_witness :
  Forall2 risk_described
    (objects_of (risk_entries (("decision_assist", JDict []) :: sample_object)))
    [{| title := "Late fees"; why_it_matters := ""; where_found := None;
        mitigations := [] |}].
Proof.
  apply (returned_risks_are_the_object_entries
           (Stub.handle (Stub.one_document (Stub.says "{}")))
           (("decision_assist", JDict []) :: sample_object)
           {| summary := ["Lease of a flat for twelve months."];
              key_terms := []; obligations := []; costs_and_payments := [];
              risks := [{| title := "Late fees"; why_it_matters := "";
                           where_found := None; mitigations := [] |}];
              red_flags := []; questions_to_ask := [];
              negotiation_suggestions := [];
              decision_assist := {| pros := []; cons := [];
                                    overall_take := "" |} |}
           []).
  reflexivity.
Defined.

(** ** Cleaning of the model's response *)

Section Cleaning.

Implicit Types (s p q body : string) (c : ascii).

Lemma append_assoc s1 s2 s3 : (s1 +:+ s2) +:+ s3 = s1 +:+ (s2 +:+ s3).
Proof.
  induction s1 as [|c s1 IH]; [reflexivity|].
  rewrite !append_String. now f_equal.
Qed.

Lemma append_nil_r s : s +:+ "" = s.
Proof.
  induction s as [|c s IH]; [reflexivity|].
  rewrite append_String. now f_equal.
Qed.

Lemma contains_char_cons c d s :
  contains_char c (String d s) = false ->
  c <> d /\ contains_char c s = false.
Proof.
  simpl. destruct (Ascii.eqb c d) eqn:E; [discriminate|].
  apply Ascii.eqb_neq in E. auto.
Qed.

Lemma contains_char_cons_false c d s :
  c <> d -> contains_char c s = false -> contains_char c (String d s) = false.
Proof.
  intros Hd Hs. simpl. apply Ascii.eqb_neq in Hd. now rewrite Hd.
Qed.

Lemma contains_char_app c s1 s2 :
  contains_char c (s1 +:+ s2) = false <->
  contains_char c s1 = false /\ contains_char c s2 = false.
Proof.
  induction s1 as [|d s1 IH]; [rewrite append_empty_l; tauto|].
  rewrite append_String. simpl. destruct (Ascii.eqb c d); [|exact IH].
  split; [discriminate | intros [? _]; discriminate].
Qed.

Lemma prefix_backtick_head m c s :
  c <> "`"%char -> String.prefix (String "`" m) (String c s) = false.
Proof.
  intros Hc.
  change (String.prefix (String "`" m) (String c s))
    with (if ascii_dec "`" c then String.prefix m s else false).
  destruct (ascii_dec "`"%char c) as [E|]; [|reflexivity].
  now subst c.
Qed.

(** A fence marker is not found in a text without backticks. *)
Lemma re_sub_marker_plain m s rest :
  contains_char "`" s = false ->
  re_sub_marker (String "`" m) 0 false (s +:+ rest) =
  s +:+ re_sub_marker (String "`" m) 0 false rest.
Proof.
  induction s as [|c s IH]; intros H; [reflexivity|].
  apply contains_char_cons in H as [Hc H].
  rewrite !append_String.
  cbn [re_sub_marker andb]. 
  rewrite prefix_backtick_head by congruence. now rewrite IH.
Qed.

Lemma re_sub_marker_no_backtick m s :
  contains_char "`" s = false ->
  re_sub_marker (String "`" m) 0 false s = s.
Proof.
  intros H. rewrite <- (append_nil_r s) at 1.
  rewrite re_sub_marker_plain by exact H. apply append_nil_r.
Qed.

(** White space in front of a text that does not start with white
    space. *)
Lemma lstrip_app p c s :
  is_space c = false -> lstrip (p +:+ String c s) = lstrip p +:+ String c s.
Proof.
  intros Hc. induction p as [|d p IH].
  - rewrite !append_empty_l. simpl. now rewrite Hc.
  - rewrite append_String. simpl. destruct (is_space d); [exact IH|].
    now rewrite append_String.
Qed.

Lemma rstrip_cons_nonspace c s :
  is_space c = false -> rstrip (String c s) = String c (rstrip s).
Proof. intros Hc. simpl. destruct (rstrip s); [now rewrite Hc | reflexivity]. Qed.

Lemma rstrip_cons_nonempty c s :
  rstrip s <> "" -> rstrip (String c s) = String c (rstrip s).
Proof. intros H. simpl. destruct (rstrip s); [congruence | reflexivity]. Qed.

(** White space after a text that does not end with white space. *)
Lemma rstrip_app p c s :
  is_space c = false ->
  rstrip (p +:+ String c s) = p +:+ String c (rstrip s).
Proof.
  intros Hc. induction p as [|d p IH].
  - rewrite !append_empty_l. now apply rstrip_cons_nonspace.
  - rewrite !append_String. rewrite rstrip_cons_nonempty; [now rewrite IH|].
    rewrite IH. destruct p; discriminate.
Qed.

Lemma rstrip_all_space s : all_space s = true -> rstrip s = "".
Proof.
  induction s as [|c s IH]; [reflexivity|]. simpl.
  intros H. apply andb_prop in H as [Hc Hs]. now rewrite IH, Hc.
Qed.

Lemma contains_char_lstrip c s :
  contains_char c s = false -> contains_char c (lstrip s) = false.
Proof.
  induction s as [|d s IH]; [reflexivity|]. intros H. simpl lstrip.
  destruct (is_space d); [|exact H].
  apply contains_char_cons in H as [_ H]. auto.
Qed.

Lemma contains_char_rstrip c s :
  contains_char c s = false -> contains_char c (rstrip s) = false.
Proof.
  induction s as [|d s IH]; [reflexivity|]. intros H.
  pose proof (contains_char_cons _ _ _ H) as [Hd Hs]. specialize (IH Hs).
  simpl rstrip. destruct (rstrip s) as [|e r].
  - destruct (is_space d); [reflexivity|]. simpl.
    apply Ascii.eqb_neq in Hd. now rewrite Hd.
  - simpl in *. apply Ascii.eqb_neq in Hd. now rewrite Hd.
Qed.

Lemma after_first_open_app p s :
  contains_char "{" p = false ->
  after_first_open (p +:+ String "{" s) = Some s.
Proof.
  induction p as [|c p IH]; intros H.
  - reflexivity.
  - apply contains_char_cons in H as [Hc H]. rewrite append_String. simpl.
    destruct (Ascii.eqb c "{") eqn:E; [|auto].
    apply Ascii.eqb_eq in E. congruence.
Qed.

Lemma upto_last_close_none q :
  contains_char "}" q = false -> upto_last_close q = None.
Proof.
  induction q as [|c q IH]; [reflexivity|]. intros H.
  apply contains_char_cons in H as [Hc H]. simpl. rewrite (IH H).
  destruct (Ascii.eqb c "}") eqn:E; [|reflexivity].
  apply Ascii.eqb_eq in E. congruence.
Qed.

Lemma upto_last_close_app body q :
  contains_char "}" q = false ->
  upto_last_close (body +:+ String "}" q) = Some (body +:+ "}").
Proof.
  intros H. induction body as [|c body IH].
  - rewrite !append_empty_l. simpl. now rewrite (upto_last_close_none q H).
  - rewrite !append_String. simpl. now rewrite IH.
Qed.

Lemma search_braces_app p body q :
  contains_char "{" p = false -> contains_char "}" q = false ->
  search_braces (p +:+ String "{" (body +:+ String "}" q)) =
  Some (braced body).
Proof.
  intros Hp Hq. unfold search_braces.
  rewrite after_first_open_app by exact Hp.
  now rewrite upto_last_close_app by exact Hq.
Qed.

(** Lines 57-64 on a text around an object. *)
Lemma strip_and_search p body q :
  contains_char "{" p = false -> contains_char "}" q = false ->
  match search_braces (strip (p +:+ String "{" (body +:+ String "}" q))) with
  | Some json_match => json_match
  | None => strip (p +:+ String "{" (body +:+ String "}" q))
  end = braced body.
Proof.
  intros Hp Hq. unfold strip.
  rewrite lstrip_app by reflexivity.
  replace (lstrip p +:+ String "{" (body +:+ String "}" q))
    with ((lstrip p +:+ String "{" body) +:+ String "}" q)
    by (now rewrite append_assoc, append_String).
  rewrite rstrip_app by reflexivity.
  rewrite append_assoc, append_String.
  rewrite search_braces_app;
    auto using contains_char_lstrip, contains_char_rstrip.
Qed.

(** X6: The object of a response without code fences is returned as it is:
    what stands before its first brace and after its last one is
    dropped, and nothing between them is touched. *)
Theorem clean_keeps_the_object (p body q : string)
    (Hp : contains_char "{" p = false) (Hq : contains_char "}" q = false)
    (Hfence :
       contains_char "`" (p +:+ String "{" (body +:+ String "}" q)) = false) :
  clean_json_response (p +:+ String "{" (body +:+ String "}" q)) =
  braced body.
Proof.
  unfold clean_json_response.
  rewrite (re_sub_marker_no_backtick "``json") by exact Hfence.
  rewrite (re_sub_marker_no_backtick "``") by exact Hfence.
  now apply strip_and_search.
Qed.

Lemma re_sub_marker_spaces m ws c s :
  all_space ws = true -> is_space c = false ->
  re_sub_marker m 0 true (ws +:+ String c s) =
  re_sub_marker m 0 true (String c s).
Proof.
  intros Hws Hc. induction ws as [|d ws IH]; [reflexivity|].
  simpl in Hws. apply andb_prop in Hws as [Hd Hws].
  rewrite append_String. cbn [re_sub_marker andb]. rewrite Hd. auto.
Qed.

Lemma re_sub_marker_json_fence s :
  re_sub_marker "```json" 0 false ("```json" +:+ s) =
  re_sub_marker "```json" 0 true s.
Proof. destruct s; reflexivity. Qed.

(** X7: A response that wraps an object in a [json] code fence, when the
    object holds no backquote and the prose before the fence holds
    neither an opening brace nor a backquote: the fence markers, the
    white space around the object and the prose are removed, and the
    object is returned as it is.  (An object that holds three backquotes
    in a row is not: [re.sub] removes them wherever they stand.) *)
Theorem clean_unwraps_a_fenced_object (p ws1 body ws2 : string)
    (Hp : contains_char "{" p = false)
    (Hpf : contains_char "`" p = false)
    (Hbody : contains_char "`" body = false)
    (H1 : all_space ws1 = true) (H2 : all_space ws2 = true) :
  clean_json_response
    (p +:+ "```json" +:+ ws1 +:+ String "{" (body +:+ String "}" (ws2 +:+ "```")))
  = braced body.
Proof.
  assert (Hws2 : contains_char "`" ws2 = false /\ contains_char "}" ws2 = false).
  { clear -H2. induction ws2 as [|c s IH]; [auto|].
    simpl in H2. apply andb_prop in H2 as [Hc Hs]. destruct (IH Hs) as [? ?].
    split; apply contains_char_cons_false; trivial;
      intros <-; vm_compute in Hc; discriminate Hc. }
  destruct Hws2 as [Hws2 Hws2'].
  unfold clean_json_response.
  (* the first substitution removes the opening marker and [ws1] *)
  rewrite (re_sub_marker_plain "``json" p) by exact Hpf.
  rewrite re_sub_marker_json_fence.
  rewrite re_sub_marker_spaces by (exact H1 || reflexivity).
  change (re_sub_marker "```json" 0 true
            (String "{" (body +:+ String "}" (ws2 +:+ "```"))))
    with (String "{" (re_sub_marker "```json" 0 false
                        (body +:+ String "}" (ws2 +:+ "```")))).
  replace (body +:+ String "}" (ws2 +:+ "```"))
    with ((body +:+ String "}" ws2) +:+ "```")
    by (now rewrite append_assoc, append_String).
  assert (Hmid : contains_char "`" (body +:+ String "}" ws2) = false).
  { apply contains_char_app. split; [exact Hbody|]. simpl. exact Hws2. }
  rewrite (re_sub_marker_plain "``json" _ "```") by exact Hmid.
  change (re_sub_marker "```json" 0 false "```") with "```".
  (* the second substitution removes the closing marker *)
  replace (p +:+ String "{" ((body +:+ String "}" ws2) +:+ "```"))
    with ((p +:+ String "{" (body +:+ String "}" ws2)) +:+ "```")
    by (now rewrite append_assoc, append_String).
  rewrite (re_sub_marker_plain "``" _ "```")
    by (apply contains_char_app; split; [exact Hpf | exact Hmid]).
  change (re_sub_marker "```" 0 false "```") with "".
  rewrite append_nil_r.
  now apply strip_and_search.
Qed.

End Cleaning.

Lemma clean_keeps_the_object_witness :
  clean_json_response
    ("Here is the analysis: " +:+
     String "{" ("[1, {}]" +:+ String "}" " I hope it helps."))
  = braced "[1, {}]".
Proof.
  apply (clean_keeps_the_object "Here is the analysis: " "[1, {}]"
           " I hope it helps."); reflexivity.
Defined.

Lemma clean_unwraps_a_fenced_object_witness :
  clean_json_response
    ("Sure." +:+ "```json" +:+ nl +:+
     String "{" ("[1, {}]" +:+ String "}" (nl +:+ "```")))
  = braced "[1, {}]".
Proof.
  apply (clean_unwraps_a_fenced_object "Sure." nl "[1, {}]" nl); reflexivity.
Defined.

(** Without the condition on the object: a string of three backquotes
    inside it comes back empty. *)
Example clean_empties_a_fence_in_the_object :
  clean_json_response
    ("```json" +:+ nl +:+ "{" +:+ q "a" +:+ ": " +:+ q "```" +:+ "}" +:+ nl +:+
     "```")
  = "{" +:+ q "a" +:+ ": " +:+ q "" +:+ "}".
Proof. reflexivity. Qed.

(** ** Building, loading and using the index *)

Section Index.

Context {W : Type} (h : handler W).

Lemma trace_py_bind {A B} (p : py A) (f : A -> py B) (w : W) :
  trace (run h (py_bind p f) w) =
  trace (run h p w) ++
  match value (run h p w) with
  | Ok a => trace (run h (f a) (world (run h p w)))
  | Raise _ => []
  end.
Proof.
  unfold py_bind. rewrite trace_bind. now destruct (value (run h p w)).
Qed.

Lemma trace_try_except {A} (body : py A) (hs : exn -> option (py A)) (w : W) :
  trace (run h (try_except body hs) w) =
  trace (run h body w) ++
  match value (run h body w) with
  | Ok _ => []
  | Raise e =>
      match hs e with
      | Some hd => trace (run h hd (world (run h body w)))
      | None => []
      end
  end.
Proof.
  unfold try_except. rewrite trace_bind.
  destruct (value (run h body w)) as [a|e]; [reflexivity|].
  now destruct (hs e).
Qed.

Lemma load_extracted_text_trace doc_id w :
  Forall text_store_call (trace (run h (load_extracted_text doc_id) w)).
Proof.
  unfold load_extracted_text. cbn -[append].
  destruct (fst (h (result bool) _ w)) as [[|]|e]; cbn -[append].
  - destruct (fst (h (result string) _ _)); cbn -[append];
      repeat constructor.
  - repeat constructor.
  - repeat constructor.
Qed.

Lemma load_all_texts_without_text doc_ids : forall all_texts w,
  no_text_for h doc_ids ->
  value (run h (load_all_texts doc_ids all_texts) w) = Ok all_texts /\
  Forall text_store_call (trace (run h (load_all_texts doc_ids all_texts) w)).
Proof.
  induction doc_ids as [|d ds IH]; intros all_texts w Hno.
  - split; [reflexivity | constructor].
  - assert (Hds : no_text_for h ds).
    { intros d' w' Hin. apply Hno. now right. }
    simpl load_all_texts. rewrite value_py_bind, trace_py_bind.
    destruct (Hno d w ltac:(left)) as [-> | ->]; cbn [has_text String.eqb negb];
      destruct (IH all_texts (world (run h (load_extracted_text d) w)) Hds)
        as [Hv Ht];
      (split; [exact Hv|]);
      apply Forall_app; split; auto using load_extracted_text_trace.
Qed.

(** X8: When the text store has no text for any of the documents, nothing is
    built: [create_vector_store] returns [None] after calls to the text
    store only; the splitter, the embeddings and FAISS are not called. *)
Theorem no_text_no_index (emb : Embeddings) (doc_ids : list string)
    (store_name : string) (w : W) (H : no_text_for h doc_ids) :
  value (run h (create_vector_store emb doc_ids store_name) w) = Ok None /\
  Forall text_store_call
    (trace (run h (create_vector_store emb doc_ids store_name) w)).
Proof.
  destruct (load_all_texts_without_text doc_ids [] w H) as [Hv Ht].
  unfold create_vector_store. rewrite value_py_bind, trace_py_bind, Hv.
  split; [reflexivity|]. cbn [run trace]. now rewrite app_nil_r.
Qed.

(** X9: A store that was built and could not be saved is dropped: the result
    of [create_vector_store] is the built store when [save_local]
    succeeds and [None] when it raises. *)
Theorem unsaved_store_is_dropped (emb : Embeddings) (doc_ids : list string)
    (store_name : string) (w : W) (texts chunks : list string) (vs : FAISS) :
  let loaded := run h (load_all_texts doc_ids []) w in
  let split := split_text 1000 200 (join DOCUMENT_SEPARATOR texts) in
  let build := FAISS_from_texts chunks emb in
  let save := FAISS_save_local vs VECTOR_STORE_DIR store_name in
  let w1 := after h split (world loaded) in
  value loaded = Ok texts -> texts <> [] ->
  answer h split (world loaded) = chunks -> chunks <> [] ->
  answer h build w1 = Ok vs ->
  value (run h (create_vector_store emb doc_ids store_name) w) =
  Ok (if is_Ok (answer h save (after h build w1)) then Some vs else None).
Proof.
  cbv zeta. intros Hl Ht Hs Hc Hb.
  unfold create_vector_store. rewrite value_py_bind, Hl.
  destruct texts as [|t ts]; [congruence|].
  rewrite value_py_bind, value_call, world_call, Hs.
  destruct chunks as [|c cs]; [congruence|].
  rewrite value_try_except, value_py_bind, value_callr, world_callr.
  rewrite Hb.
  rewrite value_py_bind, value_callr.
  destruct (answer h (FAISS_save_local vs VECTOR_STORE_DIR store_name) _);
    reflexivity.
Qed.

(** X10: A persisted store that loads is returned after three calls: the two
    file checks and the load.  The text store is not read and nothing is
    split, embedded or saved. *)
Theorem cache_hit_makes_three_calls (emb : Embeddings)
    (doc_ids : list string) (vs : FAISS) (w : W) :
  let name := store_name_of doc_ids in
  let faiss := path_exists (Path VECTOR_STORE_DIR (name +:+ ".faiss")) in
  let pkl := path_exists (Path VECTOR_STORE_DIR (name +:+ ".pkl")) in
  let load := FAISS_load_local VECTOR_STORE_DIR emb name in
  let w1 := after h faiss w in
  let w2 := after h pkl w1 in
  answer h faiss w = Ok true -> answer h pkl w1 = Ok true ->
  answer h load w2 = Ok vs ->
  run h (get_or_create_vector_store (Some emb) doc_ids) w =
  Outcome (Ok (Some vs)) (after h load w2)
    [Called faiss; Called pkl; Called load].
Proof.
  cbv zeta. unfold answer, after. intros Hf Hp Hl.
  unfold get_or_create_vector_store, load_vector_store.
  fold (store_name_of doc_ids).
  cbn -[append store_name_of]. rewrite Hf.
  cbn -[append store_name_of]. rewrite Hp.
  cbn -[append store_name_of]. rewrite Hl. reflexivity.
Qed.

(** X11: With an index and no failure, the answer is the text of the
    completion, as it came: the three most similar chunks are asked for,
    and the model is invoked once, on the prompt made of the question
    and of the chunks separated by blank lines. *)
Theorem chat_returns_the_completion (cfg : Config)
    (embeddings : option Embeddings) (d : string) (ds : list string)
    (query : string) (w : W) (vs : FAISS) (docs : list Document)
    (llm : ChatVertexAI) (response : Response) :
  let index := run h (get_or_create_vector_store embeddings (d :: ds)) w in
  let search := FAISS_similarity_search vs query 3 in
  let new_llm := ChatVertexAI_new {|
    model_name := GEMINI_MODEL_NAME cfg;
    location := VERTEX_AI_LOCATION cfg;
    project := project_of cfg;
    temperature := 3 # 10;
    max_output_tokens := 2048 |} in
  let prompt :=
    get_qa_prompt query (join (nl +:+ nl) (map page_content docs)) in
  let w1 := after h search (world index) in
  value index = Ok (Some vs) ->
  answer h search (world index) = Ok docs ->
  answer h new_llm w1 = Ok llm ->
  answer h (llm_invoke llm prompt) (after h new_llm w1) = Ok response ->
  value (run h (_chat_with_documents_sync cfg embeddings (d :: ds) query) w) =
  Ok (response_text response).
Proof.
  cbv zeta. intros Hi Hs Hn Hr. rewrite chat_value, Hi.
  unfold answer_from. rewrite value_py_bind, value_callr, Hs.
  rewrite world_callr, value_py_bind, value_callr, Hn.
  rewrite world_callr, value_py_bind, value_callr, Hr.
  reflexivity.
Qed.

End Index.

Section IndexRuns.

Import Stub Scenario.

Lemma no_text_no_index_witness :
  value (run (handle (one_document (says "")))
           (create_vector_store emb ["doc-2"; "doc-3"] "doc-2_doc-3") []) =
    Ok None /\
  Forall text_store_call
    (trace (run (handle (one_document (says "")))
              (create_vector_store emb ["doc-2"; "doc-3"] "doc-2_doc-3") [])).
Proof.
  apply (no_text_no_index (handle (one_document (says ""))) emb
           ["doc-2"; "doc-3"] "doc-2_doc-3" []).
  intros doc_id w Hin. left.
  apply elem_of_cons in Hin as [-> | Hin]; [reflexivity|].
  apply list_elem_of_singleton in Hin as ->. reflexivity.
Defined.

Lemma unsaved_store_is_dropped_witness :
  value (run (handle (disk_full (says "")))
           (create_vector_store emb ["doc-1"] "doc-1") []) = Ok None.
Proof.
  apply (unsaved_store_is_dropped (handle (disk_full (says ""))) emb
           ["doc-1"] "doc-1" [] [contract_text] [contract_text]
           {| docstore := [contract_text] |});
    (reflexivity || discriminate).
Defined.

Lemma cache_hit_makes_three_calls_witness :
  run (handle (warm_index (says "")))
    (get_or_create_vector_store (Some emb) ["doc-1"]) [] =
  Outcome (Ok (Some {| docstore := [contract_text] |})) []
    [Called (path_exists (Path VECTOR_STORE_DIR "doc-1.faiss"));
     Called (path_exists (Path VECTOR_STORE_DIR "doc-1.pkl"));
     Called (FAISS_load_local VECTOR_STORE_DIR emb "doc-1")].
Proof.
  apply (cache_hit_makes_three_calls (handle (warm_index (says ""))) emb
           ["doc-1"] {| docstore := [contract_text] |} []);
    reflexivity.
Defined.

Lemma chat_returns_the_completion_witness :
  value (run (handle (one_document (says "Party A and Party B.")))
           (_chat_with_documents_sync cfg (Some emb) ["doc-1"]
              "Who are the parties?") []) =
  Ok "Party A and Party B.".
Proof.
  apply (chat_returns_the_completion
           (handle (one_document (says "Party A and Party B.")))
           cfg (Some emb) "doc-1" [] "Who are the parties?" []
           {| docstore := [contract_text] |}
           [{| page_content := contract_text |}]
           {| model_name := GEMINI_MODEL_NAME cfg;
              location := VERTEX_AI_LOCATION cfg;
              project := project_of cfg;
              temperature := 3 # 10;
              max_output_tokens := 2048 |}
           {| content := Some "Party A and Party B.";
              response_str := "Party A and Party B." |});
    reflexivity.
Defined.

End IndexRuns.

(** ** The analysis from end to end *)

Section AnalysisSuccess.

Context {W : Type} (h : handler W).

(** X12: When the document has a text, the model answers, and the cleaned
    answer parses to the JSON form of a report, [_summarize_document_sync]
    returns that report. *)
Theorem described_report_is_returned (cfg : Config) (doc_id t : string)
    (response_text : string) (r : AnalysisReport) (w : W) :
  let stored := run h (load_extracted_text doc_id) w in
  let asked := run h (ask_model cfg t) (world stored) in
  value stored = Ok (Some t) -> t <> "" ->
  value asked = Ok response_text ->
  answer h (json_loads (clean_json_response response_text)) (world asked) =
    Ok (JDict (model_dump r)) ->
  distinct_parties r ->
  value (run h (_summarize_document_sync cfg doc_id) w) = Ok r.
Proof.
  cbv zeta. intros Ht Hne Hrt Hjson Hr.
  rewrite (summarize_with_text h cfg doc_id t w Ht Hne), Hrt.
  rewrite parse_report_value, Hjson, validate_and_coerce_value.
  rewrite coerce_dump. simpl rbind.
  now rewrite (coerced_dump_is_validated r Hr).
Qed.

Lemma substring_prefix (a b : string) :
  String.substring 0 (String.length a) (a +:+ b) = a.
Proof.
  induction a as [|c a IH]; [now destruct b|].
  rewrite append_String. simpl. now rewrite IH.
Qed.

(** X13: The model is shown the first 10000 characters of the text and no
    more: two texts that agree on them are analysed by the same calls. *)
Theorem analysis_reads_10000_characters (cfg : Config) (head tail tail' : string)
    (H : String.length head = 10 * 1000) :
  ask_model cfg (head +:+ tail) = ask_model cfg (head +:+ tail').
Proof.
  unfold ask_model, get_summarization_prompt.
  rewrite <- H. now rewrite !substring_prefix.
Qed.

End AnalysisSuccess.

Section AnalysisSuccessRuns.

Import Stub Scenario.

Lemma described_report_is_returned_witness :
  value (run (handle helpful_model) (_summarize_document_sync cfg "doc-1") [])
  = Ok short_report.
Proof.
  apply (described_report_is_returned (handle helpful_model) cfg "doc-1"
           contract_text
           ("```json" +:+ nl +:+ short_report_text +:+ nl +:+ "```")
           short_report []).
  - reflexivity.
  - discriminate.
  - reflexivity.
  - reflexivity.
  - constructor.
Defined.

Lemma analysis_reads_10000_characters_witness :
  ask_model cfg
    (String.string_of_list_ascii (replicate (10 * 1000) "x"%char) +:+
     " and a long tail") =
  ask_model cfg
    (String.string_of_list_ascii (replicate (10 * 1000) "x"%char) +:+ "").
Proof.
  apply (analysis_reads_10000_characters cfg
           (String.string_of_list_ascii (replicate (10 * 1000) "x"%char))
           " and a long tail" "").
  vm_compute. reflexivity.
Defined.

End AnalysisSuccessRuns.

(** ** The coercion is idempotent *)

Section Idempotence.

Lemma dict_set_same k v (d : dict) :
  dict_get k d = Some v -> dict_set k v d = d.
Proof.
  induction d as [|[k' v'] d IH]; [discriminate|]. simpl.
  destruct (String.eqb k k') eqn:E.
  - now intros [= ->].
  - intros H. now rewrite IH.
Qed.

Lemma backfill_present k v x (d : dict) :
  dict_get k d = Some x -> backfill k v d = d.
Proof. intros H. unfold backfill, dict_has. now rewrite H. Qed.

Lemma backfill_has k v (d : dict) :
  exists x, dict_get k (backfill k v d) = Some x.
Proof.
  rewrite dict_get_backfill, String.eqb_refl.
  destruct (dict_get k d); simpl; eauto.
Qed.

Lemma backfill_keeps k k' v x (d : dict) :
  dict_get k' d = Some x -> dict_get k' (backfill k v d) = Some x.
Proof. intros H. now rewrite dict_get_backfill, H. Qed.

Lemma coerce_risk_idempotent (r : dict) :
  coerce_risk (coerce_risk r) = coerce_risk r.
Proof.
  destruct (backfill_has "title" (JStr "Untitled Risk") r) as [t Ht].
  destruct (backfill_has "why_it_matters" (JStr "")
              (backfill "title" (JStr "Untitled Risk") r)) as [y Hy].
  destruct (backfill_has "mitigations" (JList [])
              (backfill "why_it_matters" (JStr "")
                 (backfill "title" (JStr "Untitled Risk") r))) as [m Hm].
  unfold coerce_risk at 1. cbv zeta.
  rewrite (backfill_present "title" _ t);
    [|unfold coerce_risk; cbv zeta; now do 2 apply backfill_keeps].
  rewrite (backfill_present "why_it_matters" _ y);
    [|unfold coerce_risk; cbv zeta; now apply backfill_keeps].
  now rewrite (backfill_present "mitigations" _ m).
Qed.

Lemma coerce_decision_assist_idempotent (da : dict) :
  coerce_decision_assist (coerce_decision_assist da) =
  coerce_decision_assist da.
Proof.
  destruct (backfill_has "pros" (JList []) da) as [t Ht].
  destruct (backfill_has "cons" (JList []) (backfill "pros" (JList []) da))
    as [y Hy].
  destruct (backfill_has "overall_take" (JStr "")
              (backfill "cons" (JList []) (backfill "pros" (JList []) da)))
    as [m Hm].
  unfold coerce_decision_assist at 1. cbv zeta.
  rewrite (backfill_present "pros" _ t);
    [|unfold coerce_decision_assist; cbv zeta; now do 2 apply backfill_keeps].
  rewrite (backfill_present "cons" _ y);
    [|unfold coerce_decision_assist; cbv zeta; now apply backfill_keeps].
  now rewrite (backfill_present "overall_take" _ m).
Qed.

Lemma validated_risks_fixed (entries : list dict) :
  validated_risks_of (map (fun r => JDict (coerce_risk r)) entries) =
  map (fun r => JDict (coerce_risk r)) entries.
Proof.
  induction entries as [|r entries IH]; [reflexivity|].
  simpl map.
  change (validated_risks_of (JDict (coerce_risk r) :: ?l))
    with (JDict (coerce_risk (coerce_risk r)) :: validated_risks_of l).
  now rewrite coerce_risk_idempotent, IH.
Qed.

Lemma coerced_object_has (d : dict) k :
  k ∈ REPORT_FIELDS -> exists v, dict_get k (coerced_object d) = Some v.
Proof.
  intros Hk.
  destruct (decide (k = "risks")) as [-> | Hr];
    [rewrite coerced_object_risks; eauto|].
  destruct (decide (k = "decision_assist")) as [-> | Hd];
    [rewrite coerced_object_decision_assist; eauto|].
  rewrite coerced_object_other by assumption.
  unfold REPORT_FIELDS in Hk.
  repeat (apply elem_of_cons in Hk as [-> | Hk];
          [destruct (dict_get _ d); simpl; eauto|]).
  now apply elem_of_nil in Hk.
Qed.

Lemma with_defaults_fixed (d : dict) :
  (forall k, k ∈ REPORT_FIELDS -> exists v, dict_get k d = Some v) ->
  with_defaults d = d.
Proof.
  intros H. unfold with_defaults. cbv zeta.
  repeat match goal with
  | |- context [backfill ?k ?v d] =>
      let x := fresh "x" in let Hx := fresh "Hx" in
      destruct (H k ltac:(apply (bool_decide_unpack _); vm_compute; exact I))
        as [x Hx];
      rewrite (backfill_present k v x d Hx)
  end.
  reflexivity.
Qed.

Lemma coerced_object_fixed (d : dict) :
  coerced_object (coerced_object d) = coerced_object d.
Proof.
  set (d' := coerced_object d).
  assert (Hrisks : dict_get "risks" d' =
            Some (JList (map (fun r => JDict (coerce_risk r))
                           (objects_of (risk_entries d)))))
    by apply coerced_object_risks.
  assert (Hentries : risk_entries d' =
            map (fun r => JDict (coerce_risk r))
              (objects_of (risk_entries d)))
    by (unfold risk_entries; now rewrite Hrisks).
  unfold coerced_object at 1. cbv zeta.
  rewrite with_defaults_fixed by (intros k Hk; now apply coerced_object_has).
  rewrite Hentries, validated_risks_fixed.
  rewrite (dict_set_same "risks" _ d' Hrisks).
  pose proof (coerced_object_decision_assist d) as Hda. fold d' in Hda.
  rewrite Hda.
  destruct (dict_get "decision_assist" d) as [[]|]; try reflexivity.
  - rewrite coerce_decision_assist_idempotent. now apply dict_set_same.
  - now apply dict_set_same.
Qed.

(** X5: What the coercion yields, the coercion leaves as it is: its result
    has every field, every risk and every key of [decision_assist] in
    place, so that a second pass changes nothing. *)
Theorem coercion_is_idempotent (data data' : json)
    (H : coerce_analysis_data data = Ok data') :
  coerce_analysis_data data' = Ok data'.
Proof.
  destruct data as [| | | | | |d];
    try (match type of H with
         | coerce_analysis_data ?x = _ =>
             destruct (coerce_not_object x I) as (e & He & _)
         end;
         rewrite He in H; discriminate H).
  assert (Hd' : data' = JDict (coerced_object d)).
  { destruct (dict_get "risks" d) as [v|] eqn:Hv.
    - destruct (iterate v) as [entries|e] eqn:Hit.
      + rewrite coerce_analysis_data_dict in H
          by (unfold risks_iterable; now rewrite Hv, Hit).
        congruence.
      + rewrite (coerce_analysis_data_not_iterable d v e Hv Hit) in H.
        discriminate H.
    - rewrite coerce_analysis_data_dict in H
        by (unfold risks_iterable; now rewrite Hv).
      congruence. }
  subst data'. rewrite coerce_analysis_data_dict.
  - now rewrite coerced_object_fixed.
  - unfold risks_iterable. now rewrite coerced_object_risks.
Qed.

Lemma coercion_is_idempotent_witness :
  coerce_analysis_data (JDict (coerced_object sample_object)) =
  Ok (JDict (coerced_object sample_object)).
Proof.
  apply (coercion_is_idempotent (JDict sample_object)). reflexivity.
Defined.

End Idempotence.

(** ** Programs of the boundary *)

Section Boundary.

Context {W : Type} (h : io_handler W).

Lemma arun_abind {A B} (p : aprog A) (f : A -> aprog B) (w : W) :
  arun h (abind p f) w =
  IoOutcome
    (io_value (arun h (f (io_value (arun h p w))) (io_world (arun h p w))))
    (io_world (arun h (f (io_value (arun h p w))) (io_world (arun h p w))))
    (io_trace (arun h p w) ++
     io_trace (arun h (f (io_value (arun h p w))) (io_world (arun h p w)))).
Proof.
  revert w. induction p as [a | X e k IH]; intros w; simpl.
  - now destruct (arun h (f a) w).
  - now rewrite IH.
Qed.

Lemma io_value_abind {A B} (p : aprog A) (f : A -> aprog B) (w : W) :
  io_value (arun h (abind p f) w) =
  io_value (arun h (f (io_value (arun h p w))) (io_world (arun h p w))).
Proof. now rewrite arun_abind. Qed.

Lemma io_world_abind {A B} (p : aprog A) (f : A -> aprog B) (w : W) :
  io_world (arun h (abind p f) w) =
  io_world (arun h (f (io_value (arun h p w))) (io_world (arun h p w))).
Proof. now rewrite arun_abind. Qed.

Lemma io_trace_abind {A B} (p : aprog A) (f : A -> aprog B) (w : W) :
  io_trace (arun h (abind p f) w) =
  io_trace (arun h p w) ++
  io_trace (arun h (f (io_value (arun h p w))) (io_world (arun h p w))).
Proof. now rewrite arun_abind. Qed.

Lemma io_value_ask {X} (e : io X) (w : W) :
  io_value (arun h (ask e) w) = io_answer h e w.
Proof. reflexivity. Qed.

Lemma io_world_ask {X} (e : io X) (w : W) :
  io_world (arun h (ask e) w) = io_after h e w.
Proof. reflexivity. Qed.

Lemma io_trace_ask {X} (e : io X) (w : W) :
  io_trace (arun h (ask e) w) = [IoCalled e].
Proof. reflexivity. Qed.

(** A program of the pipeline does at the boundary what it does on the
    pipeline's share of the collaborators, and makes no other call. *)
Lemma io_value_of_prog {A} (p : prog A) (w : W) :
  io_value (arun h (of_prog p) w) = value (run (core_handler h) p w).
Proof.
  revert w. induction p as [a | X e k IH]; intros w; simpl; [reflexivity|].
  apply IH.
Qed.

Lemma io_world_of_prog {A} (p : prog A) (w : W) :
  io_world (arun h (of_prog p) w) = world (run (core_handler h) p w).
Proof.
  revert w. induction p as [a | X e k IH]; intros w; simpl; [reflexivity|].
  apply IH.
Qed.

Lemma io_trace_of_prog {A} (p : prog A) (w : W) :
  Forall (fun c => is_core c = true) (io_trace (arun h (of_prog p) w)).
Proof.
  revert w. induction p as [a | X e k IH]; intros w; simpl.
  - constructor.
  - constructor; [reflexivity | apply IH].
Qed.

Lemma core_does_not_store c : is_core c = true -> stores c = false.
Proof. destruct c as [X e]. now destruct e. Qed.

End Boundary.


Section Pipeline.

Context {W : Type} (h : handler W).

(** What [_summarize_document_sync] comes to: a report, the not-found
    error, or the error of [AnalysisReport()]. *)
Lemma summarize_outcomes cfg doc_id w :
  (exists report,
     value (run h (_summarize_document_sync cfg doc_id) w) = Ok report) \/
  value (run h (_summarize_document_sync cfg doc_id) w) =
    Raise (not_found doc_id) \/
  value (run h (_summarize_document_sync cfg doc_id) w) =
    Raise missing_overall_take.
Proof.
  destruct (load_extracted_text_returns h doc_id w) as [[t|] Ht].
  - destruct (decide (t = "")) as [-> | Hne].
    + right; left. apply summarize_without_text. now right.
    + rewrite (summarize_with_text h cfg doc_id t w Ht Hne).
      destruct (value (run h (ask_model cfg t) _)); [|now right; right].
      destruct (value (run h (parse_report _) _)); [left; eauto|].
      now right; right.
  - right; left. apply summarize_without_text. now left.
Qed.

(** [_chat_with_documents_sync] returns a string on every list. *)
Lemma chat_sync_returns cfg embeddings doc_ids query w :
  returns h (_chat_with_documents_sync cfg embeddings doc_ids query) w.
Proof.
  unfold returns. destruct doc_ids as [|d ds]; [now eexists|].
  rewrite chat_value.
  destruct (value (run h (get_or_create_vector_store embeddings (d :: ds)) w))
    as [[vs|]|e]; eauto.
  destruct (value (run h (answer_from cfg vs query) _)); eauto.
Qed.

End Pipeline.

(** ** The handlers of [app/main.py] *)

Section Handlers.

Context {W : Type} (h : io_handler W).
Variable db_connected : bool.
Variable cfg : Config.
Variable embeddings : option Embeddings.

(** Runs the calls of a program one by one, on every answer. *)
Ltac walk :=
  simpl;
  repeat first
    [ apply List.Forall_nil
    | apply List.Forall_cons; [reflexivity|]
    | match goal with
      | |- context [h ?X ?e ?w] => destruct (h X e w) as [? ?]; simpl
      end
    | match goal with
      | |- context [match ?x with _ => _ end] => is_var x; destruct x; simpl
      end ].

(** [get_document_by_id] reads the database, and may print; it stores
    nothing. *)
Lemma get_document_by_id_stores_nothing doc_id w :
  Forall (fun c => stores c = false)
    (io_trace (arun h (get_document_by_id db_connected doc_id) w)).
Proof. unfold get_document_by_id. destruct db_connected; walk. Qed.

(** X15: The handler of [GET /analysis/{documentId}] answers with a body or
    with status 404: every exception [summarize_document] can raise is a
    [ValueError], so that the clause for status 500 is never entered. *)
Theorem get_analysis_never_answers_500 (documentId : string) (w : W) :
  match io_value
          (arun h (get_analysis db_connected cfg documentId) w) with
  | Reply _ => True
  | HTTPException status_code detail =>
      status_code = 404 /\
      (detail = exn_msg (not_found documentId) \/
       detail = exn_msg missing_overall_take)
  end.
Proof.
  unfold get_analysis. cbv zeta. rewrite io_value_abind.
  match goal with
  | |- context [abind (summarize_document cfg documentId) ?f] =>
      set (analyse := abind (summarize_document cfg documentId) f)
  end.
  assert (Ha : forall w',
    match io_value (arun h analyse w') with
    | Reply _ => True
    | HTTPException status_code detail =>
        status_code = 404 /\
        (detail = exn_msg (not_found documentId) \/
         detail = exn_msg missing_overall_take)
    end).
  { intros w'. unfold analyse, summarize_document.
    rewrite io_value_abind, io_value_of_prog.
    destruct (summarize_outcomes (core_handler h) cfg documentId w')
      as [[report ->] | [-> | ->]]; simpl; auto. }
  destruct (io_value (arun h (get_document_by_id db_connected documentId) w))
    as [d|]; [|apply Ha].
  destruct d as [|kv d]; [apply Ha|].
  destruct (dict_get "summary" (kv :: d)) as [summary|]; [|apply Ha].
  destruct (truthy summary); [exact I | apply Ha].
Qed.

(** X16: The handler of [GET /analysis/{documentId}] never writes to the
    database: an analysis it had to generate is not stored, and is
    generated again at the next request. *)
Theorem get_analysis_stores_nothing (documentId : string) (w : W) :
  Forall (fun c => stores c = false)
    (io_trace (arun h (get_analysis db_connected cfg documentId) w)).
Proof.
  unfold get_analysis. cbv zeta. rewrite io_trace_abind.
  match goal with
  | |- context [abind (summarize_document cfg documentId) ?f] =>
      set (analyse := abind (summarize_document cfg documentId) f)
  end.
  assert (Ha : forall w',
    Forall (fun c => stores c = false) (io_trace (arun h analyse w'))).
  { intros w'. unfold analyse, summarize_document.
    rewrite io_trace_abind. apply Forall_app. split.
    - eapply Forall_impl; [apply io_trace_of_prog|].
      intros c. apply core_does_not_store.
    - destruct (io_value (arun h (of_prog _) w')) as [report|e]; simpl;
        [constructor|].
      destruct (is_ValueError e); constructor. }
  apply Forall_app. split; [apply get_document_by_id_stores_nothing|].
  destruct (io_value (arun h (get_document_by_id db_connected documentId) w))
    as [d|]; [|apply Ha].
  destruct d as [|kv d]; [apply Ha|].
  destruct (dict_get "summary" (kv :: d)) as [summary|]; [|apply Ha].
  destruct (truthy summary); [constructor | apply Ha].
Qed.

(** X17: The handler of [POST /chat/user] always answers with a body that
    holds a string: neither the reading of the user's documents nor the
    pipeline lets an exception out, so that the clause for status 500 is
    never entered. *)
Theorem chat_user_always_replies (user_id query : string) (w : W) :
  exists response_text,
    io_value (arun h (chat_user db_connected cfg embeddings user_id query) w)
    = Reply (JDict [("response", JStr response_text)]).
Proof.
  unfold chat_user. rewrite io_value_abind.
  destruct (io_value (arun h (get_documents_by_user_id _ _) w))
    as [|doc documents]; [now eexists|].
  destruct (doc_ids_of (doc :: documents)) as [|d ds]; [now eexists|].
  unfold chat_with_documents. rewrite io_value_abind, io_value_of_prog.
  destruct (chat_sync_returns (core_handler h) cfg embeddings (d :: ds) query
              (io_world (arun h (get_documents_by_user_id db_connected user_id) w)))
    as [s ->].
  now eexists.
Qed.

End Handlers.


Section Listing.

Context {W : Type} (h : io_handler W).
Variable cfg : Config.
Variable embeddings : option Embeddings.

Lemma doc_ids_of_listed (cursor : list MongoDoc) :
  Forall (fun doc => oid doc <> "") cursor ->
  doc_ids_of (map listed cursor) = map oid cursor.
Proof.
  induction 1 as [|doc cursor Hdoc _ IH]; [reflexivity|].
  change (doc_ids_of (map listed (doc :: cursor))) with
    (match (match dict_get "doc_id" (listed doc) with
            | Some (JStr s) => if truthy (JStr s) then Some s else None
            | _ => None
            end) with
     | Some s => s :: doc_ids_of (map listed cursor)
     | None => doc_ids_of (map listed cursor)
     end).
  unfold listed at 1. rewrite dict_get_set_eq. cbn [truthy].
  apply String.eqb_neq in Hdoc. rewrite Hdoc. cbn [negb map].
  now rewrite IH.
Qed.

(** X18: The identifiers [chat_user] hands to the pipeline are the database
    identifiers of the user's documents, in the order of the cursor:
    [get_documents_by_user_id] overwrites the stored [doc_id] of each
    with [str(doc["_id"])]. *)
Theorem chat_user_asks_by_database_id (user_id query : string)
    (cursor : list MongoDoc) (w : W) :
  let listing := find "documents" (by_field "user_id" user_id) in
  io_answer h listing w = Ok cursor ->
  cursor <> [] ->
  Forall (fun doc => oid doc <> "") cursor ->
  io_value (arun h (chat_user true cfg embeddings user_id query) w) =
  match value (run (core_handler h)
                 (_chat_with_documents_sync cfg embeddings (map oid cursor)
                    query)
                 (io_after h listing w)) with
  | Ok response_text => Reply (JDict [("response", JStr response_text)])
  | Raise e => HTTPException 500 ("Error processing chat: " +:+ exn_msg e)
  end.
Proof.
  cbv zeta. intros Hfind Hne Hoid.
  assert (Hv : io_value (arun h (get_documents_by_user_id true user_id) w) =
               map listed cursor).
  { unfold get_documents_by_user_id. cbn [negb].
    now rewrite io_value_abind, io_value_ask, Hfind. }
  assert (Hw : io_world (arun h (get_documents_by_user_id true user_id) w) =
               io_after h (find "documents" (by_field "user_id" user_id)) w).
  { unfold get_documents_by_user_id. cbn [negb].
    now rewrite io_world_abind, io_value_ask, io_world_ask, Hfind. }
  unfold chat_user. rewrite io_value_abind, Hv, Hw.
  rewrite (doc_ids_of_listed cursor Hoid).
  destruct cursor as [|doc cursor]; [congruence|].
  cbn [map]. unfold chat_with_documents.
  rewrite io_value_abind, io_value_of_prog.
  now destruct (value (run (core_handler h) _ _)).
Qed.

End Listing.


(** ** The text cache and the extraction *)

Section Extractor.

Context {W : Type} (h : io_handler W).

(** X19: A text without carriage return that [save_extracted_text]
    reports as saved is the text [load_extracted_text] returns for the
    same identifier, on files that read back such a text as it was
    written: the two functions build the same path, and [True] is
    returned only when the write went through.  When the text is not
    empty, it is then the one text the index of the document is built
    from, and the analysis of the document does not end in the not-found
    error. *)
Theorem saved_text_is_loaded (cfg : Config) (doc_id text : string) (w : W) :
  let saved := arun h (save_extracted_text doc_id text) w in
  reads_back_plain_text h ->
  contains_char cr text = false ->
  io_value saved = true ->
  value (run (core_handler h) (load_extracted_text doc_id) (io_world saved)) =
    Ok (Some text) /\
  (text <> "" ->
   value (run (core_handler h) (load_all_texts [doc_id] [])
            (io_world saved)) = Ok [text] /\
   value (run (core_handler h) (_summarize_document_sync cfg doc_id)
            (io_world saved)) <> Raise (not_found doc_id)).
Proof.
  cbv zeta. intros Hfs Hplain Hsaved.
  assert (Hload :
    value (run (core_handler h) (load_extracted_text doc_id)
             (io_world (arun h (save_extracted_text doc_id text) w))) =
    Ok (Some text)).
  { revert Hsaved. unfold save_extracted_text.
    rewrite io_value_abind, io_world_abind, io_value_ask, io_world_ask.
    destruct (io_answer h (write_text (text_file_of doc_id) text) w)
      as [[]|e] eqn:Hwrite.
    - intros _. cbn [arun io_world].
      destruct (Hfs _ _ _ Hplain Hwrite) as [Hfound Hread].
      unfold load_extracted_text.
      rewrite value_try_except, value_py_bind, value_callr.
      change (answer (core_handler h) (path_exists ?p) ?w) with
        (io_answer h (core (path_exists p)) w).
      fold (text_file_of doc_id). rewrite Hfound. cbn [negb].
      rewrite world_callr, value_py_bind, value_callr.
      change (answer (core_handler h) (read_text ?p) ?w) with
        (io_answer h (core (read_text p)) w).
      change (after (core_handler h) (path_exists ?p) ?w) with
        (io_after h (core (path_exists p)) w).
      now rewrite Hread.
    - rewrite io_value_abind. discriminate. }
  split; [exact Hload|]. intros Hne. split.
  - cbn [load_all_texts]. rewrite value_py_bind, Hload. cbn [has_text].
    apply String.eqb_neq in Hne. now rewrite Hne.
  - rewrite (summarize_with_text (core_handler h) cfg doc_id text _ Hload Hne).
    destruct (value (run (core_handler h) (ask_model cfg text) _));
      [|discriminate].
    destruct (value (run (core_handler h) (parse_report _) _)); discriminate.
Qed.

Lemma page_texts_value pdf_path (text_of : nat -> string) pages :
  (forall page w, In page pages ->
     io_answer h (page_extract_text pdf_path page) w = Ok (text_of page)) ->
  forall text_parts w,
    io_value (arun h (page_texts pdf_path pages text_parts) w) =
    Ok (text_parts ++ kept_texts (map text_of pages)).
Proof.
  induction pages as [|page pages IH]; intros Hpages text_parts w.
  - simpl. now rewrite app_nil_r.
  - cbn [page_texts]. rewrite io_value_abind, io_value_ask.
    rewrite (Hpages page w (or_introl eq_refl)).
    rewrite IH by (intros; apply Hpages; now right).
    cbn [map]. unfold kept_texts. rewrite filter_cons.
    destruct (String.eqb (text_of page) "") eqn:E.
    + rewrite decide_False by (cbn; tauto). reflexivity.
    + rewrite decide_True by (cbn; tauto). now rewrite <- app_assoc.
Qed.

(** X20: When the reader opens the file and every page gives its text, the
    extracted text is that of the pages that have one, joined by blank
    lines; pages without text leave no trace, and a PDF with no text at
    all gives the empty string, not [None]. *)
Theorem extract_joins_the_page_texts (pdf_path : path) (pages : list nat)
    (text_of : nat -> string) (w : W) :
  io_answer h (PdfReader pdf_path) w = Ok pages ->
  (forall page w', In page pages ->
     io_answer h (page_extract_text pdf_path page) w' = Ok (text_of page)) ->
  io_value (arun h (extract_text_from_pdf pdf_path) w) =
  Some (join (nl +:+ nl) (kept_texts (map text_of pages))).
Proof.
  intros Hreader Hpages. unfold extract_text_from_pdf. cbv zeta.
  rewrite io_value_abind, io_value_ask, Hreader.
  rewrite io_value_abind.
  now rewrite (page_texts_value pdf_path text_of pages Hpages).
Qed.

End Extractor.


(** ** The upload *)

Section Processing.

Context {W : Type} (h : io_handler W).

Lemma store_upload_ok file doc_id cached_file_path w doc_id' name t :
  io_value (arun h (store_upload file doc_id cached_file_path) w) =
    Ok (doc_id', name, Some t) ->
  t <> "" ->
  doc_id' = doc_id /\ name = filename file /\
  In (IoCalled (write_text (text_file_of doc_id) t))
     (io_trace (arun h (store_upload file doc_id cached_file_path) w)).
Proof.
  unfold store_upload.
  rewrite io_value_abind, io_trace_abind, io_value_ask, io_world_ask,
    io_trace_ask.
  destruct (io_answer h (open_wb cached_file_path) w) as [[]|e];
    [|discriminate].
  rewrite io_value_abind, io_trace_abind, io_value_ask, io_world_ask,
    io_trace_ask.
  destruct (io_answer h (file_read file) _) as [content|e]; [|discriminate].
  rewrite io_value_abind, io_trace_abind, io_value_ask, io_world_ask,
    io_trace_ask.
  destruct (io_answer h (write_bytes cached_file_path content) _) as [[]|e];
    [|discriminate].
  rewrite io_value_abind, io_trace_abind.
  destruct (io_value (arun h (extract_text_from_pdf cached_file_path) _))
    as [text|]; rewrite io_value_abind, io_trace_abind;
    cbn [arun io_value]; [|discriminate].
  intros [= <- <- ->] Hne.
  repeat split. cbn [has_text].
  apply String.eqb_neq in Hne. rewrite Hne. cbn [negb].
  unfold save_extracted_text at 1. rewrite io_trace_abind, io_trace_ask.
  rewrite !in_app_iff. cbn [In]. auto 12.
Qed.

(** X21: The triple [process_document] returns names the identifier it drew
    and the name of the upload; and when it holds a text, that text was
    written to the text cache under that identifier (whether the write
    succeeded is not looked at). *)
Theorem processed_text_is_written (file : UploadFile) (w : W)
    (doc_id name t : string) :
  io_value (arun h (process_document file) w) = Ok (doc_id, name, Some t) ->
  t <> "" ->
  doc_id = io_answer h uuid4 w /\ name = filename file /\
  In (IoCalled (write_text (text_file_of doc_id) t))
     (io_trace (arun h (process_document file) w)).
Proof.
  unfold process_document.
  rewrite !io_value_abind, !io_trace_abind, !io_value_ask, !io_world_ask.
  set (id := io_answer h uuid4 w).
  set (w1 := io_after h uuid4 w).
  set (ext := io_answer h (Path_suffix (filename file)) w1).
  set (w2 := io_after h (Path_suffix (filename file)) w1).
  set (p := Path TEXT_CACHE_DIR (id +:+ ext)).
  destruct (io_value (arun h (store_upload file id p) w2))
    as [triple|e] eqn:Hstore.
  - cbn [arun io_value]. intros [= ->] Hne.
    destruct (store_upload_ok _ _ _ _ _ _ _ Hstore Hne) as (-> & -> & Hin).
    repeat split. rewrite !in_app_iff. auto 12.
  - rewrite !io_value_abind, !io_value_ask.
    destruct (io_answer h (core (path_exists p)) _) as [[|]|e'];
      cbn [arun io_value]; [|discriminate|discriminate].
    rewrite io_value_abind, io_value_ask.
    now destruct (io_answer h (unlink p) _).
Qed.

End Processing.


Section Upload.

Context {W : Type} (h : io_handler W).
Variable db_connected : bool.
Variable cfg : Config.

(** X23: Once [process_document] has returned a text, [upload_document]
    answers with a body, whatever the analysis and the database do: the
    summary is the report of the analysis, or the fixed pending summary
    when the analysis raises, and what [save_document_summary] returns is
    not looked at. *)
Theorem upload_answers_after_processing (file : UploadFile)
    (user_id doc_id name t : string) (w : W) :
  let processed := arun h (process_document file) w in
  endswith (filename file) ".pdf" = true ->
  io_value processed = Ok (doc_id, name, Some t) ->
  t <> "" ->
  io_value (arun h (upload_document db_connected cfg file user_id) w) =
  Reply (uploaded doc_id name
           match value (run (core_handler h)
                          (_summarize_document_sync cfg doc_id)
                          (io_world processed)) with
           | Ok summary_report => model_dump summary_report
           | Raise _ => PENDING_SUMMARY
           end).
Proof.
  cbv zeta. intros Hpdf Hprocessed Hne.
  unfold upload_document. rewrite Hpdf. cbn [negb].
  rewrite io_value_abind, Hprocessed. cbn [has_text].
  apply String.eqb_neq in Hne. rewrite Hne. cbn [negb].
  unfold summarize_document.
  rewrite io_value_abind, io_value_of_prog, io_world_of_prog.
  rewrite !io_value_abind.
  destruct (value (run (core_handler h) _ _)) as [summary_report|e];
    reflexivity.
Qed.

(** X24: [upload_document] raises only what its own checks and
    [process_document] give rise to: status 400 for a name that does not
    end in [.pdf] and for an upload without text, status 500 when
    [process_document] raises.  A failure of the analysis or of the
    database is never reported. *)
Theorem upload_fails_only_on_processing (file : UploadFile)
    (user_id : string) (w : W) (status_code : nat) (detail : string) :
  io_value (arun h (upload_document db_connected cfg file user_id) w) =
    HTTPException status_code detail ->
  (status_code = 400 /\ detail = "Only PDF files are allowed" /\
   endswith (filename file) ".pdf" = false) \/
  (status_code = 400 /\ detail = "Failed to extract text from PDF" /\
   exists doc_id name extracted_text,
     io_value (arun h (process_document file) w) =
       Ok (doc_id, name, extracted_text) /\
     has_text extracted_text = false) \/
  (status_code = 500 /\
   exists e,
     io_value (arun h (process_document file) w) = Raise e /\
     detail = "Error processing document: " +:+ exn_msg e).
Proof.
  unfold upload_document.
  destruct (endswith (filename file) ".pdf") eqn:Hpdf; cbn [negb].
  - rewrite io_value_abind.
    destruct (io_value (arun h (process_document file) w))
      as [[[doc_id name] extracted_text]|e].
    + destruct (has_text extracted_text) eqn:Htext; cbn [negb].
      * rewrite !io_value_abind. discriminate.
      * intros [= <- <-]. right; left. eauto 10.
    + intros [= <- <-]. right; right. eauto.
  - intros [= <- <-]. now left.
Qed.

End Upload.


Section Office.

Import Stub Scenario Desk Office.

Lemma path_eqb_refl p : path_eqb p p = true.
Proof. destruct p as [[] name]; apply String.eqb_refl. Qed.

Lemma universal_newlines_plain text :
  contains_char cr text = false -> universal_newlines text = text.
Proof.
  induction text as [|c text IH]; [reflexivity|].
  cbn [contains_char universal_newlines]. rewrite Ascii.eqb_sym.
  destruct (Ascii.eqb c cr); [discriminate|].
  intros H. now rewrite IH.
Qed.

(** The files of [Desk] read back a text without carriage return as it
    was written. *)
Lemma desk_reads_back_plain_text s pages :
  reads_back_plain_text (handle s pages).
Proof.
  intros p text w Hplain. unfold io_answer, io_after.
  cbn -[too_long]. unfold exists_on_disk.
  destruct (too_long p); cbn -[too_long]; [discriminate|]. intros _.
  rewrite path_eqb_refl. now rewrite (universal_newlines_plain text Hplain).
Qed.

Lemma saved_text_is_loaded_witness :
  value (run (core_handler (handle (one_document (says "")) lease_pages))
           (load_extracted_text "doc-7")
           (io_world (arun (handle (one_document (says "")) lease_pages)
                        (save_extracted_text "doc-7" lease_text) empty))) =
    Ok (Some lease_text) /\
  (lease_text <> "" ->
   value (run (core_handler (handle (one_document (says "")) lease_pages))
            (load_all_texts ["doc-7"] [])
            (io_world (arun (handle (one_document (says "")) lease_pages)
                         (save_extracted_text "doc-7" lease_text) empty))) =
     Ok [lease_text] /\
   value (run (core_handler (handle (one_document (says "")) lease_pages))
            (_summarize_document_sync cfg "doc-7")
            (io_world (arun (handle (one_document (says "")) lease_pages)
                         (save_extracted_text "doc-7" lease_text) empty))) <>
     Raise (not_found "doc-7")).
Proof.
  apply (saved_text_is_loaded (handle (one_document (says "")) lease_pages)
           cfg "doc-7" lease_text empty);
    [apply desk_reads_back_plain_text | reflexivity | reflexivity].
Defined.

Lemma extract_joins_the_page_texts_witness :
  io_value (arun (handle (one_document (says "")) lease_pages)
              (extract_text_from_pdf
                 (Path TEXT_CACHE_DIR (UPLOAD_ID +:+ ".pdf"))) filed) =
  Some lease_text.
Proof.
  apply (extract_joins_the_page_texts
           (handle (one_document (says "")) lease_pages)
           (Path TEXT_CACHE_DIR (UPLOAD_ID +:+ ".pdf")) [0; 1; 2]
           lease_page filed).
  - reflexivity.
  - intros page w' [<- | [<- | [<- | []]]]; reflexivity.
Defined.

Lemma processed_text_is_written_witness :
  UPLOAD_ID = UPLOAD_ID /\ "lease.pdf" = "lease.pdf" /\
  In (IoCalled (write_text (text_file_of UPLOAD_ID) lease_text))
     (io_trace (arun (handle (one_document (says "")) lease_pages)
                  (process_document lease_pdf) empty)).
Proof.
  apply (processed_text_is_written
           (handle (one_document (says "")) lease_pages) lease_pdf empty
           UPLOAD_ID "lease.pdf" lease_text);
    [reflexivity | discriminate].
Defined.

Lemma chat_user_asks_by_database_id_witness :
  io_value (arun (handle (one_document (says "The rent is 900.")) lease_pages)
              (chat_user true cfg (Some emb) "user-1" "What is the rent?")
              filed) =
  Reply (JDict [("response", JStr INDEXING_FAILED)]).
Proof.
  apply (chat_user_asks_by_database_id
           (handle (one_document (says "The rent is 900.")) lease_pages)
           cfg (Some emb) "user-1" "What is the rent?" [lease_record] filed);
    [reflexivity | discriminate | repeat constructor; discriminate].
Defined.

Lemma upload_answers_after_processing_witness :
  io_value (arun (handle (one_document (says "I cannot help with that."))
                    lease_pages)
              (upload_document true cfg lease_pdf "user-1") empty) =
  Reply (uploaded UPLOAD_ID "lease.pdf" PENDING_SUMMARY).
Proof.
  apply (upload_answers_after_processing
           (handle (one_document (says "I cannot help with that."))
              lease_pages)
           true cfg lease_pdf "user-1" UPLOAD_ID "lease.pdf" lease_text empty);
    [reflexivity | reflexivity | discriminate].
Defined.

Lemma upload_fails_only_on_processing_witness :
  (400 = 400 /\ "Only PDF files are allowed" = "Only PDF files are allowed" /\
   endswith (filename notes_txt) ".pdf" = false) \/
  (400 = 400 /\
   "Only PDF files are allowed" = "Failed to extract text from PDF" /\
   exists doc_id name extracted_text,
     io_value (arun (handle (one_document (says "")) lease_pages)
                 (process_document notes_txt) empty) =
       Ok (doc_id, name, extracted_text) /\
     has_text extracted_text = false) \/
  (400 = 500 /\
   exists e,
     io_value (arun (handle (one_document (says "")) lease_pages)
                 (process_document notes_txt) empty) = Raise e /\
     "Only PDF files are allowed" = "Error processing document: " +:+ exn_msg e).
Proof.
  apply (upload_fails_only_on_processing
           (handle (one_document (says "")) lease_pages) true cfg notes_txt
           "user-1" empty 400 "Only PDF files are allowed").
  reflexivity.
Defined.

End Office.


Section Cleanup.

Context {W : Type} (h : io_handler W).

Lemma page_texts_removes_nothing pdf_path pages : forall text_parts w,
  Forall (fun c => removes c = false)
    (io_trace (arun h (page_texts pdf_path pages text_parts) w)).
Proof.
  induction pages as [|page pages IH]; intros text_parts w.
  - constructor.
  - cbn [page_texts]. rewrite io_trace_abind, io_trace_ask.
    apply Forall_app. split; [repeat constructor|].
    destruct (io_value (arun h (ask (page_extract_text pdf_path page)) w));
      [apply IH | constructor].
Qed.

Lemma extract_text_removes_nothing pdf_path w :
  Forall (fun c => removes c = false)
    (io_trace (arun h (extract_text_from_pdf pdf_path) w)).
Proof.
  unfold extract_text_from_pdf. cbv zeta.
  rewrite io_trace_abind, io_trace_ask.
  apply Forall_app. split; [repeat constructor|].
  destruct (io_value (arun h (ask (PdfReader pdf_path)) w)) as [pages|e];
    [|repeat constructor].
  rewrite io_trace_abind. apply Forall_app.
  split; [apply page_texts_removes_nothing|].
  destruct (io_value (arun h (page_texts pdf_path pages []) _));
    repeat constructor.
Qed.

Lemma save_extracted_text_removes_nothing doc_id text w :
  Forall (fun c => removes c = false)
    (io_trace (arun h (save_extracted_text doc_id text) w)).
Proof.
  unfold save_extracted_text. rewrite io_trace_abind, io_trace_ask.
  apply Forall_app. split; [repeat constructor|].
  destruct (io_value (arun h (ask (write_text _ text)) w));
    repeat constructor.
Qed.

Lemma store_upload_removes_nothing file doc_id cached_file_path w :
  Forall (fun c => removes c = false)
    (io_trace (arun h (store_upload file doc_id cached_file_path) w)).
Proof.
  unfold store_upload.
  rewrite io_trace_abind, io_trace_ask.
  apply Forall_app. split; [repeat constructor|].
  destruct (io_value (arun h (ask (open_wb cached_file_path)) w));
    [|constructor].
  rewrite io_trace_abind, io_trace_ask.
  apply Forall_app. split; [repeat constructor|].
  destruct (io_value (arun h (ask (file_read file)) _)) as [content|e];
    [|constructor].
  rewrite io_trace_abind, io_trace_ask.
  apply Forall_app. split; [repeat constructor|].
  destruct (io_value (arun h (ask (write_bytes cached_file_path content)) _));
    [|constructor].
  rewrite io_trace_abind.
  apply Forall_app. split; [apply extract_text_removes_nothing|].
  rewrite io_trace_abind. apply Forall_app. split; [|constructor].
  destruct (io_value (arun h (extract_text_from_pdf cached_file_path) _))
    as [text|]; [|constructor].
  destruct (has_text (Some text));
    [apply save_extracted_text_removes_nothing | constructor].
Qed.

(** X22: [process_document] removes a file only on its way out with an
    exception: when it returns, no file was removed, and the upload it
    wrote stays in the cache directory. *)
Theorem upload_is_removed_only_on_failure (file : UploadFile) (w : W)
    (triple : string * string * option string) :
  io_value (arun h (process_document file) w) = Ok triple ->
  Forall (fun c => removes c = false)
    (io_trace (arun h (process_document file) w)).
Proof.
  unfold process_document.
  rewrite !io_value_abind, !io_trace_abind, !io_value_ask, !io_world_ask,
    !io_trace_ask.
  set (id := io_answer h uuid4 w).
  set (w1 := io_after h uuid4 w).
  set (ext := io_answer h (Path_suffix (filename file)) w1).
  set (w2 := io_after h (Path_suffix (filename file)) w1).
  set (p := Path TEXT_CACHE_DIR (id +:+ ext)).
  intros Hv.
  apply Forall_app. split; [repeat constructor|].
  apply Forall_app. split; [repeat constructor|].
  apply Forall_app. split; [apply store_upload_removes_nothing|].
  destruct (io_value (arun h (store_upload file id p) w2)) as [t|e];
    [constructor|].
  exfalso. revert Hv.
  rewrite !io_value_abind, !io_value_ask.
  destruct (io_answer h (core (path_exists p)) _) as [[|]|e'];
    cbn [arun io_value]; [|discriminate|discriminate].
  rewrite io_value_abind, io_value_ask.
  now destruct (io_answer h (unlink p) _).
Qed.

End Cleanup.

Section CleanupRuns.

Import Stub Scenario Desk Office.

Lemma upload_is_removed_only_on_failure_witness :
  Forall (fun c => removes c = false)
    (io_trace (arun (handle (one_document (says "")) lease_pages)
                 (process_document lease_pdf) empty)).
Proof.
  apply (upload_is_removed_only_on_failure
           (handle (one_document (says "")) lease_pages) lease_pdf empty
           (UPLOAD_ID, "lease.pdf", Some lease_text)).
  reflexivity.
Defined.

End CleanupRuns.
